(** * mcp_proxy: request routing, access control and interceptors

    A shallow embedding of [mcp_proxy/python_mcp.py] and of the request path
    of [mcp_proxy/proxy.py], with the properties of the routing layer proved
    about it.

    Conventions of the embedding.
    - A Python value that travels through the proxy (a decoded JSON message,
      a value returned by a hook) is a [Json]; Python's [None] is [JNull],
      as [json.loads] has it.  JSON numbers are integers here: floating
      point is outside the embedding.
    - A JSON object is an association list in insertion order, as Python's
      [dict] keeps it; the dictionaries of the proxy object that are keyed
      by server or tool name are [gmap string _].
    - Code that can raise returns an [Exc]; the text carried by [Raise] is
      [str(e)], which the source copies into some error responses.
    - Code that touches the proxy object, a child process or a hook runs in
      [Run MCPProxy.t]: explicit state passing with exceptions, the state
      surviving a raise as it does in Python.
    - A hook is a function of its arguments: it returns a value or raises,
      and does not change the request it is given in place.
    - Writes to a client connection are taken to succeed.
    - [self.logger] is not modelled. *)

From Stdlib Require Import ZArith.
From stdpp Require Import base option gmap strings list pretty.

Local Open Scope Z_scope.
Local Open Scope string_scope.

Set Warnings "-register-all".

(* ================================================================== *)
(** ** Python values *)
(* ================================================================== *)

Inductive Json : Type :=
| JNull
| JBool (b : bool)
| JInt (z : Z)
| JStr (s : string)
| JList (l : list Json)
| JObj (kvs : list (string * Json)).

Abbreviation PyNone := JNull (only parsing).

(** [d[k]] on an insertion-ordered dictionary. *)
Fixpoint assoc {A : Type} (k : string) (kvs : list (string * A)) : option A :=
  match kvs with
  | [] => None
  | (k', v) :: rest => if String.eqb k k' then Some v else assoc k rest
  end.

(** [bool(v)]: [None], [False], [0], [""], [[]] and [{}] are falsy. *)
Definition py_truthy (v : Json) : bool :=
  match v with
  | JNull => false
  | JBool b => b
  | JInt z => negb (Z.eqb z 0)
  | JStr s => negb (String.eqb s "")
  | JList l => match l with [] => false | _ => true end
  | JObj kvs => match kvs with [] => false | _ => true end
  end.

(** [a == b] on decoded JSON.  [bool] is a subtype of [int] in Python, so
    [True == 1]; two dictionaries are equal when they have the same keys
    with equal values, whatever the insertion order. *)
Fixpoint py_eq (a b : Json) {struct a} : bool :=
  match a, b with
  | JNull, JNull => true
  | JBool x, JBool y => Bool.eqb x y
  | JBool x, JInt y => Z.eqb (Z.b2z x) y
  | JInt x, JBool y => Z.eqb x (Z.b2z y)
  | JInt x, JInt y => Z.eqb x y
  | JStr x, JStr y => String.eqb x y
  | JList xs, JList ys =>
      (fix go (xs ys : list Json) {struct xs} : bool :=
         match xs, ys with
         | [], [] => true
         | x :: xs', y :: ys' => py_eq x y && go xs' ys'
         | _, _ => false
         end) xs ys
  | JObj xs, JObj ys =>
      Nat.eqb (length xs) (length ys) &&
      (fix go (xs : list (string * Json)) {struct xs} : bool :=
         match xs with
         | [] => true
         | (k, v) :: xs' =>
             match assoc k ys with
             | Some w => py_eq v w
             | None => false
             end && go xs'
         end) xs
  | _, _ => false
  end.

(** [type(v).__name__] *)
Definition type_name (v : Json) : string :=
  match v with
  | JNull => "NoneType"
  | JBool _ => "bool"
  | JInt _ => "int"
  | JStr _ => "str"
  | JList _ => "list"
  | JObj _ => "dict"
  end.

(* ================================================================== *)
(** ** Exceptions *)
(* ================================================================== *)

Inductive Exc (A : Type) : Type :=
| Return (a : A)
| Raise (e : string).
Arguments Return {A} a.
Arguments Raise {A} e.

Definition exc_bind {A B : Type} (m : Exc A) (f : A → Exc B) : Exc B :=
  match m with
  | Return a => f a
  | Raise e => Raise e
  end.

Notation "x <- m ;; k" := (exc_bind m (λ x, k))
  (at level 100, m at next level, right associativity, only parsing).

(** [try: body except Exception as e: handler(e)] *)
Definition try_except {A : Type} (body : Exc A) (handler : string → Exc A) : Exc A :=
  match body with
  | Return a => Return a
  | Raise e => handler e
  end.

(** The text of the [AttributeError] for [v.attr]. *)
Definition no_attribute (cls attr : string) : string :=
  "'" ++ cls ++ "' object has no attribute '" ++ attr ++ "'".

(** [d.get(k, default)]; only a [dict] has the method. *)
Definition py_get (d : Json) (k : string) (dflt : Json) : Exc Json :=
  match d with
  | JObj kvs => Return (default dflt (assoc k kvs))
  | _ => Raise (no_attribute (type_name d) "get")
  end.

(** [k in d] for a dictionary [d]. *)
Definition has_key (k : string) (kvs : list (string * Json)) : bool :=
  match assoc k kvs with
  | Some _ => true
  | None => false
  end.

(** [p in s] for two strings: [p] occurs in [s]. *)
Fixpoint occurs_in (p s : string) : bool :=
  String.prefix p s ||
  match s with
  | EmptyString => false
  | String _ s' => occurs_in p s'
  end.

(** [k in c] for a string [k] and an arbitrary value [c]: a key test on a
    dictionary, an element test on a list, a substring test on a string,
    a [TypeError] otherwise. *)
Definition py_in (k : string) (c : Json) : Exc bool :=
  match c with
  | JObj kvs => Return (has_key k kvs)
  | JList l => Return (existsb (py_eq (JStr k)) l)
  | JStr s => Return (occurs_in k s)
  | _ => Raise ("argument of type '" ++ type_name c ++ "' is not iterable")
  end.

(** The values a [for x in c] loop visits: the elements of a list, the keys
    of a dictionary, the characters of a string. *)
Definition py_iter (c : Json) : Exc (list Json) :=
  match c with
  | JList l => Return l
  | JObj kvs => Return (map (λ kv, JStr (fst kv)) kvs)
  | JStr s => Return (map (λ a, JStr (String a EmptyString)) (String.list_ascii_of_string s))
  | _ => Raise ("'" ++ type_name c ++ "' object is not iterable")
  end.

(** [x in l] for a list of strings [l]. *)
Definition in_str_list (x : Json) (l : list string) : bool :=
  existsb (λ s, py_eq x (JStr s)) l.

(** [x in d] and [d[x]] for a dictionary keyed by strings: the key is hashed
    first, which a list or a dictionary refuses. *)
Definition lookup_key {A : Type} (x : Json) (d : gmap string A) : Exc (option A) :=
  match x with
  | JStr s => Return (d !! s)
  | JList _ | JObj _ => Raise ("unhashable type: '" ++ type_name x ++ "'")
  | _ => Return None
  end.

(* ================================================================== *)
(** ** python_mcp.py *)
(* ================================================================== *)

(** [MCPTool]: [function] is the bound method, called with keyword
    arguments. *)
Record MCPTool : Type := {
  tool_name : string;
  tool_description : string;
  tool_parameters : Json;
  tool_function : list (string * Json) → Exc Json;
}.

(** An instance of a subclass of [BaseMCP] after [__init__]: [_tools] is the
    dictionary [_discover_tools] filled, in insertion order.  The subclass
    contributes the tool methods and nothing else; none of them is named
    [call_tool] or [get_server_info]. *)
Record BaseMCP : Type := {
  mcp_class : string;
  mcp_name : string;
  _tools : list (string * MCPTool);
}.

(** [BaseMCP.get_tools] *)
Definition get_tools (self : BaseMCP) : list Json :=
  map (λ kv, let tool := snd kv in
             JObj [ ("name", JStr (tool_name tool));
                    ("description", JStr (tool_description tool));
                    ("inputSchema", tool_parameters tool) ])
      (_tools self).

(** [self.mcp.call_tool(tool_name, arguments)].  The class body of [BaseMCP]
    ends where [def expose_tool] starts at the left margin; [call_tool] is
    written below the [return func] of [expose_tool], indented into that
    function's body, so no class has it as an attribute and the lookup
    raises [AttributeError] before any tool function is reached. *)
Definition call_tool (self : BaseMCP) (name arguments : Json) : Exc Json :=
  Raise (no_attribute (mcp_class self) "call_tool").

(** [self.mcp.get_server_info()]: written below [call_tool], in the same
    place. *)
Definition get_server_info (self : BaseMCP) : Exc Json :=
  Raise (no_attribute (mcp_class self) "get_server_info").

(** [repr(s)] for a string: single quotes unless the text holds a single
    quote and no double quote; backslash, the quote and control characters
    escaped.  (Characters are bytes here; Python leaves printable characters
    beyond ASCII as they are, and so does this.) *)
Definition hex_digit (n : N) : Ascii.ascii :=
  Ascii.ascii_of_N (if (n <? 10)%N then 48 + n else 87 + n)%N.

Definition repr_char (quote c : Ascii.ascii) : string :=
  let n := Ascii.N_of_ascii c in
  if (n =? 92)%N then String c (String c EmptyString)
  else if Ascii.eqb c quote then String (Ascii.ascii_of_N 92) (String c EmptyString)
  else if (n =? 10)%N then String (Ascii.ascii_of_N 92) "n"
  else if (n =? 13)%N then String (Ascii.ascii_of_N 92) "r"
  else if (n =? 9)%N then String (Ascii.ascii_of_N 92) "t"
  else if ((n <? 32) || (n =? 127))%N then
    String (Ascii.ascii_of_N 92)
      ("x" ++ String (hex_digit (n / 16)) (String (hex_digit (n mod 16)) EmptyString))
  else String c EmptyString.

Definition repr_str (s : string) : string :=
  let squote := Ascii.ascii_of_N 39 in
  let dquote := Ascii.ascii_of_N 34 in
  let chars := String.list_ascii_of_string s in
  let quote :=
    if existsb (Ascii.eqb squote) chars && negb (existsb (Ascii.eqb dquote) chars)
    then dquote else squote in
  String quote (String.concat "" (map (repr_char quote) chars) ++ String quote EmptyString).

(** [repr(v)] *)
Fixpoint py_repr (v : Json) : string :=
  match v with
  | JNull => "None"
  | JBool true => "True"
  | JBool false => "False"
  | JInt z => pretty z
  | JStr s => repr_str s
  | JList l => "[" ++ String.concat ", " (map py_repr l) ++ "]"
  | JObj kvs =>
      "{" ++ String.concat ", "
               (map (λ kv, match kv with
                           | (k, x) => repr_str k ++ ": " ++ py_repr x
                           end) kvs) ++ "}"
  end.

(** [str(v)], which an f-string applies to an interpolated value. *)
Definition py_str (v : Json) : string :=
  match v with
  | JStr s => s
  | _ => py_repr v
  end.

Module PythonMCPServer.

Record t : Type := { mcp : BaseMCP }.

Definition _create_error_response (request_id : Json) (code : Z) (message : string) : Json :=
  match request_id with
  | JNull => PyNone
  | _ => JObj [ ("jsonrpc", JStr "2.0");
                ("id", request_id);
                ("error", JObj [ ("code", JInt code); ("message", JStr message) ]) ]
  end.

Definition _handle_initialize (self : t) (request_id : Json) : Exc Json :=
  server_info <- get_server_info (mcp self) ;;
  Return (JObj [ ("jsonrpc", JStr "2.0");
                 ("id", request_id);
                 ("result", JObj [ ("protocolVersion", JStr "2024-11-05");
                                   ("capabilities", JObj [ ("tools", JObj []) ]);
                                   ("serverInfo", server_info) ]) ]).

Definition _handle_tools_list (self : t) (request_id : Json) : Exc Json :=
  let tools := get_tools (mcp self) in
  Return (JObj [ ("jsonrpc", JStr "2.0");
                 ("id", request_id);
                 ("result", JObj [ ("tools", JList tools) ]) ]).

Definition _handle_tool_call (self : t) (request_id params : Json) : Exc Json :=
  name <- py_get params "name" PyNone ;;
  arguments <- py_get params "arguments" (JObj []) ;;
  if negb (py_truthy name) then
    Return (_create_error_response request_id (-32602) "Missing tool name")
  else
    try_except
      (result <- call_tool (mcp self) name arguments ;;
       Return (JObj [ ("jsonrpc", JStr "2.0");
                      ("id", request_id);
                      ("result", JObj [ ("content",
                         JList [ JObj [ ("type", JStr "text");
                                        ("text", JStr (py_str result)) ] ]) ]) ]))
      (λ e, Return (_create_error_response request_id (-32000)
                      ("Tool execution failed: " ++ e))).

Definition handle_request (self : t) (request : Json) : Exc Json :=
  try_except
    (method <- py_get request "method" PyNone ;;
     params <- py_get request "params" (JObj []) ;;
     request_id <- py_get request "id" PyNone ;;
     if py_eq method (JStr "initialize") then _handle_initialize self request_id
     else if py_eq method (JStr "tools/list") then _handle_tools_list self request_id
     else if py_eq method (JStr "tools/call") then _handle_tool_call self request_id params
     else
       Return (_create_error_response request_id (-32601)
                 ("Unknown method: " ++ py_str method)))
    (λ e, request_id <- py_get request "id" PyNone ;;
          Return (_create_error_response request_id (-32603) e)).

End PythonMCPServer.

(* ================================================================== *)
(** ** proxy.py: data *)
(* ================================================================== *)

(** [threading.BoundedSemaphore]: [acquire(blocking=False)] takes a slot if
    one is free; [release()] raises [ValueError] rather than let the counter
    pass its initial value. *)
Module BoundedSemaphore.

Record t : Type := { _value : nat; _initial_value : nat }.

Definition init (value : nat) : t := {| _value := value; _initial_value := value |}.

Definition acquire_nonblocking (self : t) : bool * t :=
  match _value self with
  | O => (false, self)
  | S n => (true, {| _value := n; _initial_value := _initial_value self |})
  end.

Definition release (self : t) : Exc unit * t :=
  if (_initial_value self <=? _value self)%nat
  then (Raise "Semaphore released too many times", self)
  else (Return (), {| _value := S (_value self); _initial_value := _initial_value self |}).

End BoundedSemaphore.

(** A before-hook takes (request, server_name, tool_name), an after-hook
    (request, response, server_name, tool_name); each returns a value or
    raises.  The tool name is whatever [params.name] held. *)
Definition BeforeHook : Type := Json → string → Json → Exc Json.
Definition AfterHook : Type := Json → Json → string → Json → Exc Json.

Module MCPServerConfig.

(** The dataclass after [__post_init__], which replaces an absent
    interceptor dictionary by an empty one. *)
Record t : Type := {
  name : string;
  command : option string;
  args : list string;
  env : gmap string string;
  cwd : string;
  whitelist : option (list string);
  blacklist : option (list string);
  auto_start : bool;
  python_mcp : option BaseMCP;
  inherit_env : bool;
  intercept_before : gmap string BeforeHook;
  intercept_after : gmap string AfterHook;
}.

(** The check of [__post_init__]. *)
Definition __post_init__ (self : t) : Exc t :=
  match python_mcp self, command self with
  | None, None => Raise "Either command or python_mcp must be provided"
  | Some _, Some _ => Raise "Cannot specify both command and python_mcp"
  | _, _ => Return self
  end.

Definition is_python_mcp (self : t) : bool :=
  match python_mcp self with
  | Some _ => true
  | None => false
  end.

End MCPServerConfig.

(** What one wait on the child's stdout can bring. *)
Inductive Stdout : Type :=
| Timeout                    (** [select] reports nothing within the timeout *)
| ReadError (e : string)     (** [select] or [readline] raises *)
| Eof                        (** [readline] returns the empty string *)
| Line (parsed : Exc Json).  (** a line, and what [json.loads] makes of it *)

(** A child process as the proxy sees it: the lines written to its stdin so
    far, whether a write to stdin raises, and what its stdout will bring at
    each wait to come (nothing once the list is used up). *)
Record Popen : Type := {
  stdin_lines : list Json;
  stdin_broken : option string;
  stdout_script : list Stdout;
}.

(** [process.stdin.write(json.dumps(message) + "\n"); process.stdin.flush()] *)
Definition stdin_write (message : Json) (process : Popen) : Exc unit * Popen :=
  match stdin_broken process with
  | Some e => (Raise e, process)
  | None => (Return (),
             {| stdin_lines := stdin_lines process ++ [message];
                stdin_broken := stdin_broken process;
                stdout_script := stdout_script process |})
  end.

(** One wait on stdout. *)
Definition stdout_wait (process : Popen) : Stdout * Popen :=
  match stdout_script process with
  | [] => (Timeout, process)
  | o :: rest => (o, {| stdin_lines := stdin_lines process;
                        stdin_broken := stdin_broken process;
                        stdout_script := rest |})
  end.

(** The calls the properties speak about, recorded as they happen: a hook
    being invoked (with the dictionary key it was found under) and
    [_forward_to_server] being entered. *)
Inductive Call : Type :=
| CallBefore (key request : Json)
| CallAfter (key request response : Json)
| CallForward (server_name : string) (message : Json).

Module MCPProxy.

Record t : Type := {
  name : string;
  servers : gmap string MCPServerConfig.t;
  active_processes : gmap string Popen;
  python_servers : gmap string PythonMCPServer.t;
  running : bool;
  max_connections : nat;
  max_message_bytes : Z;
  connection_semaphore : BoundedSemaphore.t;
  calls : list Call;
}.

(** [MCPProxy.__init__] *)
Definition __init__ (name : string) : t :=
  {| name := name;
     servers := ∅;
     active_processes := ∅;
     python_servers := ∅;
     running := false;
     max_connections := 100;
     max_message_bytes := 1024 * 1024;
     connection_semaphore := BoundedSemaphore.init 100;
     calls := [] |}.

Definition set_servers (v : gmap string MCPServerConfig.t) (self : t) : t :=
  {| name := name self; servers := v; active_processes := active_processes self;
     python_servers := python_servers self; running := running self;
     max_connections := max_connections self;
     max_message_bytes := max_message_bytes self;
     connection_semaphore := connection_semaphore self; calls := calls self |}.

Definition set_active_processes (v : gmap string Popen) (self : t) : t :=
  {| name := name self; servers := servers self; active_processes := v;
     python_servers := python_servers self; running := running self;
     max_connections := max_connections self;
     max_message_bytes := max_message_bytes self;
     connection_semaphore := connection_semaphore self; calls := calls self |}.

Definition set_python_servers (v : gmap string PythonMCPServer.t) (self : t) : t :=
  {| name := name self; servers := servers self;
     active_processes := active_processes self;
     python_servers := v; running := running self;
     max_connections := max_connections self;
     max_message_bytes := max_message_bytes self;
     connection_semaphore := connection_semaphore self; calls := calls self |}.

Definition set_running (v : bool) (self : t) : t :=
  {| name := name self; servers := servers self;
     active_processes := active_processes self;
     python_servers := python_servers self; running := v;
     max_connections := max_connections self;
     max_message_bytes := max_message_bytes self;
     connection_semaphore := connection_semaphore self; calls := calls self |}.

Definition set_connection_semaphore (v : BoundedSemaphore.t) (self : t) : t :=
  {| name := name self; servers := servers self;
     active_processes := active_processes self;
     python_servers := python_servers self; running := running self;
     max_connections := max_connections self;
     max_message_bytes := max_message_bytes self;
     connection_semaphore := v; calls := calls self |}.

Definition set_calls (v : list Call) (self : t) : t :=
  {| name := name self; servers := servers self;
     active_processes := active_processes self;
     python_servers := python_servers self; running := running self;
     max_connections := max_connections self;
     max_message_bytes := max_message_bytes self;
     connection_semaphore := connection_semaphore self; calls := v |}.

End MCPProxy.

(* ================================================================== *)
(** ** State passing with exceptions *)
(* ================================================================== *)

Definition Run (S A : Type) : Type := S → Exc A * S.

Definition ret {S A : Type} (a : A) : Run S A := λ s, (Return a, s).

Definition run_bind {S A B : Type} (m : Run S A) (f : A → Run S B) : Run S B :=
  λ s, match m s with
       | (Return a, s') => f a s'
       | (Raise e, s') => (Raise e, s')
       end.

Notation "x <~ m ;; k" := (run_bind m (λ x, k))
  (at level 100, m at next level, right associativity, only parsing).

(** A computation that only returns or raises. *)
Definition lift {S A : Type} (c : Exc A) : Run S A := λ s, (c, s).

Definition get_self {S : Type} : Run S S := λ s, (Return s, s).

(** [try: body except Exception as e: handler(e)]; what [body] did to the
    state before it raised stays done. *)
Definition try_run {S A : Type} (body : Run S A) (handler : string → Run S A) : Run S A :=
  λ s, match body s with
       | (Return a, s') => (Return a, s')
       | (Raise e, s') => handler e s'
       end.

(* ================================================================== *)
(** ** proxy.py: registration, environment, access filter *)
(* ================================================================== *)

Import MCPProxy.

(** [MCPProxy.add_server]: [self.servers[config.name] = config] *)
Definition add_server (config : MCPServerConfig.t) (self : MCPProxy.t) : MCPProxy.t :=
  set_servers (<[MCPServerConfig.name config := config]> (servers self)) self.

(** [MCPProxy._build_subprocess_env], with [os.environ] as [environ].
    [base_env.update(config.env)] lets the entries of [config.env] win. *)
Definition _build_subprocess_env (environ : gmap string string)
    (config : MCPServerConfig.t) : gmap string string :=
  let base_env :=
    if MCPServerConfig.inherit_env config then environ
    else <["PATH" := default "/usr/bin:/bin:/usr/sbin:/sbin" (environ !! "PATH")]>
           (<["LANG" := default "C.UTF-8" (environ !! "LANG")]> ∅) in
  if (size (MCPServerConfig.env config) =? 0)%nat then base_env
  else MCPServerConfig.env config ∪ base_env.

(** [bool(l)] for an optional list: [None] and [[]] are falsy. *)
Definition list_truthy {A : Type} (l : option (list A)) : bool :=
  match l with
  | Some (_ :: _) => true
  | _ => false
  end.

(** [MCPProxy.is_tool_allowed] *)
Definition is_tool_allowed (self : MCPProxy.t) (server_name : string)
    (tool_name : Json) : bool :=
  match servers self !! server_name with
  | None => false
  | Some config =>
      if list_truthy (MCPServerConfig.blacklist config)
         && in_str_list tool_name (default [] (MCPServerConfig.blacklist config))
      then false
      else if list_truthy (MCPServerConfig.whitelist config)
              && negb (in_str_list tool_name (default [] (MCPServerConfig.whitelist config)))
      then false
      else true
  end.

(* ================================================================== *)
(** ** proxy.py: interceptors *)
(* ================================================================== *)

Definition record_call (c : Call) : Run MCPProxy.t unit :=
  λ self, (Return (), set_calls (calls self ++ [c]) self).

(** [x is None] *)
Definition is_none (v : Json) : bool :=
  match v with
  | JNull => true
  | _ => false
  end.

(** One stage of a pipeline: the hook is called inside [try]; a [None]
    result or an exception makes the enclosing function return [None]
    (here: the stage yields [None]); any other result is the value the
    function goes on with. *)
Definition run_hook (c : Call) (result : Exc Json) : Run MCPProxy.t (option Json) :=
  try_run
    (_ <~ record_call c ;;
     current <~ lift result ;;
     ret (if is_none current then None else Some current))
    (λ _, ret None).

(** [MCPProxy._process_server_interceptors_before] *)
Definition _process_server_interceptors_before (request : Json)
    (server_name : string) (tool_name : Json) : Run MCPProxy.t Json :=
  self <~ get_self ;;
  match servers self !! server_name with
  | None => ret request
  | Some config =>
      let hooks := MCPServerConfig.intercept_before config in
      if (size hooks =? 0)%nat then ret request
      else
        specific <~ lift (lookup_key tool_name hooks) ;;
        stage <~ match specific with
                | Some interceptor =>
                    run_hook (CallBefore tool_name request)
                             (interceptor request server_name tool_name)
                | None => ret (Some request)
                end ;;
        match stage with
        | None => ret PyNone
        | Some current_request =>
            match hooks !! "*" with
            | Some interceptor =>
                stage' <~ run_hook (CallBefore (JStr "*") current_request)
                                  (interceptor current_request server_name tool_name) ;;
                ret (default PyNone stage')
            | None => ret current_request
            end
        end
  end.

(** [MCPProxy._process_server_interceptors_after] *)
Definition _process_server_interceptors_after (request response : Json)
    (server_name : string) (tool_name : Json) : Run MCPProxy.t Json :=
  self <~ get_self ;;
  match servers self !! server_name with
  | None => ret response
  | Some config =>
      let hooks := MCPServerConfig.intercept_after config in
      if (size hooks =? 0)%nat then ret response
      else
        specific <~ lift (lookup_key tool_name hooks) ;;
        stage <~ match specific with
                | Some interceptor =>
                    run_hook (CallAfter tool_name request response)
                             (interceptor request response server_name tool_name)
                | None => ret (Some response)
                end ;;
        match stage with
        | None => ret PyNone
        | Some current_response =>
            match hooks !! "*" with
            | Some interceptor =>
                stage' <~ run_hook (CallAfter (JStr "*") request current_response)
                                  (interceptor request current_response server_name tool_name) ;;
                ret (default PyNone stage')
            | None => ret current_response
            end
        end
  end.

(* ================================================================== *)
(** ** proxy.py: validation and forwarding *)
(* ================================================================== *)

(** [MCPProxy._is_valid_jsonrpc_message] *)
Definition _is_valid_jsonrpc_message (message : Json) : bool :=
  match message with
  | JObj kvs =>
      if negb (py_eq (default PyNone (assoc "jsonrpc" kvs)) (JStr "2.0")) then false
      else
        let has_method := has_key "method" kvs in
        let has_result := has_key "result" kvs in
        let has_error := has_key "error" kvs in
        if has_method then
          if has_result || has_error then false else true
        else
          if negb (has_result || has_error) then false
          else if has_result && has_error then false
          else true
  | _ => false
  end.

(** [MCPProxy._is_valid_jsonrpc_response] *)
Definition _is_valid_jsonrpc_response (message : Json) : bool :=
  match message with
  | JObj kvs =>
      if negb (py_eq (default PyNone (assoc "jsonrpc" kvs)) (JStr "2.0")) then false
      else if negb (has_key "id" kvs) then false
      else
        let has_result := has_key "result" kvs in
        let has_error := has_key "error" kvs in
        if negb (has_result || has_error) then false
        else if has_result && has_error then false
        else true
  | _ => false
  end.

(** [MCPProxy._create_error_response] *)
Definition _create_error_response (original_message : Json) (code : Z)
    (message : string) : Exc Json :=
  message_id <- (if py_truthy original_message
                then py_get original_message "id" PyNone
                else Return PyNone) ;;
  if is_none message_id then Return PyNone
  else Return (JObj [ ("jsonrpc", JStr "2.0");
                      ("id", message_id);
                      ("error", JObj [ ("code", JInt code);
                                       ("message", JStr message) ]) ]).

(** [MCPProxy._read_server_response_with_timeout]: the decoded line, or
    [None] on a timeout, an empty read, an undecodable line or an error. *)
Definition _read_server_response_with_timeout (process : Popen) : Json * Popen :=
  let (outcome, process') := stdout_wait process in
  (match outcome with
   | Line (Return response) => response
   | Line (Raise _) => PyNone
   | Eof => PyNone
   | Timeout => PyNone
   | ReadError _ => PyNone
   end, process').

(** The check both branches of [_forward_to_server] apply to a response
    they are about to return. *)
Definition check_response (message response : Json) : Exc Json :=
  if negb (_is_valid_jsonrpc_response response) then
    _create_error_response message (-32603) "Internal error"
  else
    req_id <- py_get message "id" PyNone ;;
    mismatch <- (if negb (is_none req_id)
                then resp_id <- py_get response "id" PyNone ;;
                     Return (negb (py_eq resp_id req_id))
                else Return false) ;;
    if mismatch then _create_error_response message (-32603) "Internal error"
    else Return response.

(** The statements of [_forward_to_server] that talk to the child: write
    the message, wait for a line, check it. *)
Definition exchange (message : Json) (process : Popen) : Exc Json * Popen :=
  let (written, process1) := stdin_write message process in
  match written with
  | Raise e => (Raise e, process1)
  | Return _ =>
      let (response, process2) := _read_server_response_with_timeout process1 in
      (if py_truthy response then check_response message response
       else _create_error_response message (-32003) "No response from server (timeout)",
       process2)
  end.

(** Run statements on the process object that [self.active_processes] holds
    under [server_name]; the object keeps what was done to it. *)
Definition on_process {A : Type} (server_name : string) (process : Popen)
    (body : Popen → Exc A * Popen) : Run MCPProxy.t A :=
  λ self, let (a, process') := body process in
          (a, set_active_processes (<[server_name := process']> (active_processes self)) self).

(** [MCPProxy._forward_to_server] *)
Definition _forward_to_server (server_name : string) (message : Json)
    : Run MCPProxy.t Json :=
  _ <~ record_call (CallForward server_name message) ;;
  self <~ get_self ;;
  match python_servers self !! server_name with
  | Some python_server =>
      try_run
        (if negb (_is_valid_jsonrpc_message message) then
           lift (_create_error_response message (-32600) "Invalid Request")
         else
           response <~ lift (PythonMCPServer.handle_request python_server message) ;;
           lift (check_response message response))
        (λ e, lift (_create_error_response message (-32003)
                      ("Python server error: " ++ e)))
  | None =>
      match active_processes self !! server_name with
      | None =>
          lift (_create_error_response message (-32001)
                  ("Server " ++ server_name ++ " not running"))
      | Some process =>
          try_run
            (if negb (_is_valid_jsonrpc_message message) then
               lift (_create_error_response message (-32600) "Invalid Request")
             else on_process server_name process (exchange message))
            (λ e, lift (_create_error_response message (-32003)
                          ("Server communication error: " ++ e)))
      end
  end.

(* ================================================================== *)
(** ** proxy.py: the per-server router *)
(* ================================================================== *)

(** [d[k]] for a value reached by subscription. *)
Definition py_index (d : Json) (k : string) : Exc Json :=
  match d with
  | JObj kvs =>
      match assoc k kvs with
      | Some v => Return v
      | None => Raise (repr_str k)
      end
  | JList _ => Raise "list indices must be integers or slices, not str"
  | JStr _ => Raise "string indices must be integers, not 'str'"
  | _ => Raise ("'" ++ type_name d ++ "' object is not subscriptable")
  end.

(** [server_response and "result" in server_response] *)
Definition has_result (server_response : Json) : Exc bool :=
  if py_truthy server_response then py_in "result" server_response
  else Return false.

(** [MCPProxy._handle_initialize_for_server] *)
Definition _handle_initialize_for_server (message : Json) (server_name : string)
    : Run MCPProxy.t Json :=
  server_response <~ _forward_to_server server_name message ;;
  ok <~ lift (has_result server_response) ;;
  if ok then ret server_response
  else
    message_id <~ lift (py_get message "id" PyNone) ;;
    ret (JObj [ ("jsonrpc", JStr "2.0");
                 ("id", message_id);
                 ("result", JObj [ ("protocolVersion", JStr "2024-11-05");
                                   ("capabilities", JObj [ ("tools", JObj []) ]);
                                   ("serverInfo", JObj [ ("name", JStr server_name);
                                                         ("version", JStr "1.0.0") ]) ]) ]).

(** The filtering loop of [_handle_tools_list_for_server]. *)
Fixpoint filter_tools (self : MCPProxy.t) (server_name : string)
    (tools : list Json) : Exc (list Json) :=
  match tools with
  | [] => Return []
  | tool :: rest =>
      tool_name <- py_get tool "name" PyNone ;;
      filtered <- filter_tools self server_name rest ;;
      Return (if py_truthy tool_name && is_tool_allowed self server_name tool_name
              then tool :: filtered
              else filtered)
  end.

(** [MCPProxy._handle_tools_list_for_server] *)
Definition _handle_tools_list_for_server (message : Json) (server_name : string)
    : Run MCPProxy.t Json :=
  server_response <~ _forward_to_server server_name message ;;
  ok <~ lift (has_result server_response) ;;
  if ok then
    result <~ lift (py_index server_response "result") ;;
    tools <~ lift (py_get result "tools" (JList [])) ;;
    items <~ lift (py_iter tools) ;;
    self <~ get_self ;;
    filtered_tools <~ lift (filter_tools self server_name items) ;;
    message_id <~ lift (py_get message "id" PyNone) ;;
    ret (JObj [ ("jsonrpc", JStr "2.0");
                 ("id", message_id);
                 ("result", JObj [ ("tools", JList filtered_tools) ]) ])
  else
    message_id <~ lift (py_get message "id" PyNone) ;;
    ret (JObj [ ("jsonrpc", JStr "2.0");
                 ("id", message_id);
                 ("result", JObj [ ("tools", JList []) ]) ]).

(** [MCPProxy._route_tool_call_to_server] *)
Definition _route_tool_call_to_server (message : Json) (server_name : string)
    : Run MCPProxy.t Json :=
  params <~ lift (py_get message "params" (JObj [])) ;;
  tool_name <~ lift (py_get params "name" PyNone) ;;
  if negb (py_truthy tool_name) then
    lift (_create_error_response message (-32602) "Missing tool name")
  else
    self <~ get_self ;;
    if negb (is_tool_allowed self server_name tool_name) then
      lift (_create_error_response message (-32001)
              ("Tool " ++ py_str tool_name ++ " not allowed"))
    else
      processed_request <~ _process_server_interceptors_before message server_name tool_name ;;
      if is_none processed_request then
        lift (_create_error_response message (-32001) "Tool call blocked by interceptor")
      else
        response <~ _forward_to_server server_name processed_request ;;
        if is_none response then
          lift (_create_error_response message (-32003) "No response from server")
        else
          processed_response <~ _process_server_interceptors_after
                                 processed_request response server_name tool_name ;;
          if is_none processed_response then
            lift (_create_error_response message (-32001) "Response blocked by interceptor")
          else ret processed_response.


(* ================================================================== *)
(** ** proxy.py: the connection handler *)
(* ================================================================== *)

(** What [client_file.readline()] brings: a line, with its length in bytes
    and what [json.loads] makes of its text, or an exception.  The end of
    the list of inputs is the empty read of a closed connection. *)
Inductive ClientInput : Type :=
| ClientLine (nbytes : Z) (decoded : Exc Json)
| ClientReadError (e : string).

(** A client connection: what the client will send, the responses written
    to it so far (each one line of [json.dumps]), and whether the proxy has
    closed it. *)
Record Socket : Type := {
  incoming : list ClientInput;
  outgoing : list Json;
  closed : bool;
}.

Definition connect (incoming : list ClientInput) : Socket :=
  {| incoming := incoming; outgoing := []; closed := false |}.

Definition close (client : Socket) : Socket :=
  {| incoming := incoming client; outgoing := outgoing client; closed := true |}.

(** [x if isinstance(x, dict) else {}] as [_log_received_message] uses it. *)
Definition isinstance_dict (v : Json) : bool :=
  match v with
  | JObj _ => true
  | _ => false
  end.

(** [MCPProxy._log_received_message]: it logs, and its reads can raise. *)
Definition _log_received_message (raw_message : Json) : Exc unit :=
  method <- py_get raw_message "method" PyNone ;;
  params <- (if isinstance_dict raw_message
             then py_get raw_message "params" (JObj [])
             else Return (JObj [])) ;;
  if py_eq method (JStr "tools/call") then
    _ <- py_get params "name" PyNone ;;
    Return ()
  else Return ().

(** The body of the message loop for one decoded message: the response to
    write, if it is truthy. *)
Definition handle_message (message : Json) (server_name : string)
    : Run MCPProxy.t Json :=
  _ <~ lift (_log_received_message message) ;;
  method <~ lift (py_get message "method" PyNone) ;;
  if py_eq method (JStr "tools/list") then
    _handle_tools_list_for_server message server_name
  else if py_eq method (JStr "tools/call") then
    _route_tool_call_to_server message server_name
  else if py_eq method (JStr "initialize") then
    _handle_initialize_for_server message server_name
  else
    _forward_to_server server_name message.

(** The [while self.running] loop of [_handle_client_for_server]: every way
    out of it is a [break]. *)
Fixpoint message_loop (server_name : string) (incoming : list ClientInput)
    (outgoing : list Json) (self : MCPProxy.t) : list Json * MCPProxy.t :=
  if negb (running self) then (outgoing, self)
  else
    match incoming with
    | [] => (outgoing, self)
    | ClientReadError _ :: _ => (outgoing, self)
    | ClientLine nbytes decoded :: rest =>
        if (max_message_bytes self <? nbytes)%Z then (outgoing, self)
        else
          match decoded with
          | Raise _ => (outgoing, self)
          | Return message =>
              match handle_message message server_name self with
              | (Raise _, self') => (outgoing, self')
              | (Return response, self') =>
                  message_loop server_name rest
                    (if py_truthy response then outgoing ++ [response] else outgoing)
                    self'
              end
          end
    end.

(** The three parts of [_handle_client_for_server]: the non-blocking
    acquire at its head, the message loop, the [finally] block. *)
Definition enter (self : MCPProxy.t) : bool * MCPProxy.t :=
  let (acquired, semaphore) :=
    BoundedSemaphore.acquire_nonblocking (connection_semaphore self) in
  (acquired, set_connection_semaphore semaphore self).

Definition serve (client : Socket) (server_name : string) (self : MCPProxy.t)
    : Socket * MCPProxy.t :=
  let (written, self') :=
    message_loop server_name (incoming client) (outgoing client) self in
  ({| incoming := incoming client; outgoing := written; closed := closed client |}, self').

(** [finally]: close the socket, and [release()] inside a [try] whose
    [except] passes. *)
Definition leave (self : MCPProxy.t) : MCPProxy.t :=
  set_connection_semaphore
    (snd (BoundedSemaphore.release (connection_semaphore self))) self.

(** [MCPProxy._handle_client_for_server] *)
Definition _handle_client_for_server (client : Socket) (server_name : string)
    (self : MCPProxy.t) : Socket * MCPProxy.t :=
  let (acquired, self1) := enter self in
  let (client1, self2) :=
    if negb acquired then (close client, self1)
    else serve client server_name self1 in
  (close client1, leave self2).

(* ================================================================== *)
(** ** The accept loop and its handler threads *)
(* ================================================================== *)

(** [_server_socket_loop] starts one thread per accepted connection.  A
    thread is followed through the points at which it touches the
    semaphore: accepted and not yet run, inside the message loop, refused
    (socket closed, [finally] still to run), finished. *)
Inductive Phase : Type := Accepted | Serving | Refused | Finished.

Record Fabric : Type := {
  proxy : MCPProxy.t;
  handlers : list Phase;
}.

Inductive Event : Type :=
| Accept              (** the accept loop starts a handler thread *)
| Advance (i : nat).  (** thread [i] runs up to its next point *)

Definition advance (i : nat) (f : Fabric) : Fabric :=
  match handlers f !! i with
  | Some Accepted =>
      let (acquired, self) := enter (proxy f) in
      {| proxy := self;
         handlers := <[i := if acquired then Serving else Refused]> (handlers f) |}
  | Some Serving | Some Refused =>
      {| proxy := leave (proxy f); handlers := <[i := Finished]> (handlers f) |}
  | Some Finished | None => f
  end.

Definition fabric_step (f : Fabric) (e : Event) : Fabric :=
  match e with
  | Accept => {| proxy := proxy f; handlers := handlers f ++ [Accepted] |}
  | Advance i => advance i f
  end.

Definition fabric_run (events : list Event) (f : Fabric) : Fabric :=
  fold_left fabric_step events f.

(** The connections that hold an open handler task. *)
Definition is_serving (p : Phase) : bool :=
  match p with
  | Serving => true
  | _ => false
  end.

Definition open_handlers (f : Fabric) : nat :=
  length (List.filter is_serving (handlers f)).

(** The slots the semaphore has free. *)
Definition available (self : MCPProxy.t) : nat :=
  BoundedSemaphore._value (connection_semaphore self).

(** A proxy whose semaphore is sized to [max_connections = n]. *)
Definition sized (n : nat) (self : MCPProxy.t) : MCPProxy.t :=
  {| name := name self; servers := servers self;
     active_processes := active_processes self;
     python_servers := python_servers self; running := running self;
     max_connections := n;
     max_message_bytes := max_message_bytes self;
     connection_semaphore := BoundedSemaphore.init n; calls := calls self |}.

(* ================================================================== *)
(** ** Scenarios *)
(* ================================================================== *)

(** [MCPServerConfig(name=..., python_mcp=..., whitelist=..., blacklist=...)]
    as [add_python_server] builds it. *)
Definition python_config (instance : BaseMCP)
    (whitelist blacklist : option (list string)) : MCPServerConfig.t :=
  {| MCPServerConfig.name := mcp_name instance;
     MCPServerConfig.command := None;
     MCPServerConfig.args := [];
     MCPServerConfig.env := ∅;
     MCPServerConfig.cwd := ".";
     MCPServerConfig.whitelist := whitelist;
     MCPServerConfig.blacklist := blacklist;
     MCPServerConfig.auto_start := true;
     MCPServerConfig.python_mcp := Some instance;
     MCPServerConfig.inherit_env := false;
     MCPServerConfig.intercept_before := ∅;
     MCPServerConfig.intercept_after := ∅ |}.

(** [MCPServerConfig(name=..., command=..., ...)] for a child process. *)
Definition external_config (name command : string)
    (whitelist blacklist : option (list string))
    (before : gmap string BeforeHook) (after : gmap string AfterHook)
    : MCPServerConfig.t :=
  {| MCPServerConfig.name := name;
     MCPServerConfig.command := Some command;
     MCPServerConfig.args := [];
     MCPServerConfig.env := ∅;
     MCPServerConfig.cwd := ".";
     MCPServerConfig.whitelist := whitelist;
     MCPServerConfig.blacklist := blacklist;
     MCPServerConfig.auto_start := true;
     MCPServerConfig.python_mcp := None;
     MCPServerConfig.inherit_env := false;
     MCPServerConfig.intercept_before := before;
     MCPServerConfig.intercept_after := after |}.

(** A running child whose stdin accepts writes and whose stdout follows
    [script]. *)
Definition child (script : list Stdout) : Popen :=
  {| stdin_lines := []; stdin_broken := None; stdout_script := script |}.

(** A started proxy with one Python server. *)
Definition python_proxy (config : MCPServerConfig.t) (instance : BaseMCP) : MCPProxy.t :=
  set_running true
    (set_python_servers
       {[ MCPServerConfig.name config := {| PythonMCPServer.mcp := instance |} ]}
       (add_server config (__init__ "mcp-proxy"))).

(** A started proxy with one child process. *)
Definition external_proxy (config : MCPServerConfig.t) (process : Popen) : MCPProxy.t :=
  set_running true
    (set_active_processes {[ MCPServerConfig.name config := process ]}
       (add_server config (__init__ "mcp-proxy"))).

Definition request (id : Json) (method : string) (params : list (string * Json)) : Json :=
  JObj [ ("jsonrpc", JStr "2.0"); ("id", id); ("method", JStr method);
         ("params", JObj params) ].

Definition notification (method : string) : Json :=
  JObj [ ("jsonrpc", JStr "2.0"); ("method", JStr method) ].

Definition tools_call (id : Json) (tool : string) (arguments : list (string * Json)) : Json :=
  request id "tools/call" [ ("name", JStr tool); ("arguments", JObj arguments) ].

(** The [echo] backend: [class Echo(BaseMCP)] with one exposed method
    [say(self, msg: str) -> str] that returns [msg]. *)
Definition say : MCPTool :=
  {| tool_name := "say";
     tool_description := "Execute say";
     tool_parameters :=
       JObj [ ("type", JStr "object");
              ("properties", JObj [ ("msg", JObj [ ("type", JStr "string") ]) ]);
              ("required", JList [ JStr "msg" ]) ];
     tool_function := λ kwargs, Return (default PyNone (assoc "msg" kwargs)) |}.

Definition echo : BaseMCP :=
  {| mcp_class := "Echo"; mcp_name := "echo"; _tools := [ ("say", say) ] |}.

Definition echo_proxy : MCPProxy.t :=
  python_proxy (python_config echo None None) echo.

Definition echo_request : Json := tools_call (JInt 7) "say" [ ("msg", JStr "hi") ].

(** What the echo scenario expects back. *)
Definition echo_expected : Json :=
  JObj [ ("jsonrpc", JStr "2.0"); ("id", JInt 7);
         ("result", JObj [ ("content",
            JList [ JObj [ ("type", JStr "text"); ("text", JStr "hi") ] ]) ]) ].

(** A JSON-RPC response. *)
Definition result_response (id result : Json) : Json :=
  JObj [ ("jsonrpc", JStr "2.0"); ("id", id); ("result", result) ].

(** The response [_create_error_response] builds for a message with id. *)
Definition error_response (id : Json) (code : Z) (message : string) : Json :=
  JObj [ ("jsonrpc", JStr "2.0"); ("id", id);
         ("error", JObj [ ("code", JInt code); ("message", JStr message) ]) ].

(** The [math] backend of the blacklist scenario, as a child process. *)
Definition math_config : MCPServerConfig.t :=
  external_config "math" "math-server" None (Some [ "divide" ]) ∅ ∅.

(** Two registrations under one name. *)
Definition math_config' : MCPServerConfig.t :=
  external_config "math" "other-math-server" None None ∅ ∅.

(** A backend with [whitelist=[]]. *)
Definition sealed_config : MCPServerConfig.t :=
  external_config "sealed" "sealed-server" (Some []) None ∅ ∅.

(** The [utility] backend: no filter, and a child that answers [tools/list]
    with a named tool and an entry without a name. *)
Definition utility_config : MCPServerConfig.t :=
  external_config "utility" "utility-server" None None ∅ ∅.

Definition get_time_tool : Json := JObj [ ("name", JStr "get_time") ].
Definition nameless_tool : Json := JObj [ ("description", JStr "no name") ].

Definition utility_proxy : MCPProxy.t :=
  external_proxy utility_config
    (child [ Line (Return (result_response (JInt 2)
               (JObj [ ("tools", JList [ get_time_tool; nameless_tool ]) ]))) ]).

(** The [browser] backend: a before-hook on [navigate] blocks a URL that
    contains "malicious". *)
Definition block_malicious : BeforeHook := λ request _ _,
  params <- py_get request "params" (JObj []) ;;
  arguments <- py_get params "arguments" (JObj []) ;;
  url <- py_get arguments "url" (JStr "") ;;
  match url with
  | JStr u => if occurs_in "malicious" u then Return PyNone else Return request
  | _ => Return request
  end.

Definition browser_config : MCPServerConfig.t :=
  external_config "browser" "browser-server" None None
    {[ "navigate" := block_malicious ]} ∅.

Definition browser_proxy : MCPProxy.t :=
  external_proxy browser_config (child []).

Definition navigate_request : Json :=
  tools_call (JInt 4) "navigate" [ ("url", JStr "https://malicious.example/") ].

(** A child that answers a request with the empty object. *)
Definition empty_reply_proxy : MCPProxy.t :=
  external_proxy utility_config (child [ Line (Return (JObj [])) ]).

(** A child that answers with id 9. *)
Definition nine_reply_proxy : MCPProxy.t :=
  external_proxy utility_config
    (child [ Line (Return (result_response (JInt 9) (JObj []))) ]).

Definition ping (id : Json) : Json := request id "ping" [].

(** A child that never answers. *)
Definition silent_proxy : MCPProxy.t := external_proxy utility_config (child []).

Definition tools_list (id : Json) : Json :=
  JObj [ ("jsonrpc", JStr "2.0"); ("id", id); ("method", JStr "tools/list") ].

(** [n] connections accepted and served one after the other, none closed. *)
Definition fill (n : nat) : list Event :=
  flat_map (λ i, [ Accept; Advance i ]) (seq 0 n).

(** The [math] backend running, its child silent. *)
Definition math_proxy : MCPProxy.t := external_proxy math_config (child []).

(** The [utility] backend with [whitelist=["get_time"]], its child reporting
    [get_time] and [dangerous]. *)
Definition guarded_proxy : MCPProxy.t :=
  external_proxy
    (external_config "utility" "utility-server" (Some [ "get_time" ]) None ∅ ∅)
    (child [ Line (Return (result_response (JInt 2)
               (JObj [ ("tools", JList [ get_time_tool;
                                         JObj [ ("name", JStr "dangerous") ] ]) ]))) ]).

(** A before-hook on [navigate] that replaces the arguments, a wildcard
    before-hook that lets every request through, and a child that answers
    the call. *)
Definition safe_request : Json :=
  tools_call (JInt 4) "navigate" [ ("url", JStr "https://example.org/") ].

Definition rewrite_url : BeforeHook := λ _ _ _, Return safe_request.

Definition pass_through : BeforeHook := λ request _ _, Return request.

Definition rewriting_proxy : MCPProxy.t :=
  external_proxy
    (external_config "browser" "browser-server" None None
       (<[ "navigate" := rewrite_url ]> {[ "*" := pass_through ]}) ∅)
    (child [ Line (Return (result_response (JInt 4) (JObj [ ("content", JList []) ]))) ]).

(* ================================================================== *)
(** ** Notions the statements use *)
(* ================================================================== *)

(** A response that carries a result, as opposed to an error response or no
    response at all. *)
Definition carries_result (response : Json) : bool :=
  match response with
  | JObj kvs => has_key "result" kvs
  | _ => false
  end.

(** [response.get("id")] for a response that passed the schema check. *)
Definition id_of (response : Json) : Json :=
  match response with
  | JObj kvs => default PyNone (assoc "id" kvs)
  | _ => PyNone
  end.

(** The backend bound to [server_name] answers [message] with [response]:
    the Python server's [handle_request] returns it, or the child process
    accepts the write and its next line decodes to it, a truthy value. *)
Definition backend_reply (self : MCPProxy.t) (server_name : string)
    (message response : Json) : Prop :=
  match python_servers self !! server_name with
  | Some python_server =>
      PythonMCPServer.handle_request python_server message = Return response
  | None =>
      ∃ process,
        active_processes self !! server_name = Some process
        ∧ stdin_broken process = None
        ∧ head (stdout_script process) = Some (Line (Return response))
        ∧ py_truthy response = true
  end.

(** A computation keeps a relation between the states before and after it,
    whether it returns or raises. *)
Definition keeps {S A : Type} (R : relation S) (m : Run S A) : Prop :=
  ∀ s, R s (snd (m s)).

(** The proxy after is the proxy before, up to the child processes. *)
Definition same_log : relation MCPProxy.t :=
  λ before after, calls after = calls before ∧ servers after = servers before.

(** The proxy after has the registry of the proxy before, and its log of
    calls continued. *)
Definition longer_log : relation MCPProxy.t :=
  λ before after, calls before `prefix_of` calls after ∧ servers after = servers before.

(** What [_route_tool_call_to_server] does with the response of the
    forward. *)
Definition after_forward (message : Json) (server_name : string)
    (tool_name processed_request response : Json) : Run MCPProxy.t Json :=
  if is_none response then
    lift (_create_error_response message (-32003) "No response from server")
  else
    processed_response <~ _process_server_interceptors_after
                           processed_request response server_name tool_name ;;
    if is_none processed_response then
      lift (_create_error_response message (-32001) "Response blocked by interceptor")
    else ret processed_response.

(** What it does with the request the before-pipeline hands back. *)
Definition after_before (message : Json) (server_name : string)
    (tool_name processed_request : Json) : Run MCPProxy.t Json :=
  if is_none processed_request then
    lift (_create_error_response message (-32001) "Tool call blocked by interceptor")
  else
    response <~ _forward_to_server server_name processed_request ;;
    after_forward message server_name tool_name processed_request response.

(** [tool.get("name")] for an entry of the tool list that is a dictionary. *)
Definition tool_name_of (tool : Json) : Json :=
  match tool with
  | JObj kvs => default PyNone (assoc "name" kvs)
  | _ => PyNone
  end.

(** The entries [_handle_tools_list_for_server] keeps: those with a truthy
    name that the filter allows. *)
Definition listed (self : MCPProxy.t) (server_name : string) (tool : Json) : bool :=
  py_truthy (tool_name_of tool) && is_tool_allowed self server_name (tool_name_of tool).

(** Every value a computation returns satisfies [P]. *)
Definition yields {S A : Type} (P : A → Prop) (m : Run S A) : Prop :=
  ∀ s a s', m s = (Return a, s') → P a.

(** The proxy with [n] free slots in its semaphore. *)
Definition with_free (n : nat) (self : MCPProxy.t) : MCPProxy.t :=
  set_connection_semaphore
    {| BoundedSemaphore._value := n;
       BoundedSemaphore._initial_value :=
         BoundedSemaphore._initial_value (connection_semaphore self) |} self.

(** The answer [_handle_initialize_for_server] makes up when the backend
    gives none with a result. *)
Definition default_initialize (id : Json) (server_name : string) : Json :=
  result_response id
    (JObj [ ("protocolVersion", JStr "2024-11-05");
            ("capabilities", JObj [ ("tools", JObj []) ]);
            ("serverInfo", JObj [ ("name", JStr server_name);
                                  ("version", JStr "1.0.0") ]) ]).

(** What handling messages leaves as it was: the registry, the started
    Python servers, the names of the started children, the running flag,
    the limits and the semaphore. *)
Definition same_setup : relation MCPProxy.t :=
  λ before after,
    name after = name before
    ∧ servers after = servers before
    ∧ python_servers after = python_servers before
    ∧ dom (active_processes after) = dom (active_processes before)
    ∧ running after = running before
    ∧ max_connections after = max_connections before
    ∧ max_message_bytes after = max_message_bytes before
    ∧ connection_semaphore after = connection_semaphore before.

(** An input at which the message loop breaks without handling anything: a
    failed read, a line over the limit, a line that is not JSON. *)
Definition ends_connection (limit : Z) (input : ClientInput) : bool :=
  match input with
  | ClientReadError _ => true
  | ClientLine nbytes decoded =>
      (limit <? nbytes)%Z || match decoded with Raise _ => true | Return _ => false end
  end.

(** An after-hook on [navigate] that replaces the result by a stamp, on a
    backend whose child answers the call. *)
Definition stamp : AfterHook := λ _ response _ _,
  Return (result_response (id_of response)
            (JObj [ ("_meta", JObj [ ("tag", JStr "x") ]) ])).

Definition stamping_proxy : MCPProxy.t :=
  external_proxy
    (external_config "browser" "browser-server" None None ∅ {[ "navigate" := stamp ]})
    (child [ Line (Return (result_response (JInt 4) (JObj [ ("content", JList []) ]))) ]).

(* ================================================================== *)
(** ** proxy.py: starting and stopping backends *)
(* ================================================================== *)

(** What the operating system answers to [start_server] and [stop_server]:
    [os.environ]; [subprocess.Popen(cmd, ..., env=env, cwd=cwd)], the child
    or the exception; [proc.poll() is None] for a child started earlier;
    [process.poll() is None] a second after the child was spawned;
    [process.terminate()]; [process.poll() is None] a second after
    [terminate]; [process.kill()]. *)
Record Os : Type := {
  environ : gmap string string;
  spawn : list string → gmap string string → string → Exc Popen;
  still_running : Popen → bool;
  came_up : Popen → bool;
  terminate : Popen → Exc unit;
  outlives_terminate : Popen → bool;
  kill : Popen → Exc unit;
}.

(** [MCPProxy.add_python_server] *)
Definition add_python_server (mcp_instance : BaseMCP)
    (whitelist blacklist : option (list string)) : Run MCPProxy.t unit :=
  config <~ lift (MCPServerConfig.__post_init__
                    (python_config mcp_instance whitelist blacklist)) ;;
  λ self, (Return (), add_server config self).

(** The [try] block of [start_server] for a child process.  A [command]
    that is [None] makes [subprocess.Popen] raise. *)
Definition launch (os : Os) (server_name : string) (config : MCPServerConfig.t)
    (self : MCPProxy.t) : bool * MCPProxy.t :=
  match MCPServerConfig.command config with
  | None => (false, self)
  | Some command =>
      let cmd := command :: MCPServerConfig.args config in
      let env := _build_subprocess_env (environ os) config in
      match spawn os cmd env (MCPServerConfig.cwd config) with
      | Raise _ => (false, self)
      | Return process =>
          if came_up os process
          then (true, set_active_processes
                        (<[server_name := process]> (active_processes self)) self)
          else (false, self)
      end
  end.

(** [MCPProxy.start_server] *)
Definition start_server (os : Os) (server_name : string) (self : MCPProxy.t)
    : bool * MCPProxy.t :=
  match servers self !! server_name with
  | None => (false, self)
  | Some config =>
      match MCPServerConfig.python_mcp config with
      | Some instance =>
          match python_servers self !! server_name with
          | Some _ => (true, self)
          | None =>
              (true, set_python_servers
                       (<[server_name := {| PythonMCPServer.mcp := instance |}]>
                          (python_servers self)) self)
          end
      | None =>
          match active_processes self !! server_name with
          | Some proc =>
              if still_running os proc then (true, self)
              else launch os server_name config
                     (set_active_processes
                        (delete server_name (active_processes self)) self)
          | None => launch os server_name config self
          end
      end
  end.

(** [MCPProxy.stop_server] *)
Definition stop_server (os : Os) (server_name : string) (self : MCPProxy.t)
    : MCPProxy.t :=
  match python_servers self !! server_name with
  | Some _ => set_python_servers (delete server_name (python_servers self)) self
  | None =>
      match active_processes self !! server_name with
      | None => self
      | Some process =>
          let stopped :=
            set_active_processes (delete server_name (active_processes self)) self in
          match terminate os process with
          | Raise _ => self
          | Return _ =>
              if outlives_terminate os process then
                match kill os process with
                | Raise _ => self
                | Return _ => stopped
                end
              else stopped
          end
      end
  end.

(** [for server_name in names: self.stop_server(server_name)] *)
Definition stop_each (os : Os) (names : list string) (self : MCPProxy.t) : MCPProxy.t :=
  foldl (λ proxy server_name, stop_server os server_name proxy) self names.

(** [list(d.keys())] *)
Definition keys {A : Type} (d : gmap string A) : list string := (map_to_list d).*1.

(** [MCPProxy.stop_all_servers] *)
Definition stop_all_servers (os : Os) (self : MCPProxy.t) : MCPProxy.t :=
  let self1 := stop_each os (keys (active_processes self)) self in
  stop_each os (keys (python_servers self1)) self1.

(** Whether the [try] block of [stop_server] gets through for [process]. *)
Definition stops (os : Os) (process : Popen) : bool :=
  match terminate os process with
  | Raise _ => false
  | Return _ =>
      if outlives_terminate os process then
        match kill os process with
        | Raise _ => false
        | Return _ => true
        end
      else true
  end.

(** An operating system where every child comes up silent and every call
    succeeds. *)
Definition quiet_os : Os :=
  {| environ := ∅;
     spawn := λ _ _ _, Return (child []);
     still_running := λ _, true;
     came_up := λ _, true;
     terminate := λ _, Return ();
     outlives_terminate := λ _, false;
     kill := λ _, Return () |}.

(** Whether a backend is there for the forwarder to reach. *)
Definition backend_running (self : MCPProxy.t) (server_name : string) : bool :=
  bool_decide (is_Some (python_servers self !! server_name))
  || bool_decide (is_Some (active_processes self !! server_name)).

(** The child process recorded under [server_name] that a [stop_server] of
    that name leaves recorded: one whose name a running Python backend
    shares, or one for which the [try] block does not get through. *)
Definition survivor (os : Os) (self : MCPProxy.t) (server_name : string) : option Popen :=
  match active_processes self !! server_name with
  | Some process =>
      if bool_decide (is_Some (python_servers self !! server_name))
         || negb (stops os process)
      then Some process else None
  | None => None
  end.

(* ================================================================== *)
(** ** proxy.py: servers from configuration data *)
(* ================================================================== *)

(** [a + " "] for a value [a] taken out of the configuration. *)
Definition py_add_str (a : Json) (s : string) : Exc string :=
  let dquote := String (Ascii.ascii_of_N 34) EmptyString in
  match a with
  | JStr x => Return (x ++ s)
  | JList _ =>
      Raise ("can only concatenate list (not " ++ dquote ++ "str" ++ dquote ++ ") to list")
  | _ => Raise ("unsupported operand type(s) for +: '" ++ type_name a ++ "' and 'str'")
  end.

(** [sep.join(items)]: the first item that is no string raises. *)
Fixpoint join_items (sep : string) (index : nat) (items : list Json) : Exc string :=
  match items with
  | [] => Return ""
  | item :: rest =>
      match item with
      | JStr s =>
          tail <- join_items sep (S index) rest ;;
          Return (match rest with
                  | [] => s
                  | _ => s ++ sep ++ tail
                  end)
      | _ => Raise ("sequence item " ++ pretty index ++ ": expected str instance, "
                      ++ type_name item ++ " found")
      end
  end.

Definition str_join (sep : string) (iterable : Json) : Exc string :=
  match iterable with
  | JList _ | JObj _ | JStr _ => items <- py_iter iterable ;; join_items sep 0 items
  | _ => Raise "can only join an iterable"
  end.

(** The first statements of [add_server_from_dict]: the command line of
    the entry. *)
Definition command_str (name : string) (server_dict : Json) : Exc Json :=
  has_start <- py_in "start" server_dict ;;
  if has_start then py_index server_dict "start"
  else
    has_command <- py_in "command" server_dict ;;
    has_args <- (if has_command then py_in "args" server_dict else Return false) ;;
    if has_command && has_args then
      command <- py_index server_dict "command" ;;
      prefix <- py_add_str command " " ;;
      args <- py_index server_dict "args" ;;
      joined <- str_join " " args ;;
      Return (JStr (prefix ++ joined))
    else
      Raise ("Invalid server configuration for " ++ name
               ++ ": missing 'start' or 'command'+'args'").

(** The values of the configuration read at the types the fields of
    [MCPServerConfig] declare; [None] for a value of another type, which
    the dataclass would store as it is and which the records here have no
    place for. *)
Definition as_str (v : Json) : option string :=
  match v with
  | JStr s => Some s
  | _ => None
  end.

Definition as_bool (v : Json) : option bool :=
  match v with
  | JBool b => Some b
  | _ => None
  end.

Definition as_str_list (v : Json) : option (list string) :=
  match v with
  | JList l => mapM as_str l
  | _ => None
  end.

Definition as_optional_str_list (v : Json) : option (option (list string)) :=
  match v with
  | JNull => Some None
  | _ => Some <$> as_str_list v
  end.

Definition as_str_dict (v : Json) : option (gmap string string) :=
  match v with
  | JObj kvs => list_to_map <$> mapM (λ kv, pair (fst kv) <$> as_str (snd kv)) kvs
  | _ => None
  end.

(** [MCPServerConfig(name=name, command=command_parts[0], ...)] as
    [add_server_from_dict] calls it. *)
Definition read_config (name command : string) (args : list string)
    (server_dict : Json) : Exc (option MCPServerConfig.t) :=
  env <- py_get server_dict "env" (JObj []) ;;
  cwd <- py_get server_dict "cwd" (JStr ".") ;;
  whitelist <- py_get server_dict "whitelist" PyNone ;;
  blacklist <- py_get server_dict "blacklist" PyNone ;;
  auto_start <- py_get server_dict "auto_start" (JBool true) ;;
  inherit_env <- py_get server_dict "inherit_env" (JBool false) ;;
  match as_str_dict env, as_str cwd, as_optional_str_list whitelist,
        as_optional_str_list blacklist, as_bool auto_start, as_bool inherit_env with
  | Some env, Some cwd, Some whitelist, Some blacklist, Some auto_start, Some inherit_env =>
      config <- MCPServerConfig.__post_init__
                  {| MCPServerConfig.name := name;
                     MCPServerConfig.command := Some command;
                     MCPServerConfig.args := args;
                     MCPServerConfig.env := env;
                     MCPServerConfig.cwd := cwd;
                     MCPServerConfig.whitelist := whitelist;
                     MCPServerConfig.blacklist := blacklist;
                     MCPServerConfig.auto_start := auto_start;
                     MCPServerConfig.python_mcp := None;
                     MCPServerConfig.inherit_env := inherit_env;
                     MCPServerConfig.intercept_before := ∅;
                     MCPServerConfig.intercept_after := ∅ |} ;;
      Return (Some config)
  | _, _, _, _, _, _ => Return None
  end.

(** [add_server_from_dict] up to the call of [add_server], with
    [shlex.split] as [shlex_split]. *)
Definition entry_config (shlex_split : Json → Exc (list string)) (name : string)
    (server_dict : Json) : Exc (option MCPServerConfig.t) :=
  command_line <- command_str name server_dict ;;
  command_parts <- shlex_split command_line ;;
  match command_parts with
  | [] => Raise ("Invalid or empty command for server " ++ name ++ ": '"
                   ++ py_str command_line ++ "'")
  | command :: args => read_config name command args server_dict
  end.

(** [MCPProxy.add_server_from_dict]; [None] where [read_config] is. *)
Definition add_server_from_dict (shlex_split : Json → Exc (list string)) (name : string)
    (server_dict : Json) (self : MCPProxy.t) : option (Exc unit * MCPProxy.t) :=
  match entry_config shlex_split name server_dict with
  | Raise e => Some (Raise e, self)
  | Return None => None
  | Return (Some config) => Some (Return (), add_server config self)
  end.

(** The loop of [load_config] over the items of the dictionary; what an
    entry raises is logged and dropped. *)
Fixpoint load_entries (shlex_split : Json → Exc (list string))
    (entries : list (string * Json)) (self : MCPProxy.t) : option MCPProxy.t :=
  match entries with
  | [] => Some self
  | (server_name, server_config) :: rest =>
      match add_server_from_dict shlex_split server_name server_config self with
      | None => None
      | Some (_, self') => load_entries shlex_split rest self'
      end
  end.

(** [MCPProxy.load_config] *)
Definition load_config (shlex_split : Json → Exc (list string)) (config_data : Json)
    (self : MCPProxy.t) : option (Exc unit * MCPProxy.t) :=
  match py_get config_data "mcpServers" (JObj []) with
  | Raise e => Some (Raise e, self)
  | Return (JObj entries) =>
      match load_entries shlex_split entries self with
      | Some self' => Some (Return (), self')
      | None => None
      end
  | Return mcp_servers => Some (Raise (no_attribute (type_name mcp_servers) "items"), self)
  end.

(** [create_proxy_from_config] *)
Definition create_proxy_from_config (shlex_split : Json → Exc (list string))
    (config_data : Json) (name : string) : option (Exc MCPProxy.t) :=
  match load_config shlex_split config_data (__init__ name) with
  | Some (Return _, proxy) => Some (Return proxy)
  | Some (Raise e, _) => Some (Raise e)
  | None => None
  end.

(** An entry whose fields have the declared types wherever it gets as far
    as building the configuration. *)
Definition typed_entry (server_dict : Json) : Prop :=
  ∀ name command args, read_config name command args server_dict ≠ Return None.

(** Splitting at blanks, which is what [shlex.split] does to a command line
    without quotes, escapes or other white space; anything but a string is
    refused. *)
Fixpoint split_blanks (word : string) (s : string) : list string :=
  match s with
  | EmptyString => if String.eqb word "" then [] else [ word ]
  | String c rest =>
      if Ascii.eqb c (Ascii.ascii_of_N 32)
      then (if String.eqb word "" then [] else [ word ]) ++ split_blanks "" rest
      else split_blanks (word ++ String c EmptyString) rest
  end.

Definition plain_split (command_line : Json) : Exc (list string) :=
  match command_line with
  | JStr s => Return (split_blanks "" s)
  | _ => Raise ("'" ++ type_name command_line ++ "' object has no attribute 'read'")
  end.

(** Configuration data with a well-formed entry, an entry that has a
    command without arguments, one that is no dictionary and one whose
    command line is empty. *)
Definition files_entry : Json :=
  JObj [ ("command", JStr "npx"); ("args", JList [ JStr "-y"; JStr "fs-server" ]);
         ("blacklist", JList [ JStr "delete" ]) ].

Definition sample_entries : list (string * Json) :=
  [ ("files", files_entry);
    ("bare", JObj [ ("command", JStr "node") ]);
    ("text", JStr "start it");
    ("blank", JObj [ ("start", JStr "  ") ]) ].

Definition sample_config : Json := JObj [ ("mcpServers", JObj sample_entries) ].

(** What [files_entry] makes. *)
Definition files_config : MCPServerConfig.t :=
  {| MCPServerConfig.name := "files";
     MCPServerConfig.command := Some "npx";
     MCPServerConfig.args := [ "-y"; "fs-server" ];
     MCPServerConfig.env := ∅;
     MCPServerConfig.cwd := ".";
     MCPServerConfig.whitelist := None;
     MCPServerConfig.blacklist := Some [ "delete" ];
     MCPServerConfig.auto_start := true;
     MCPServerConfig.python_mcp := None;
     MCPServerConfig.inherit_env := false;
     MCPServerConfig.intercept_before := ∅;
     MCPServerConfig.intercept_after := ∅ |}.

(** [tool in v] for a list [v] of the configuration; no list, no member. *)
Definition listed_in (tool : string) (v : Json) : bool :=
  match v with
  | JList l => existsb (py_eq (JStr tool)) l
  | _ => false
  end.

(** What the [try] block of [start_server] records for a child process:
    the process [subprocess.Popen] returns for the command, the arguments,
    the environment of [_build_subprocess_env] and the working directory of
    the configuration, if it is still there a second later. *)
Definition launched (os : Os) (config : MCPServerConfig.t) : option Popen :=
  match MCPServerConfig.command config with
  | None => None
  | Some command =>
      match spawn os (command :: MCPServerConfig.args config)
              (_build_subprocess_env (environ os) config)
              (MCPServerConfig.cwd config) with
      | Return process => if came_up os process then Some process else None
      | Raise _ => None
      end
  end.

(** What the handler writes to a client that sends one line of [nbytes]
    bytes, decoded to [message], and disconnects. *)
Definition sent (nbytes : Z) (message : Json) (server_name : string)
    (self : MCPProxy.t) : list Json :=
  outgoing (fst (_handle_client_for_server
                   (connect [ ClientLine nbytes (Return message) ]) server_name self)).

(** The line is read and handled: the proxy is running, a slot is free and
    the line is within the limit. *)
Definition served (nbytes : Z) (self : MCPProxy.t) : Prop :=
  running self = true
  ∧ (0 < available self)%nat
  ∧ (nbytes ≤ max_message_bytes self)%Z.

(** The proxy once the handler has taken its slot. *)
Definition entered (self : MCPProxy.t) : MCPProxy.t := snd (enter self).

(** A child that answers [tools/list] with the id 99. *)
Definition wrong_id_proxy : MCPProxy.t :=
  external_proxy utility_config
    (child [ Line (Return (result_response (JInt 99)
               (JObj [ ("tools", JList [ get_time_tool ]) ]))) ]).



(* ================================================================== *)
(** * Properties *)
(* ================================================================== *)

(** ** Registration *)

Lemma servers_add_server (config : MCPServerConfig.t) (self : MCPProxy.t) :
  servers (add_server config self)
  = <[MCPServerConfig.name config := config]> (servers self).
Proof. reflexivity. Qed.

(** C4, as the code has it: [add_server] cannot fail; after it the name of
    the configuration is bound to that configuration, whatever was bound to
    it before, and the bindings of all other names are as they were. *)
Theorem add_server_replaces (config : MCPServerConfig.t) (self : MCPProxy.t) :
  servers (add_server config self) !! MCPServerConfig.name config = Some config
  ∧ delete (MCPServerConfig.name config) (servers (add_server config self))
    = delete (MCPServerConfig.name config) (servers self).
Proof.
  rewrite servers_add_server. split.
  - apply lookup_insert_eq.
  - apply delete_insert_eq.
Qed.

(** C4, the claim refuted: registering [math_config'] under the name "math",
    which [math_config] already holds, changes what "math" is bound to. *)
Lemma duplicate_name_overwrites :
  let registered := add_server math_config (__init__ "mcp-proxy") in
  servers registered !! "math" = Some math_config
  ∧ servers (add_server math_config' registered) !! "math" ≠ servers registered !! "math".
Proof.
  intros registered.
  assert (H1 : servers registered !! "math" = Some math_config)
    by (unfold registered; rewrite servers_add_server; apply lookup_insert_eq).
  assert (H2 : servers (add_server math_config' registered) !! "math" = Some math_config')
    by (rewrite servers_add_server; apply lookup_insert_eq).
  split; [exact H1|].
  rewrite H1, H2. intros H.
  apply (f_equal (fmap MCPServerConfig.command)) in H. discriminate H.
Qed.

(** ** The child's environment *)

(** C9: a key of the child environment has the value the backend's [env]
    gives it; a key [env] does not mention has the parent's value when
    [inherit_env] is set, and otherwise a value only if it is [PATH] or
    [LANG]: the parent's, or the fallback. *)
Theorem build_subprocess_env_lookup (environ : gmap string string)
    (config : MCPServerConfig.t) (k : string) :
  _build_subprocess_env environ config !! k =
  match MCPServerConfig.env config !! k with
  | Some v => Some v
  | None =>
      if MCPServerConfig.inherit_env config then environ !! k
      else if decide (k = "PATH")
           then Some (default "/usr/bin:/bin:/usr/sbin:/sbin" (environ !! "PATH"))
      else if decide (k = "LANG")
           then Some (default "C.UTF-8" (environ !! "LANG"))
      else None
  end.
Proof.
  unfold _build_subprocess_env.
  set (base := if MCPServerConfig.inherit_env config then environ else _).
  assert (Hbase : base !! k =
      if MCPServerConfig.inherit_env config then environ !! k
      else if decide (k = "PATH")
           then Some (default "/usr/bin:/bin:/usr/sbin:/sbin" (environ !! "PATH"))
      else if decide (k = "LANG")
           then Some (default "C.UTF-8" (environ !! "LANG"))
      else None).
  { subst base. destruct (MCPServerConfig.inherit_env config); [done|].
    rewrite lookup_insert. destruct (decide ("PATH" = k)) as [->|Hp].
    - by rewrite decide_True.
    - rewrite decide_False by congruence.
      rewrite lookup_insert. destruct (decide ("LANG" = k)) as [->|Hl].
      + by rewrite decide_True.
      + rewrite decide_False by congruence. apply lookup_empty. }
  destruct (size (MCPServerConfig.env config) =? 0)%nat eqn:Hsize.
  - apply Nat.eqb_eq, map_size_empty_iff in Hsize. rewrite Hsize, lookup_empty.
    exact Hbase.
  - rewrite lookup_union. destruct (MCPServerConfig.env config !! k) as [v|].
    + by destruct (base !! k).
    + rewrite <- Hbase. by destruct (base !! k).
Qed.

(** ** The access filter *)

Lemma py_eq_str (a b : string) : py_eq (JStr a) (JStr b) = true ↔ a = b.
Proof. simpl. apply String.eqb_eq. Qed.

Lemma in_str_list_elem_of (tool : string) (l : list string) :
  in_str_list (JStr tool) l = true ↔ tool ∈ l.
Proof.
  unfold in_str_list. rewrite existsb_exists. split.
  - intros (s & Hin & Heq). apply py_eq_str in Heq. subst s.
    by apply list_elem_of_In.
  - intros Hin. exists tool. split; [by apply list_elem_of_In|by apply py_eq_str].
Qed.

Lemma list_truthy_default {A : Type} (l : option (list A)) :
  list_truthy l = false ↔ default [] l = [].
Proof. destruct l as [[|? ?]|]; simpl; split; congruence. Qed.

Lemma truthy_and_in (x : Json) (l : option (list string)) :
  list_truthy l && in_str_list x (default [] l) = in_str_list x (default [] l).
Proof. by destruct l as [[|? ?]|]. Qed.

(** The decision of [is_tool_allowed] for a registered backend and a tool
    name that is a string. *)
Lemma is_tool_allowed_iff (self : MCPProxy.t) (server_name : string)
    (config : MCPServerConfig.t) (tool : string) :
  servers self !! server_name = Some config →
  (is_tool_allowed self server_name (JStr tool) = true ↔
    (tool ∉ default [] (MCPServerConfig.blacklist config))
    ∧ (default [] (MCPServerConfig.whitelist config) = []
       ∨ tool ∈ default [] (MCPServerConfig.whitelist config))).
Proof.
  intros Hreg. unfold is_tool_allowed. rewrite Hreg, truthy_and_in.
  rewrite <- !in_str_list_elem_of, <- list_truthy_default.
  destruct (in_str_list (JStr tool) (default [] (MCPServerConfig.blacklist config)));
    destruct (list_truthy (MCPServerConfig.whitelist config));
    destruct (in_str_list (JStr tool) (default [] (MCPServerConfig.whitelist config)));
    simpl; intuition congruence.
Qed.

(** ** Running the router: equations for the state-passing operators *)

Lemma run_bind_lift_return {S A B : Type} (a : A) (f : A → Run S B) (s : S) :
  run_bind (lift (Return a)) f s = f a s.
Proof. reflexivity. Qed.

Lemma run_bind_lift_raise {S A B : Type} (e : string) (f : A → Run S B) (s : S) :
  run_bind (lift (Raise e)) f s = (Raise e, s).
Proof. reflexivity. Qed.

Lemma run_bind_get_self {S B : Type} (f : S → Run S B) (s : S) :
  run_bind get_self f s = f s s.
Proof. reflexivity. Qed.

Lemma run_bind_ret {S A B : Type} (a : A) (f : A → Run S B) (s : S) :
  run_bind (ret a) f s = f a s.
Proof. reflexivity. Qed.

Lemma run_bind_eq {S A B : Type} (m : Run S A) (f : A → Run S B) (s s' : S) (a : A) :
  m s = (Return a, s') → run_bind m f s = f a s'.
Proof. intros H. unfold run_bind. by rewrite H. Qed.


Lemma lift_eq {S A : Type} (c : Exc A) (s : S) : lift c s = (c, s).
Proof. reflexivity. Qed.

Lemma ret_eq {S A : Type} (a : A) (s : S) : ret a s = (Return a, s).
Proof. reflexivity. Qed.

(** What [_create_error_response] can return: nothing, or an error response;
    never a response with a result. *)
Lemma create_error_response_shape (message : Json) (code : Z) (text : string) (r : Json) :
  _create_error_response message code text = Return r →
  r = PyNone ∨ ∃ id, id ≠ PyNone ∧ r = error_response id code text.
Proof.
  unfold _create_error_response, exc_bind.
  destruct (if py_truthy message then _ else _) as [id|e]; [|discriminate].
  destruct id; simpl; intros [= <-]; eauto; right; eexists; (split; [|reflexivity]); done.
Qed.

Lemma create_error_response_no_result (message : Json) (code : Z) (text : string) (r : Json) :
  _create_error_response message code text = Return r → carries_result r = false.
Proof.
  intros H. apply create_error_response_shape in H as [->|(id & _ & ->)]; reflexivity.
Qed.

(** A call of a tool the filter denies stops at the filter: the router
    returns what [_create_error_response] makes of the message and leaves
    the proxy as it was. *)
Lemma route_denied (self : MCPProxy.t) (server_name : string)
    (message params tool_name : Json) :
  py_get message "params" (JObj []) = Return params →
  py_get params "name" PyNone = Return tool_name →
  is_tool_allowed self server_name tool_name = false →
  ∃ code text,
    _route_tool_call_to_server message server_name self
    = (_create_error_response message code text, self).
Proof.
  intros Hparams Hname Hdenied. unfold _route_tool_call_to_server.
  rewrite Hparams, run_bind_lift_return, Hname, run_bind_lift_return.
  destruct (py_truthy tool_name); simpl.
  - rewrite run_bind_get_self, Hdenied. simpl. eauto.
  - eauto.
Qed.

(** C5, as the code has it.  For a registered backend and a tool name:
    the tool is allowed exactly when it is not in the blacklist and the
    whitelist is absent, empty or holds it.  A call of a blacklisted tool
    invokes nothing and is answered by [_create_error_response] alone,
    which never builds a response with a result. *)
Theorem access_filter (self : MCPProxy.t) (server_name : string)
    (config : MCPServerConfig.t) (tool : string) :
  servers self !! server_name = Some config →
  let blacklist := default [] (MCPServerConfig.blacklist config) in
  let whitelist := default [] (MCPServerConfig.whitelist config) in
  (is_tool_allowed self server_name (JStr tool) = true ↔
     (tool ∉ blacklist) ∧ (whitelist = [] ∨ tool ∈ whitelist))
  ∧ (tool ∈ blacklist →
     ∀ message params,
       py_get message "params" (JObj []) = Return params →
       py_get params "name" PyNone = Return (JStr tool) →
       snd (_route_tool_call_to_server message server_name self) = self
       ∧ (∃ code text,
            fst (_route_tool_call_to_server message server_name self)
            = _create_error_response message code text)
       ∧ ∀ r, fst (_route_tool_call_to_server message server_name self) = Return r →
              carries_result r = false).
Proof.
  intros Hreg blacklist whitelist.
  pose proof (is_tool_allowed_iff self server_name config tool Hreg) as Hiff.
  split; [exact Hiff|].
  intros Hin message params Hparams Hname.
  assert (Hdenied : is_tool_allowed self server_name (JStr tool) = false).
  { destruct (is_tool_allowed self server_name (JStr tool)); [|done].
    destruct (proj1 Hiff eq_refl) as [Hnot _]. by destruct Hnot. }
  destruct (route_denied self server_name message params (JStr tool) Hparams Hname Hdenied)
    as (code & text & Heq).
  rewrite Heq. simpl. split; [done|]. split; [eauto|].
  intros r. apply create_error_response_no_result.
Qed.

(** The blacklist scenario: the call of [divide] is answered with code
    -32001 and nothing reaches the child. *)
Example blacklisted_divide :
  let (client, self) :=
    _handle_client_for_server
      (connect [ ClientLine 90 (Return (tools_call (JInt 1) "divide" [])) ])
      "math" math_proxy in
  outgoing client = [ error_response (JInt 1) (-32001) "Tool divide not allowed" ]
  ∧ stdin_lines <$> (active_processes self !! "math") = Some []
  ∧ calls self = [].
Proof. repeat split; reflexivity. Qed.

(** C5, the claim refuted: with [whitelist=[]] a tool is allowed. *)
Lemma empty_whitelist_allows :
  is_tool_allowed (add_server sealed_config (__init__ "mcp-proxy")) "sealed"
    (JStr "anything") = true.
Proof. reflexivity. Qed.

Lemma access_filter_witness :
  let self := add_server math_config (__init__ "mcp-proxy") in
  servers self !! "math" = Some math_config
  ∧ (is_tool_allowed self "math" (JStr "divide") = true ↔
       ("divide" ∉ ["divide"]) ∧ (@nil string = [] ∨ "divide" ∈ @nil string))
  ∧ ("divide" ∈ ["divide"] →
     ∀ message params,
       py_get message "params" (JObj []) = Return params →
       py_get params "name" PyNone = Return (JStr "divide") →
       snd (_route_tool_call_to_server message "math" self) = self
       ∧ (∃ code text,
            fst (_route_tool_call_to_server message "math" self)
            = _create_error_response message code text)
       ∧ ∀ r, fst (_route_tool_call_to_server message "math" self) = Return r →
              carries_result r = false).
Proof.
  split; [reflexivity|].
  apply (access_filter (add_server math_config (__init__ "mcp-proxy")) "math"
           math_config "divide").
  reflexivity.
Defined.

(** ** The embedded backend *)

(** Whatever tools the instance has, [_handle_tool_call] with a tool name
    ends in the [except] branch: the lookup of [call_tool] raises, and no
    tool function is applied. *)
Lemma handle_tool_call_raises (self : PythonMCPServer.t) (request_id params name : Json) :
  py_get params "name" PyNone = Return name →
  py_truthy name = true →
  PythonMCPServer._handle_tool_call self request_id params
  = Return (PythonMCPServer._create_error_response request_id (-32000)
              ("Tool execution failed: "
               ++ no_attribute (mcp_class (PythonMCPServer.mcp self)) "call_tool")).
Proof.
  intros Hname Htruthy. unfold PythonMCPServer._handle_tool_call.
  rewrite Hname. simpl.
  destruct params; try discriminate Hname. simpl.
  rewrite Htruthy. reflexivity.
Qed.

(** C1 on the code: the echo round trip.  The client sends the request of
    the scenario to the endpoint of the running [echo] backend and receives
    one line: an error response with id 7 and code -32000, not the result
    the scenario expects. *)
Theorem echo_round_trip :
  outgoing (fst (_handle_client_for_server
                   (connect [ ClientLine 96 (Return echo_request) ]) "echo" echo_proxy))
  = [ error_response (JInt 7) (-32000)
        "Tool execution failed: 'Echo' object has no attribute 'call_tool'" ]
  ∧ error_response (JInt 7) (-32000)
      "Tool execution failed: 'Echo' object has no attribute 'call_tool'"
    ≠ echo_expected.
Proof. split; [reflexivity|discriminate]. Qed.

(** ** Notifications on a per-server endpoint *)

(** C2 on the code: three notifications sent to the endpoint of the [echo]
    backend.  [tools/list] and [initialize] are each answered with a line
    whose id is null; [notifications/initialized] is not answered. *)
Theorem notifications_answered :
  outgoing (fst (_handle_client_for_server
                   (connect [ ClientLine 40 (Return (notification "tools/list")) ])
                   "echo" echo_proxy))
  = [ result_response JNull (JObj [ ("tools", JList (get_tools echo)) ]) ]
  ∧ outgoing (fst (_handle_client_for_server
                   (connect [ ClientLine 40 (Return (notification "initialize")) ])
                   "echo" echo_proxy))
  = [ result_response JNull
        (JObj [ ("protocolVersion", JStr "2024-11-05");
                ("capabilities", JObj [ ("tools", JObj []) ]);
                ("serverInfo", JObj [ ("name", JStr "echo");
                                      ("version", JStr "1.0.0") ]) ]) ]
  ∧ outgoing (fst (_handle_client_for_server
                   (connect [ ClientLine 52 (Return (notification "notifications/initialized")) ])
                   "echo" echo_proxy))
  = [].
Proof. repeat split; reflexivity. Qed.

Lemma yields_ret {S A : Type} (P : A → Prop) (a : A) :
  P a → yields (S := S) P (ret a).
Proof. intros H s a' s' [= <- _]. exact H. Qed.

Lemma yields_bind {S A B : Type} (P : B → Prop) (m : Run S A) (f : A → Run S B) :
  (∀ a, yields P (f a)) → yields P (run_bind m f).
Proof.
  intros Hf s b s'. unfold run_bind.
  destruct (m s) as [[a|e] s1]; [apply Hf|discriminate].
Qed.

Lemma yields_bind_lift {S A B : Type} (P : B → Prop) (c : Exc A) (f : A → Run S B) :
  (∀ a, c = Return a → yields P (f a)) → yields (S := S) P (run_bind (lift c) f).
Proof.
  intros Hf s b s'. unfold run_bind, lift.
  destruct c as [a|e]; [by apply Hf|discriminate].
Qed.

Lemma has_result_truthy (server_response : Json) :
  has_result server_response = Return true → py_truthy server_response = true.
Proof. unfold has_result. by destruct (py_truthy server_response). Qed.

(** Whatever the backend and whatever the message, a [tools/list] or an
    [initialize] that is handled to the end yields a value the message loop
    writes: the two handlers build their answer without asking whether the
    message has an id. *)
Lemma list_and_initialize_answer (message : Json) (server_name : string) :
  yields (λ r, py_truthy r = true) (_handle_tools_list_for_server message server_name)
  ∧ yields (λ r, py_truthy r = true) (_handle_initialize_for_server message server_name).
Proof.
  split.
  - unfold _handle_tools_list_for_server.
    apply yields_bind. intros server_response.
    apply yields_bind. intros [|];
      repeat (apply yields_bind; intros ?); by apply yields_ret.
  - unfold _handle_initialize_for_server.
    apply yields_bind. intros server_response.
    apply yields_bind_lift. intros [|] Hok.
    + apply yields_ret. by apply has_result_truthy.
    + apply yields_bind. intros ?. by apply yields_ret.
Qed.

(** ** The connection semaphore *)

(** A connection that arrives when no slot is free is closed with nothing
    read and nothing written, and its [finally] block releases a slot it
    never took. *)
Lemma refused_connection_releases (client : Socket) (server_name : string)
    (self : MCPProxy.t) :
  available self = 0%nat →
  (0 < BoundedSemaphore._initial_value (connection_semaphore self))%nat →
  let (client', self') := _handle_client_for_server client server_name self in
  outgoing client' = outgoing client
  ∧ closed client' = true
  ∧ calls self' = calls self
  ∧ available self' = 1%nat.
Proof.
  unfold available, _handle_client_for_server, enter, leave,
    BoundedSemaphore.acquire_nonblocking, BoundedSemaphore.release.
  destruct self as [? ? ? ? ? ? ? [value initial] ?]. simpl.
  intros -> Hpos. simpl.
  destruct (Nat.leb_spec initial 0) as [Hle|_]; [lia|]. done.
Qed.

Lemma fill_succ (k : nat) : fill (S k) = (fill k ++ [ Accept; Advance k ])%list.
Proof. unfold fill. by rewrite seq_S, flat_map_app. Qed.

Lemma fabric_run_app (events events' : list Event) (f : Fabric) :
  fabric_run (events ++ events') f = fabric_run events' (fabric_run events f).
Proof. apply fold_left_app. Qed.

Lemma lookup_last_handler (served : list Phase) (p : Phase) :
  (served ++ [ p ])%list !! length served = Some p.
Proof. by rewrite lookup_app_r, Nat.sub_diag by lia. Qed.

Lemma insert_last_handler (served : list Phase) (p q : Phase) :
  <[length served := q]> (served ++ [ p ])%list = (served ++ [ q ])%list.
Proof. by rewrite insert_app_r_alt, Nat.sub_diag by lia. Qed.

(** A handler thread that starts while a slot is free takes it. *)
Lemma accept_serves (self : MCPProxy.t) (served : list Phase) (free : nat) :
  available self = S free →
  fabric_run [ Accept; Advance (length served) ] {| proxy := self; handlers := served |}
  = {| proxy := with_free free self; handlers := (served ++ [ Serving ])%list |}.
Proof.
  intros Hfree. cbn [fabric_run fold_left fabric_step proxy handlers]. unfold advance.
  cbn [proxy handlers]. rewrite lookup_last_handler.
  unfold enter, BoundedSemaphore.acquire_nonblocking.
  unfold available in Hfree. rewrite Hfree. by rewrite insert_last_handler.
Qed.

(** A handler thread that starts while no slot is free closes its
    connection, and its [finally] block frees a slot. *)
Lemma accept_refuses (self : MCPProxy.t) (served : list Phase) :
  available self = 0%nat →
  (0 < BoundedSemaphore._initial_value (connection_semaphore self))%nat →
  fabric_run [ Accept; Advance (length served); Advance (length served) ]
    {| proxy := self; handlers := served |}
  = {| proxy := with_free 1 self; handlers := (served ++ [ Finished ])%list |}.
Proof.
  intros Hfree Hsize. cbn [fabric_run fold_left fabric_step proxy handlers].
  unfold advance at 2. cbn [proxy handlers]. rewrite lookup_last_handler.
  unfold enter, BoundedSemaphore.acquire_nonblocking.
  unfold available in Hfree. rewrite Hfree, insert_last_handler.
  unfold advance. cbn [proxy handlers]. rewrite lookup_last_handler, insert_last_handler.
  f_equal. unfold leave, BoundedSemaphore.release, with_free.
  destruct self as [? ? ? ? ? ? ? [value initial] ?]. simpl in *. subst value.
  by destruct (Nat.leb_spec initial 0); [lia|].
Qed.

(** [k] connections, at most as many as the semaphore has slots, are all
    served. *)
Lemma fill_run (n k : nat) (self : MCPProxy.t) :
  (k ≤ n)%nat →
  fabric_run (fill k) {| proxy := sized n self; handlers := [] |}
  = {| proxy := with_free (n - k) (sized n self); handlers := replicate k Serving |}.
Proof.
  induction k as [|k IH]; intros Hk.
  - rewrite Nat.sub_0_r. reflexivity.
  - rewrite fill_succ, fabric_run_app, IH by lia.
    pose proof (accept_serves (with_free (n - k) (sized n self))
                  (replicate k Serving) (n - S k)) as H.
    rewrite length_replicate in H. rewrite H.
    + by rewrite <- replicate_cons_app.
    + unfold available. simpl. lia.
Qed.

Lemma open_handlers_serving (n : nat) (rest : list Phase) (self : MCPProxy.t) :
  open_handlers {| proxy := self; handlers := (replicate n Serving ++ rest)%list |}
  = (n + length (List.filter is_serving rest))%nat.
Proof.
  unfold open_handlers. cbn [handlers]. rewrite List.filter_app, length_app. f_equal.
  induction n as [|n IH]; [reflexivity|]. simpl. by rewrite IH.
Qed.

(** C3 on the code, for every size [n] of at least 1.  [n] connections are
    accepted and served: [n] open handlers, no free slot.  One more is
    accepted and refused while they are all open: still [n] open handlers,
    but the refusal has raised the free slots from 0 to 1.  The next
    connection is then served beside the [n]: [n + 1] open handlers. *)
Theorem refusal_frees_a_slot (n : nat) (self : MCPProxy.t) :
  (1 ≤ n)%nat →
  let start := {| proxy := sized n self; handlers := [] |} in
  let full := fabric_run (fill n) start in
  let refused := fabric_run [ Accept; Advance n; Advance n ] full in
  let over := fabric_run [ Accept; Advance (S n) ] refused in
  (open_handlers full = n ∧ available (proxy full) = 0%nat)
  ∧ (open_handlers refused = n ∧ available (proxy refused) = 1%nat)
  ∧ open_handlers over = S n.
Proof.
  intros Hn start full refused over.
  assert (Hfull : full = {| proxy := with_free 0 (sized n self);
                            handlers := replicate n Serving |}).
  { unfold full, start. by rewrite fill_run, Nat.sub_diag by lia. }
  assert (Hrefused : refused = {| proxy := with_free 1 (with_free 0 (sized n self));
                                  handlers := (replicate n Serving ++ [ Finished ])%list |}).
  { unfold refused. rewrite Hfull.
    pose proof (accept_refuses (with_free 0 (sized n self)) (replicate n Serving)) as H.
    rewrite length_replicate in H. apply H; [reflexivity|simpl; lia]. }
  assert (Hover : over = {| proxy := with_free 0 (with_free 1 (with_free 0 (sized n self)));
                            handlers := ((replicate n Serving ++ [ Finished ])
                                         ++ [ Serving ])%list |}).
  { unfold over. rewrite Hrefused.
    pose proof (accept_serves (with_free 1 (with_free 0 (sized n self)))
                  (replicate n Serving ++ [ Finished ])%list 0) as H.
    rewrite length_app, length_replicate in H. simpl in H.
    replace (n + 1)%nat with (S n) in H by lia. apply H. reflexivity. }
  rewrite Hfull, Hrefused, Hover. rewrite <- app_assoc.
  pose proof (open_handlers_serving n []) as H0. rewrite app_nil_r in H0.
  rewrite H0, !open_handlers_serving. simpl. repeat split; lia.
Qed.

Lemma refusal_frees_a_slot_witness :
  (1 ≤ 1)%nat
  ∧ let start := {| proxy := sized 1 echo_proxy; handlers := [] |} in
    let full := fabric_run (fill 1) start in
    let refused := fabric_run [ Accept; Advance 1; Advance 1 ] full in
    let over := fabric_run [ Accept; Advance 2 ] refused in
    (open_handlers full = 1 ∧ available (proxy full) = 0)%nat
    ∧ (open_handlers refused = 1 ∧ available (proxy refused) = 1)%nat
    ∧ open_handlers over = 2%nat.
Proof.
  split; [lia|]. apply (refusal_frees_a_slot 1 echo_proxy). lia.
Defined.

(** The trace with one slot, step by step. *)
Example one_slot_trace :
  let start := {| proxy := sized 1 echo_proxy; handlers := [] |} in
  let full := fabric_run [ Accept; Advance 0 ] start in
  let refused := fabric_run [ Accept; Advance 1; Advance 1 ] full in
  let over := fabric_run [ Accept; Advance 2 ] refused in
  (handlers full = [ Serving ] ∧ available (proxy full) = 0)%nat
  ∧ (handlers refused = [ Serving; Finished ] ∧ available (proxy refused) = 1)%nat
  ∧ (handlers over = [ Serving; Finished; Serving ] ∧ open_handlers over = 2)%nat.
Proof. repeat split; reflexivity. Qed.

(** The same with the semaphore of [__init__], sized 100: after a hundred
    open connections, one refusal lets the next connection in. *)
Example default_size_overrun :
  let start := {| proxy := echo_proxy; handlers := [] |} in
  let full := fabric_run (fill 100) start in
  let over := fabric_run [ Accept; Advance 100; Advance 100; Accept; Advance 101 ] full in
  (open_handlers full = 100 ∧ available (proxy full) = 0 ∧ open_handlers over = 101)%nat.
Proof. vm_compute. done. Qed.

(** ** The correlation guard *)

Lemma run_bind_record_call {B : Type} (c : Call) (f : unit → Run MCPProxy.t B)
    (self : MCPProxy.t) :
  run_bind (record_call c) f self = f () (set_calls (calls self ++ [c]) self).
Proof. reflexivity. Qed.

(** For a message with an id that is not null, [_create_error_response]
    builds the error response with that id. *)
Lemma create_error_response_with_id (message id : Json) (code : Z) (text : string) :
  py_get message "id" PyNone = Return id →
  id ≠ PyNone →
  _create_error_response message code text = Return (error_response id code text).
Proof.
  intros Hid Hnn. unfold _create_error_response.
  destruct message as [| | | | |kvs]; try discriminate Hid.
  simpl in Hid. injection Hid as Hid.
  destruct kvs as [|kv kvs]; [simpl in Hid; congruence|].
  cbn [py_truthy py_get]. rewrite Hid. simpl.
  destruct id; try reflexivity. congruence.
Qed.

(** For a message without an id, or with a null id, it builds nothing. *)
Lemma create_error_response_without_id (message : Json) (code : Z) (text : string) :
  py_get message "id" PyNone = Return PyNone →
  _create_error_response message code text = Return PyNone.
Proof.
  intros Hid. unfold _create_error_response.
  destruct (py_truthy message); [rewrite Hid|]; reflexivity.
Qed.

Lemma valid_response_is_dict (response : Json) :
  _is_valid_jsonrpc_response response = true →
  py_get response "id" PyNone = Return (id_of response).
Proof. destruct response; try discriminate. reflexivity. Qed.

(** The check on a response, for a request with an id that is not null. *)
Lemma check_response_with_id (message id response : Json) :
  py_get message "id" PyNone = Return id →
  id ≠ PyNone →
  check_response message response
  = Return (if _is_valid_jsonrpc_response response && py_eq (id_of response) id
            then response
            else error_response id (-32603) "Internal error").
Proof.
  intros Hid Hnn. unfold check_response.
  destruct (_is_valid_jsonrpc_response response) eqn:Hvalid; simpl.
  - rewrite Hid. simpl. rewrite (valid_response_is_dict _ Hvalid).
    assert (is_none id = false) as -> by (destruct id; congruence || reflexivity).
    simpl. destruct (py_eq (id_of response) id); simpl; [reflexivity|].
    by apply create_error_response_with_id.
  - by apply create_error_response_with_id.
Qed.

Lemma check_response_without_id (message response : Json) :
  py_get message "id" PyNone = Return PyNone →
  check_response message response
  = Return (if _is_valid_jsonrpc_response response then response else PyNone).
Proof.
  intros Hid. unfold check_response.
  destruct (_is_valid_jsonrpc_response response); simpl.
  - rewrite Hid. reflexivity.
  - by apply create_error_response_without_id.
Qed.

Lemma check_response_returns (message response : Json) :
  _is_valid_jsonrpc_message message = true →
  ∃ r, check_response message response = Return r.
Proof.
  intros Hvalid. destruct message as [| | | | |kvs]; try discriminate Hvalid.
  destruct (is_none (default PyNone (assoc "id" kvs))) eqn:Hnone.
  - rewrite (check_response_without_id (JObj kvs) response); [eauto|].
    simpl. by destruct (default PyNone (assoc "id" kvs)).
  - rewrite (check_response_with_id (JObj kvs) (default PyNone (assoc "id" kvs)) response);
      [eauto|reflexivity|]. intros H. by rewrite H in Hnone.
Qed.

(** A reply of the backend to a valid message goes through
    [check_response], and nothing else. *)
Lemma forward_applies_check (self : MCPProxy.t) (server_name : string)
    (message response : Json) :
  _is_valid_jsonrpc_message message = true →
  backend_reply self server_name message response →
  fst (_forward_to_server server_name message self) = check_response message response.
Proof.
  intros Hvalid Hreply. unfold backend_reply in Hreply.
  unfold _forward_to_server.
  rewrite run_bind_record_call, run_bind_get_self.
  cbn [python_servers active_processes set_calls].
  destruct (python_servers self !! server_name) as [python_server|].
  - unfold try_run. rewrite Hvalid. cbn [negb].
    rewrite Hreply, run_bind_lift_return, lift_eq.
    by destruct (check_response_returns message response Hvalid) as [r ->].
  - destruct Hreply as (process & Hproc & Hstdin & Hout & Htruthy).
    rewrite Hproc. unfold try_run. rewrite Hvalid. cbn [negb].
    unfold on_process, exchange, stdin_write. rewrite Hstdin.
    unfold _read_server_response_with_timeout, stdout_wait. cbn [stdout_script].
    destruct (stdout_script process) as [|o rest]; [discriminate Hout|].
    injection Hout as ->. rewrite Htruthy.
    by destruct (check_response_returns message response Hvalid) as [r ->].
Qed.

(** Through the proxy: a [tools/call] request with an id, for any tool
    name, sent to any running Python server, comes back as the error with
    code -32000 (the id compared with itself by [==]). *)
Lemma embedded_tools_call_fails (self : MCPProxy.t) (server_name : string)
    (python_server : PythonMCPServer.t) (message params name id : Json) :
  python_servers self !! server_name = Some python_server →
  _is_valid_jsonrpc_message message = true →
  py_get message "method" PyNone = Return (JStr "tools/call") →
  py_get message "params" (JObj []) = Return params →
  py_get params "name" PyNone = Return name →
  py_truthy name = true →
  py_get message "id" PyNone = Return id →
  id ≠ PyNone →
  py_eq id id = true →
  fst (_forward_to_server server_name message self)
  = Return (error_response id (-32000)
              ("Tool execution failed: "
               ++ no_attribute (mcp_class (PythonMCPServer.mcp python_server))
                    "call_tool")).
Proof.
  intros Hserver Hvalid Hmethod Hparams Hname Htruthy Hid Hnn Hrefl.
  set (text := "Tool execution failed: " ++ _).
  assert (Hreply : backend_reply self server_name message
                     (error_response id (-32000) text)).
  { unfold backend_reply. rewrite Hserver. unfold PythonMCPServer.handle_request.
    rewrite Hmethod, Hparams, Hid. cbn [exc_bind py_eq String.eqb Ascii.eqb Bool.eqb].
    rewrite (handle_tool_call_raises _ _ _ _ Hname Htruthy). fold text.
    destruct id; try reflexivity. congruence. }
  rewrite (forward_applies_check _ _ _ _ Hvalid Hreply).
  rewrite (check_response_with_id _ _ _ Hid Hnn).
  assert (_is_valid_jsonrpc_response (error_response id (-32000) text) = true) as ->
    by reflexivity.
  change (id_of (error_response id (-32000) text)) with id.
  by rewrite Hrefl.
Qed.

(** ** What forwarding and the pipelines do to the proxy object *)

Section Keeps.
Context {S : Type} (R : relation S) `{!PreOrder R}.

Lemma keeps_lift {A : Type} (c : Exc A) : keeps R (lift c).
Proof. intros s. reflexivity. Qed.

Lemma keeps_ret {A : Type} (a : A) : keeps R (ret a).
Proof. intros s. reflexivity. Qed.

Lemma keeps_get_self : keeps R get_self.
Proof. intros s. reflexivity. Qed.

Lemma keeps_bind {A B : Type} (m : Run S A) (f : A → Run S B) :
  keeps R m → (∀ a, keeps R (f a)) → keeps R (run_bind m f).
Proof.
  intros Hm Hf s. unfold run_bind. specialize (Hm s).
  destruct (m s) as [[a|e] s']; simpl in *; [|done].
  etransitivity; [exact Hm|apply Hf].
Qed.

Lemma keeps_try {A : Type} (body : Run S A) (handler : string → Run S A) :
  keeps R body → (∀ e, keeps R (handler e)) → keeps R (try_run body handler).
Proof.
  intros Hm Hf s. unfold try_run. specialize (Hm s).
  destruct (body s) as [[a|e] s']; simpl in *; [done|].
  etransitivity; [exact Hm|apply Hf].
Qed.

End Keeps.

Ltac keeps_step :=
  first
    [ apply keeps_lift; apply _
    | apply keeps_ret; apply _
    | apply keeps_get_self; apply _
    | apply keeps_bind; [apply _| |intros ?]
    | apply keeps_try; [apply _| |intros ?]
    | match goal with
      | |- keeps _ (if ?b then _ else _) => destruct b
      | |- keeps _ (match ?x with _ => _ end) => destruct x
      end ].

#[local] Instance same_log_preorder : PreOrder same_log.
Proof.
  split.
  - by intros s.
  - intros s1 s2 s3 [H1 H2] [H3 H4]. split; congruence.
Qed.

#[local] Instance longer_log_preorder : PreOrder longer_log.
Proof.
  split.
  - by intros s.
  - intros s1 s2 s3 [H1 H2] [H3 H4]. split; [by etransitivity|congruence].
Qed.

Lemma same_log_longer (before after : MCPProxy.t) :
  same_log before after → longer_log before after.
Proof. intros [H1 H2]. split; [by rewrite H1|done]. Qed.

Lemma keeps_same_longer {A : Type} (m : Run MCPProxy.t A) :
  keeps same_log m → keeps longer_log m.
Proof. intros H s. apply same_log_longer, H. Qed.

Lemma keeps_on_process {A : Type} (server_name : string) (process : Popen)
    (body : Popen → Exc A * Popen) :
  keeps same_log (on_process server_name process body).
Proof. intros s. unfold on_process. by destruct (body process). Qed.

Lemma keeps_record_call (c : Call) : keeps longer_log (record_call c).
Proof. intros s. split; [by apply prefix_app_r|done]. Qed.

Lemma keeps_run_hook (c : Call) (result : Exc Json) : keeps longer_log (run_hook c result).
Proof.
  unfold run_hook. repeat keeps_step. apply keeps_record_call.
Qed.

(** [_forward_to_server] is entered once, and leaves the registry alone. *)
Lemma forward_calls (server_name : string) (message : Json) (self : MCPProxy.t) :
  calls (snd (_forward_to_server server_name message self))
  = (calls self ++ [ CallForward server_name message ])%list
  ∧ servers (snd (_forward_to_server server_name message self)) = servers self.
Proof.
  unfold _forward_to_server.
  rewrite run_bind_record_call.
  set (self1 := set_calls _ self).
  match goal with |- context [run_bind get_self ?f self1] =>
    assert (Hkeeps : keeps same_log (run_bind get_self f)) end.
  { repeat keeps_step; apply keeps_on_process. }
  destruct (Hkeeps self1) as [H1 H2]. by rewrite H1, H2.
Qed.

Lemma keeps_forward (server_name : string) (message : Json) :
  keeps longer_log (_forward_to_server server_name message).
Proof.
  intros s. destruct (forward_calls server_name message s) as [H1 H2].
  split; [rewrite H1; by apply prefix_app_r|done].
Qed.

Lemma run_hook_calls (c : Call) (result : Exc Json) (self : MCPProxy.t) :
  run_hook c result self
  = (Return match result with
            | Return current => if is_none current then None else Some current
            | Raise _ => None
            end,
     set_calls (calls self ++ [ c ])%list self).
Proof. unfold run_hook, try_run. rewrite run_bind_record_call. by destruct result. Qed.

Lemma nonempty_hooks {A : Type} (hooks : gmap string A) (k : string) (hook : A) :
  hooks !! k = Some hook → (size hooks =? 0)%nat = false.
Proof.
  intros Hk. apply Nat.eqb_neq. intros Hsize.
  apply map_size_empty_iff in Hsize. subst hooks. by rewrite lookup_empty in Hk.
Qed.

(** The pipelines only add to the log of calls, and leave the registry
    alone. *)
Lemma keeps_after (request response : Json) (server_name : string) (tool_name : Json) :
  keeps longer_log
    (_process_server_interceptors_after request response server_name tool_name).
Proof.
  unfold _process_server_interceptors_after.
  repeat (first [apply keeps_run_hook|keeps_step]).
Qed.

Lemma keeps_before (request : Json) (server_name : string) (tool_name : Json) :
  keeps longer_log
    (_process_server_interceptors_before request server_name tool_name).
Proof.
  unfold _process_server_interceptors_before.
  repeat (first [apply keeps_run_hook|keeps_step]).
Qed.

(** ** The before-pipeline in the router *)

Lemma set_calls_twice (v w : list Call) (self : MCPProxy.t) :
  set_calls v (set_calls w self) = set_calls v self.
Proof. reflexivity. Qed.

(** The before-pipeline when the tool has a hook of its own. *)
Lemma before_with_specific (self : MCPProxy.t) (server_name : string)
    (config : MCPServerConfig.t) (message : Json) (tool : string) (hook : BeforeHook) :
  servers self !! server_name = Some config →
  MCPServerConfig.intercept_before config !! tool = Some hook →
  let first_call := CallBefore (JStr tool) message in
  _process_server_interceptors_before message server_name (JStr tool) self
  = match hook message server_name (JStr tool) with
    | Raise _ => (Return PyNone, set_calls (calls self ++ [ first_call ])%list self)
    | Return current =>
        if is_none current
        then (Return PyNone, set_calls (calls self ++ [ first_call ])%list self)
        else
          match MCPServerConfig.intercept_before config !! "*" with
          | None => (Return current, set_calls (calls self ++ [ first_call ])%list self)
          | Some wildcard =>
              (Return match wildcard current server_name (JStr tool) with
                      | Return rewritten => rewritten
                      | Raise _ => PyNone
                      end,
               set_calls (calls self ++ [ first_call; CallBefore (JStr "*") current ])%list
                 self)
          end
    end.
Proof.
  intros Hreg Hhook first_call. unfold _process_server_interceptors_before.
  rewrite run_bind_get_self, Hreg. cbn zeta.
  rewrite (nonempty_hooks _ _ _ Hhook).
  cbn [lookup_key]. rewrite run_bind_lift_return, Hhook.
  erewrite run_bind_eq by apply run_hook_calls.
  destruct (hook message server_name (JStr tool)) as [current|e]; [|reflexivity].
  destruct (is_none current); [reflexivity|].
  destruct (MCPServerConfig.intercept_before config !! "*") as [wildcard|]; [|reflexivity].
  erewrite run_bind_eq by apply run_hook_calls.
  rewrite ret_eq, set_calls_twice. cbn [calls set_calls]. rewrite <- app_assoc.
  destruct (wildcard current server_name (JStr tool)) as [[]|]; reflexivity.
Qed.

(** The router up to the before-pipeline, for a call that passes the filter. *)
Lemma route_allowed (self : MCPProxy.t) (server_name : string)
    (message params tool_name : Json) :
  py_get message "params" (JObj []) = Return params →
  py_get params "name" PyNone = Return tool_name →
  py_truthy tool_name = true →
  is_tool_allowed self server_name tool_name = true →
  _route_tool_call_to_server message server_name self
  = run_bind (_process_server_interceptors_before message server_name tool_name)
      (after_before message server_name tool_name) self.
Proof.
  intros Hparams Hname Htruthy Hallowed. unfold _route_tool_call_to_server.
  rewrite Hparams, run_bind_lift_return, Hname, run_bind_lift_return, Htruthy.
  cbn [negb]. rewrite run_bind_get_self, Hallowed. reflexivity.
Qed.

Lemma keeps_after_forward (message : Json) (server_name : string)
    (tool_name processed_request response : Json) :
  keeps longer_log (after_forward message server_name tool_name processed_request response).
Proof. unfold after_forward. repeat (first [apply keeps_after|keeps_step]). Qed.

(** Whatever follows a forward in the router, the log of calls shows the
    forward next. *)
Lemma forward_then (server_name : string) (message : Json)
    (rest : Json → Run MCPProxy.t Json) (self : MCPProxy.t) :
  (∀ response, keeps longer_log (rest response)) →
  (calls self ++ [ CallForward server_name message ])%list
    `prefix_of` calls (snd (run_bind (_forward_to_server server_name message) rest self)).
Proof.
  intros Hrest. unfold run_bind.
  destruct (forward_calls server_name message self) as [Hcalls _].
  destruct (_forward_to_server server_name message self) as [[response|e] self'];
    simpl in *; rewrite <- Hcalls; [|done].
  apply Hrest.
Qed.

Lemma truthy_str (s : string) : s ≠ "" → py_truthy (JStr s) = true.
Proof. intros H. simpl. by destruct (String.eqb_spec s ""). Qed.

(** C7.  A [tools/call] request with an id, for an allowed tool that has a
    before-hook of its own.  If that hook returns [None] or raises, the log
    of calls gains the call of that hook and nothing else (no wildcard
    hook, no forward), and the router returns the error response with code
    -32001 and the id of the request.  If it returns a rewritten request,
    the wildcard hook, when there is one, is called next with the rewritten
    request, and what it returns is forwarded next (or, when it blocks, the
    same error is returned with nothing forwarded); without a wildcard hook
    the rewritten request is forwarded next. *)
Theorem before_hook_composition (self : MCPProxy.t) (server_name : string)
    (config : MCPServerConfig.t) (message params id : Json) (tool : string)
    (hook : BeforeHook) :
  servers self !! server_name = Some config →
  MCPServerConfig.intercept_before config !! tool = Some hook →
  py_get message "params" (JObj []) = Return params →
  py_get params "name" PyNone = Return (JStr tool) →
  tool ≠ "" →
  is_tool_allowed self server_name (JStr tool) = true →
  py_get message "id" PyNone = Return id →
  id ≠ PyNone →
  let outcome := _route_tool_call_to_server message server_name self in
  let blocked := Return (error_response id (-32001) "Tool call blocked by interceptor") in
  let first_call := CallBefore (JStr tool) message in
  match hook message server_name (JStr tool) with
  | Return JNull | Raise _ =>
      outcome = (blocked, set_calls (calls self ++ [ first_call ])%list self)
  | Return rewritten =>
      match MCPServerConfig.intercept_before config !! "*" with
      | None =>
          (calls self ++ [ first_call; CallForward server_name rewritten ])%list
            `prefix_of` calls (snd outcome)
      | Some wildcard =>
          let second_call := CallBefore (JStr "*") rewritten in
          match wildcard rewritten server_name (JStr tool) with
          | Return JNull | Raise _ =>
              outcome
              = (blocked, set_calls (calls self ++ [ first_call; second_call ])%list self)
          | Return forwarded =>
              (calls self ++ [ first_call; second_call;
                               CallForward server_name forwarded ])%list
                `prefix_of` calls (snd outcome)
          end
      end
  end.
Proof.
  intros Hreg Hhook Hparams Hname Htool Hallowed Hid Hnn outcome blocked first_call.
  pose proof (before_with_specific _ _ _ message _ _ Hreg Hhook) as Hbefore.
  cbn zeta in Hbefore. fold first_call in Hbefore.
  pose proof (route_allowed _ _ _ _ _ Hparams Hname (truthy_str _ Htool) Hallowed)
    as Hroute.
  fold outcome in Hroute. unfold run_bind at 1 in Hroute.
  rewrite Hbefore in Hroute. clear Hbefore.
  assert (Hblocked : ∀ s : MCPProxy.t,
            after_before message server_name (JStr tool) PyNone s = (blocked, s)).
  { intros s. unfold after_before. cbn [is_none]. rewrite lift_eq.
    by rewrite (create_error_response_with_id _ _ _ _ Hid Hnn). }
  assert (Hforward : ∀ (s : MCPProxy.t) (processed : Json),
            is_none processed = false →
            (calls s ++ [ CallForward server_name processed ])%list
              `prefix_of` calls (snd (after_before message server_name (JStr tool)
                                        processed s))).
  { intros s processed Hnone. unfold after_before. rewrite Hnone.
    apply forward_then. intros response. apply keeps_after_forward. }
  destruct (hook message server_name (JStr tool)) as [rewritten|e];
    [|rewrite Hroute; apply Hblocked].
  destruct (is_none rewritten) eqn:Hnone.
  { destruct rewritten; try discriminate Hnone. rewrite Hroute. apply Hblocked. }
  destruct (MCPServerConfig.intercept_before config !! "*") as [wildcard|].
  - assert (Hwild :
      match wildcard rewritten server_name (JStr tool) with
      | Return JNull | Raise _ =>
          outcome
          = (blocked, set_calls (calls self ++ [ first_call;
                                                 CallBefore (JStr "*") rewritten ])%list self)
      | Return forwarded =>
          (calls self ++ [ first_call; CallBefore (JStr "*") rewritten;
                           CallForward server_name forwarded ])%list
            `prefix_of` calls (snd outcome)
      end).
    { destruct (wildcard rewritten server_name (JStr tool)) as [forwarded|e];
        [|rewrite Hroute; apply Hblocked].
      destruct (is_none forwarded) eqn:Hnone'.
      { destruct forwarded; try discriminate Hnone'. rewrite Hroute. apply Hblocked. }
      assert (Hgoal : (calls self ++ [ first_call; CallBefore (JStr "*") rewritten;
                                       CallForward server_name forwarded ])%list
                        `prefix_of` calls (snd outcome)).
      { rewrite Hroute.
        pose proof (Hforward (set_calls (calls self ++ [ first_call;
                      CallBefore (JStr "*") rewritten ])%list self) forwarded Hnone') as H.
        cbn [calls set_calls] in H. by rewrite <- app_assoc in H. }
      destruct forwarded; try discriminate Hnone'; exact Hgoal. }
    destruct rewritten; try discriminate Hnone; exact Hwild.
  - assert (Hgoal : (calls self ++ [ first_call; CallForward server_name rewritten ])%list
                      `prefix_of` calls (snd outcome)).
    { rewrite Hroute.
      pose proof (Hforward (set_calls (calls self ++ [ first_call ])%list self)
                    rewritten Hnone) as H.
      cbn [calls set_calls] in H. by rewrite <- app_assoc in H. }
    destruct rewritten; try discriminate Hnone; exact Hgoal.
Qed.

Lemma before_hook_composition_witness :
  (servers browser_proxy !! "browser" = Some browser_config
   ∧ MCPServerConfig.intercept_before browser_config !! "navigate" = Some block_malicious
   ∧ py_get navigate_request "params" (JObj [])
     = Return (JObj [ ("name", JStr "navigate");
                      ("arguments", JObj [ ("url", JStr "https://malicious.example/") ]) ])
   ∧ "navigate" ≠ ""
   ∧ is_tool_allowed browser_proxy "browser" (JStr "navigate") = true
   ∧ py_get navigate_request "id" PyNone = Return (JInt 4)
   ∧ JInt 4 ≠ PyNone)
  ∧ _route_tool_call_to_server navigate_request "browser" browser_proxy
    = (Return (error_response (JInt 4) (-32001) "Tool call blocked by interceptor"),
       set_calls (calls browser_proxy
                  ++ [ CallBefore (JStr "navigate") navigate_request ])%list
         browser_proxy).
Proof.
  assert (Hname : "navigate" ≠ "") by discriminate.
  assert (Hid : JInt 4 ≠ PyNone) by discriminate.
  split; [repeat (split; [reflexivity || assumption|]); assumption|].
  exact (before_hook_composition browser_proxy "browser" browser_config
           navigate_request _ (JInt 4) "navigate" block_malicious
           eq_refl eq_refl eq_refl eq_refl Hname eq_refl eq_refl Hid).
Defined.

(** A rewriting hook followed by a wildcard hook: the wildcard is called
    with the rewritten request, and the rewritten request is what the child
    is sent. *)
Example rewritten_request_forwarded :
  let self := snd (_route_tool_call_to_server navigate_request "browser" rewriting_proxy) in
  calls self = [ CallBefore (JStr "navigate") navigate_request;
                 CallBefore (JStr "*") safe_request;
                 CallForward "browser" safe_request ]
  ∧ stdin_lines <$> (active_processes self !! "browser") = Some [ safe_request ].
Proof. split; reflexivity. Qed.

(** ** tools/list on a per-server endpoint *)

Lemma create_error_response_returns (message id : Json) (code : Z) (text : string) :
  py_get message "id" PyNone = Return id →
  ∃ r, _create_error_response message code text = Return r.
Proof.
  intros Hid. unfold _create_error_response.
  destruct (py_truthy message); [rewrite Hid|]; simpl; [|eauto].
  destruct (is_none id); eauto.
Qed.

Lemma try_run_returns {A : Type} (body : Run MCPProxy.t A)
    (handler : string → Run MCPProxy.t A) (s : MCPProxy.t) :
  (∀ e s', ∃ r, fst (handler e s') = Return r) →
  ∃ r, fst (try_run body handler s) = Return r.
Proof.
  intros Hh. unfold try_run. destruct (body s) as [[a|e] s']; simpl; eauto.
Qed.

(** For a message that is a dictionary, [_forward_to_server] returns: every
    failure is turned into a value. *)
Lemma forward_returns (server_name : string) (message id : Json) (self : MCPProxy.t) :
  py_get message "id" PyNone = Return id →
  ∃ r, fst (_forward_to_server server_name message self) = Return r.
Proof.
  intros Hid. unfold _forward_to_server.
  rewrite run_bind_record_call, run_bind_get_self.
  cbn [python_servers active_processes set_calls].
  destruct (python_servers self !! server_name) as [python_server|].
  - apply try_run_returns. intros e s'. rewrite lift_eq.
    apply (create_error_response_returns _ _ _ _ Hid).
  - destruct (active_processes self !! server_name) as [process|].
    + apply try_run_returns. intros e s'. rewrite lift_eq.
      apply (create_error_response_returns _ _ _ _ Hid).
    + rewrite lift_eq. apply (create_error_response_returns _ _ _ _ Hid).
Qed.

Lemma is_tool_allowed_servers (s s' : MCPProxy.t) (server_name : string) (tool_name : Json) :
  servers s' = servers s →
  is_tool_allowed s' server_name tool_name = is_tool_allowed s server_name tool_name.
Proof. intros H. unfold is_tool_allowed. by rewrite H. Qed.

(** The loop over a list of dictionaries is a filter. *)
Lemma filter_tools_dicts (self : MCPProxy.t) (server_name : string) (tools : list Json) :
  Forall (λ tool, isinstance_dict tool = true) tools →
  filter_tools self server_name tools
  = Return (List.filter (listed self server_name) tools).
Proof.
  induction 1 as [|tool tools Hdict _ IH]; [reflexivity|].
  destruct tool; try discriminate Hdict.
  cbn [filter_tools List.filter py_get]. rewrite IH. unfold listed at 2. simpl.
  by destruct (_ && _).
Qed.

(** C8, as the code has it.  For a [tools/list] message that is a
    dictionary, the forward returns some value.  When that value is a
    response whose result is a dictionary with a list of dictionaries under
    [tools] (or no [tools] at all), the answer carries the id of the message
    and that list with every entry removed that has no truthy name or that
    the access filter denies.  When the value is falsy or has no result (no
    response, an error response), the answer carries the empty list. *)
Theorem tools_list_filtered (self : MCPProxy.t) (server_name : string)
    (message message_id : Json) :
  py_get message "id" PyNone = Return message_id →
  ∃ server_response self',
    _forward_to_server server_name message self = (Return server_response, self')
    ∧ (∀ kvs result tools,
         server_response = JObj kvs →
         assoc "result" kvs = Some (JObj result) →
         default (JList []) (assoc "tools" result) = JList tools →
         Forall (λ tool, isinstance_dict tool = true) tools →
         _handle_tools_list_for_server message server_name self
         = (Return (result_response message_id
                      (JObj [ ("tools",
                               JList (List.filter (listed self server_name) tools)) ])),
            self'))
    ∧ (has_result server_response = Return false →
       _handle_tools_list_for_server message server_name self
       = (Return (result_response message_id (JObj [ ("tools", JList []) ])), self')).
Proof.
  intros Hid.
  destruct (forward_returns server_name message message_id self Hid) as [r Hr].
  destruct (forward_calls server_name message self) as [_ Hservers].
  destruct (_forward_to_server server_name message self) as [res self'] eqn:Hforward.
  simpl in Hr, Hservers. subst res. exists r, self'. split; [reflexivity|]. split.
  - intros kvs result tools -> Hresult Htools Hdicts.
    unfold _handle_tools_list_for_server.
    rewrite (run_bind_eq _ _ _ _ _ Hforward).
    assert (has_result (JObj kvs) = Return true) as ->.
    { unfold has_result, py_in, has_key. rewrite Hresult.
      by destruct kvs. }
    rewrite run_bind_lift_return. cbn [py_index]. rewrite Hresult.
    rewrite run_bind_lift_return. cbn [py_get]. rewrite Htools.
    rewrite run_bind_lift_return. cbn [py_iter].
    rewrite run_bind_lift_return, run_bind_get_self.
    rewrite (filter_tools_dicts _ _ _ Hdicts), run_bind_lift_return.
    rewrite Hid, run_bind_lift_return, ret_eq.
    assert (List.filter (listed self' server_name) tools
            = List.filter (listed self server_name) tools) as ->; [|reflexivity].
    apply List.filter_ext. intros tool. unfold listed.
    by rewrite (is_tool_allowed_servers self self').
  - intros Hnone. unfold _handle_tools_list_for_server.
    rewrite (run_bind_eq _ _ _ _ _ Hforward), Hnone.
    rewrite run_bind_lift_return, Hid, run_bind_lift_return.
    reflexivity.
Qed.

Lemma tools_list_filtered_witness :
  py_get (tools_list (JInt 2)) "id" PyNone = Return (JInt 2)
  ∧ ∃ server_response self',
      _forward_to_server "utility" (tools_list (JInt 2)) utility_proxy
      = (Return server_response, self')
      ∧ (∀ kvs result tools,
           server_response = JObj kvs →
           assoc "result" kvs = Some (JObj result) →
           default (JList []) (assoc "tools" result) = JList tools →
           Forall (λ tool, isinstance_dict tool = true) tools →
           _handle_tools_list_for_server (tools_list (JInt 2)) "utility" utility_proxy
           = (Return (result_response (JInt 2)
                        (JObj [ ("tools",
                                 JList (List.filter (listed utility_proxy "utility")
                                          tools)) ])),
              self'))
      ∧ (has_result server_response = Return false →
         _handle_tools_list_for_server (tools_list (JInt 2)) "utility" utility_proxy
         = (Return (result_response (JInt 2) (JObj [ ("tools", JList []) ])), self')).
Proof.
  split; [reflexivity|].
  apply (tools_list_filtered utility_proxy "utility" (tools_list (JInt 2)) (JInt 2)).
  reflexivity.
Defined.

(** The whitelist scenario: of [get_time] and [dangerous] the answer lists
    [get_time] alone. *)
Example whitelist_lists_get_time :
  fst (_handle_tools_list_for_server (tools_list (JInt 2)) "utility" guarded_proxy)
  = Return (result_response (JInt 2) (JObj [ ("tools", JList [ get_time_tool ]) ])).
Proof. reflexivity. Qed.

(** C8, the claim refuted.  The [utility] backend has no filter, so nothing
    is denied; its child reports a tool [get_time] and an entry without a
    name; the answer lists [get_time] alone. *)
Lemma nameless_tool_dropped :
  fst (_handle_tools_list_for_server (tools_list (JInt 2)) "utility" utility_proxy)
  = Return (result_response (JInt 2) (JObj [ ("tools", JList [ get_time_tool ]) ]))
  ∧ is_tool_allowed utility_proxy "utility" (tool_name_of nameless_tool) = true
  ∧ is_tool_allowed utility_proxy "utility" (tool_name_of get_time_tool) = true.
Proof. repeat split; reflexivity. Qed.

(** A backend that does not answer: the empty list. *)
Example silent_backend_lists_nothing :
  fst (_handle_tools_list_for_server (tools_list (JInt 2)) "utility" silent_proxy)
  = Return (result_response (JInt 2) (JObj [ ("tools", JList []) ])).
Proof. reflexivity. Qed.

(* ================================================================== *)
(** * Further properties of the request path *)
(* ================================================================== *)

(** ** Correlation in [_forward_to_server] *)

(** The two ways [_forward_to_server] comes to its value, for a message
    that is a dictionary: [_create_error_response] on the message, or
    [check_response] on a reply of the backend to a valid message. *)
Lemma forward_cases (self : MCPProxy.t) (server_name : string) (message id : Json) :
  py_get message "id" PyNone = Return id →
  ∃ r, fst (_forward_to_server server_name message self) = Return r
       ∧ ((∃ code text, _create_error_response message code text = Return r)
          ∨ (_is_valid_jsonrpc_message message = true
             ∧ ∃ response, backend_reply self server_name message response
                           ∧ check_response message response = Return r)).
Proof.
  intros Hid.
  assert (Herror : ∀ code text,
            ∃ r, _create_error_response message code text = Return r
                 ∧ ((∃ code' text', _create_error_response message code' text' = Return r)
                    ∨ (_is_valid_jsonrpc_message message = true
                       ∧ ∃ response, backend_reply self server_name message response
                                     ∧ check_response message response = Return r))).
  { intros code text.
    destruct (create_error_response_returns message id code text Hid) as [r Hr].
    exists r. split; [done|]. left. eauto. }
  unfold _forward_to_server, backend_reply in *.
  rewrite run_bind_record_call, run_bind_get_self.
  cbn [python_servers active_processes set_calls].
  destruct (python_servers self !! server_name) as [python_server|].
  - unfold try_run. destruct (_is_valid_jsonrpc_message message) eqn:Hvalid; cbn [negb].
    + destruct (PythonMCPServer.handle_request python_server message) as [response|e].
      * rewrite run_bind_lift_return, lift_eq.
        destruct (check_response_returns message response Hvalid) as [r Hr].
        rewrite Hr. exists r. split; [done|]. right. eauto.
      * rewrite run_bind_lift_raise, lift_eq.
        destruct (Herror (-32003) ("Python server error: " ++ e)) as (r & -> & Hr). eauto.
    + rewrite !lift_eq.
      destruct (Herror (-32600) "Invalid Request") as (r & -> & Hr). eauto.
  - destruct (active_processes self !! server_name) as [process|].
    + unfold try_run. destruct (_is_valid_jsonrpc_message message) eqn:Hvalid; cbn [negb].
      * unfold on_process, exchange, stdin_write.
        destruct (stdin_broken process) as [e|] eqn:Hstdin.
        { rewrite lift_eq.
          destruct (Herror (-32003) ("Server communication error: " ++ e))
            as (r & -> & Hr). eauto. }
        unfold _read_server_response_with_timeout, stdout_wait. cbn [stdout_script].
        destruct (Herror (-32003) "No response from server (timeout)") as (r0 & Hr0 & Hr).
        destruct (stdout_script process) as [|o rest] eqn:Hscript.
        { cbn [py_truthy]. rewrite Hr0. eauto. }
        destruct o as [| | |[response|]]; cbn [py_truthy];
          try (rewrite Hr0; by eauto).
        destruct (py_truthy response) eqn:Htruthy; [|rewrite Hr0; by eauto].
        destruct (check_response_returns message response Hvalid) as [r Hcheck].
        rewrite Hcheck. exists r. split; [done|]. right. split; [done|].
        exists response. split; [|done]. exists process. rewrite Hscript. eauto.
      * rewrite !lift_eq.
        destruct (Herror (-32600) "Invalid Request") as (r & -> & Hr). eauto.
    + rewrite lift_eq.
      destruct (Herror (-32001) ("Server " ++ server_name ++ " not running"))
        as (r & -> & Hr). eauto.
Qed.

(** X1.  Whatever the backend bound to the name (a Python server, a child
    process, nothing), a message whose id is present and not null is
    answered by [_forward_to_server] with a value that passes the response
    schema and is either the error response built for that id or the
    backend's own reply, whose id equals ([==]) the id of the message. *)
Theorem forward_correlates (self : MCPProxy.t) (server_name : string)
    (message id : Json) :
  py_get message "id" PyNone = Return id →
  id ≠ PyNone →
  ∃ r, fst (_forward_to_server server_name message self) = Return r
       ∧ _is_valid_jsonrpc_response r = true
       ∧ ((∃ code text, r = error_response id code text)
          ∨ (py_eq (id_of r) id = true ∧ backend_reply self server_name message r)).
Proof.
  intros Hid Hnn.
  destruct (forward_cases self server_name message id Hid) as (r & Hr & Hcase).
  exists r. split; [done|].
  destruct Hcase as [(code & text & Herr)|(Hvalid & response & Hreply & Hcheck)].
  - rewrite (create_error_response_with_id _ _ _ _ Hid Hnn) in Herr.
    injection Herr as <-. split; [reflexivity|]. left. eauto.
  - rewrite (check_response_with_id _ _ _ Hid Hnn) in Hcheck. injection Hcheck as <-.
    destruct (_is_valid_jsonrpc_response response) eqn:Hv; cbn [andb].
    + destruct (py_eq (id_of response) id) eqn:Heq.
      * split; [done|]. by right.
      * split; [reflexivity|]. left. eauto.
    + split; [reflexivity|]. left. eauto.
Qed.

Lemma forward_correlates_witness :
  (py_get (tools_list (JInt 3)) "id" PyNone = Return (JInt 3) ∧ JInt 3 ≠ PyNone)
  ∧ ∃ r, fst (_forward_to_server "echo" (tools_list (JInt 3)) echo_proxy) = Return r
         ∧ _is_valid_jsonrpc_response r = true
         ∧ ((∃ code text, r = error_response (JInt 3) code text)
            ∨ (py_eq (id_of r) (JInt 3) = true
               ∧ backend_reply echo_proxy "echo" (tools_list (JInt 3)) r)).
Proof.
  assert (Hnn : JInt 3 ≠ PyNone) by discriminate.
  split; [split; [reflexivity|exact Hnn]|].
  exact (forward_correlates echo_proxy "echo" (tools_list (JInt 3)) (JInt 3) eq_refl Hnn).
Defined.

(** ** What a forward does to the child and to the proxy *)

Lemma exchange_process (message : Json) (process : Popen) :
  snd (exchange message process)
  = match stdin_broken process with
    | Some _ => process
    | None => {| stdin_lines := stdin_lines process ++ [ message ];
                 stdin_broken := None;
                 stdout_script := tail (stdout_script process) |}
    end.
Proof.
  unfold exchange, stdin_write.
  destruct (stdin_broken process) eqn:Hstdin; [reflexivity|].
  unfold _read_server_response_with_timeout, stdout_wait. cbn [stdout_script].
  by destruct (stdout_script process).
Qed.

(** The fields of the proxy after a forward. *)
Lemma forward_fields (server_name : string) (message : Json) (self : MCPProxy.t) :
  let self' := snd (_forward_to_server server_name message self) in
  name self' = name self
  ∧ python_servers self' = python_servers self
  ∧ running self' = running self
  ∧ max_connections self' = max_connections self
  ∧ max_message_bytes self' = max_message_bytes self
  ∧ connection_semaphore self' = connection_semaphore self
  ∧ active_processes self'
    = match python_servers self !! server_name, active_processes self !! server_name with
      | None, Some process =>
          if _is_valid_jsonrpc_message message
          then <[server_name := snd (exchange message process)]> (active_processes self)
          else active_processes self
      | _, _ => active_processes self
      end.
Proof.
  unfold _forward_to_server.
  rewrite run_bind_record_call, run_bind_get_self.
  cbn [python_servers active_processes set_calls].
  destruct (python_servers self !! server_name) as [python_server|].
  - unfold try_run. destruct (_is_valid_jsonrpc_message message); cbn [negb].
    + destruct (PythonMCPServer.handle_request python_server message) as [response|e].
      * rewrite run_bind_lift_return, lift_eq.
        by destruct (check_response message response).
      * by rewrite run_bind_lift_raise, lift_eq.
    + rewrite !lift_eq. by destruct (_create_error_response _ _ _).
  - destruct (active_processes self !! server_name) as [process|]; [|done].
    unfold try_run. destruct (_is_valid_jsonrpc_message message); cbn [negb].
    + unfold on_process. destruct (exchange message process) as [[r|e] process'];
        cbn [snd]; rewrite ?lift_eq; done.
    + rewrite !lift_eq. by destruct (_create_error_response _ _ _).
Qed.

(** X2.  A forward to a child process, seen from the child.  A message that
    fails [_is_valid_jsonrpc_message] never reaches it.  A valid message is
    written to its stdin once, and one wait on its stdout is used up,
    whether the message is a request or a notification and whatever the
    wait brings; when the write raises, the child is left as it was. *)
Theorem forward_exchanges_once (self : MCPProxy.t) (server_name : string)
    (message : Json) (process : Popen) :
  python_servers self !! server_name = None →
  active_processes self !! server_name = Some process →
  active_processes (snd (_forward_to_server server_name message self))
  = match _is_valid_jsonrpc_message message, stdin_broken process with
    | true, None =>
        <[server_name := {| stdin_lines := stdin_lines process ++ [ message ];
                            stdin_broken := None;
                            stdout_script := tail (stdout_script process) |}]>
          (active_processes self)
    | _, _ => active_processes self
    end.
Proof.
  intros Hpython Hprocess.
  destruct (forward_fields server_name message self) as (_ & _ & _ & _ & _ & _ & H).
  rewrite H, Hpython, Hprocess, exchange_process.
  destruct (_is_valid_jsonrpc_message message); [|done].
  destruct (stdin_broken process); [|done].
  by apply insert_id.
Qed.

Lemma forward_exchanges_once_witness :
  (python_servers utility_proxy !! "utility" = None
   ∧ active_processes utility_proxy !! "utility"
     = Some (child [ Line (Return (result_response (JInt 2)
                (JObj [ ("tools", JList [ get_time_tool; nameless_tool ]) ]))) ]))
  ∧ active_processes (snd (_forward_to_server "utility" (notification "ping") utility_proxy))
    = <["utility" := {| stdin_lines := [ notification "ping" ];
                        stdin_broken := None;
                        stdout_script := [] |}]> (active_processes utility_proxy).
Proof.
  split; [split; reflexivity|].
  exact (forward_exchanges_once utility_proxy "utility" (notification "ping") _
           eq_refl eq_refl).
Defined.

#[local] Instance same_setup_preorder : PreOrder same_setup.
Proof.
  split.
  - intros s. unfold same_setup. done.
  - intros s1 s2 s3 H12 H23. unfold same_setup in *.
    destruct H12 as (?&?&?&?&?&?&?&?), H23 as (?&?&?&?&?&?&?&?).
    repeat split; congruence.
Qed.

Lemma keeps_setup_record_call (c : Call) : keeps same_setup (record_call c).
Proof. intros s. unfold same_setup. done. Qed.

Lemma keeps_setup_run_hook (c : Call) (result : Exc Json) :
  keeps same_setup (run_hook c result).
Proof. unfold run_hook. repeat keeps_step. apply keeps_setup_record_call. Qed.

Lemma keeps_setup_forward (server_name : string) (message : Json) :
  keeps same_setup (_forward_to_server server_name message).
Proof.
  intros s. destruct (forward_fields server_name message s) as (?&?&?&?&?&?&Hproc).
  destruct (forward_calls server_name message s) as [_ Hservers].
  unfold same_setup. repeat split; try done.
  rewrite Hproc. destruct (python_servers s !! server_name); [done|].
  destruct (active_processes s !! server_name) as [process|] eqn:Hp; [|done].
  destruct (_is_valid_jsonrpc_message message); [|done].
  apply dom_insert_lookup_L. by rewrite Hp.
Qed.

Lemma keeps_setup_before (request : Json) (server_name : string) (tool_name : Json) :
  keeps same_setup (_process_server_interceptors_before request server_name tool_name).
Proof.
  unfold _process_server_interceptors_before.
  repeat (first [apply keeps_setup_run_hook|keeps_step]).
Qed.

Lemma keeps_setup_after (request response : Json) (server_name : string)
    (tool_name : Json) :
  keeps same_setup
    (_process_server_interceptors_after request response server_name tool_name).
Proof.
  unfold _process_server_interceptors_after.
  repeat (first [apply keeps_setup_run_hook|keeps_step]).
Qed.

Lemma keeps_setup_handle_message (message : Json) (server_name : string) :
  keeps same_setup (handle_message message server_name).
Proof.
  unfold handle_message, _handle_tools_list_for_server, _route_tool_call_to_server,
    _handle_initialize_for_server.
  repeat (first [apply keeps_setup_forward|apply keeps_setup_before
                |apply keeps_setup_after|keeps_step]).
Qed.

(** ** One connection *)

Lemma message_loop_spec (server_name : string) (incoming : list ClientInput) :
  ∀ (written : list Json) (self : MCPProxy.t),
    written `prefix_of` fst (message_loop server_name incoming written self)
    ∧ (length (fst (message_loop server_name incoming written self))
       ≤ length written + length incoming)%nat
    ∧ same_setup self (snd (message_loop server_name incoming written self)).
Proof.
  induction incoming as [|input incoming IH]; intros written self.
  - cbn [message_loop]. destruct (negb (running self)); cbn [fst snd];
      (split; [done|split; [lia|reflexivity]]).
  - cbn [message_loop]. destruct (negb (running self));
      [cbn [fst snd length]; split; [done|split; [lia|reflexivity]]|].
    destruct input as [nbytes decoded|e];
      [|cbn [fst snd length]; split; [done|split; [lia|reflexivity]]].
    destruct (max_message_bytes self <? nbytes)%Z;
      [cbn [fst snd length]; split; [done|split; [lia|reflexivity]]|].
    destruct decoded as [message|e];
      [|cbn [fst snd length]; split; [done|split; [lia|reflexivity]]].
    pose proof (keeps_setup_handle_message message server_name self) as Hkeeps.
    destruct (handle_message message server_name self) as [[response|e] self'];
      cbn [snd] in Hkeeps;
      [|cbn [fst snd length]; split; [done|split; [lia|exact Hkeeps]]].
    destruct (IH (if py_truthy response then (written ++ [ response ])%list else written)
                self') as (Hprefix & Hlength & Hsetup).
    split; [|split].
    + etransitivity; [|exact Hprefix].
      destruct (py_truthy response); [by apply prefix_app_r|done].
    + etransitivity; [exact Hlength|].
      destruct (py_truthy response); rewrite ?length_app; cbn [length]; lia.
    + etransitivity; [exact Hkeeps|exact Hsetup].
Qed.

(** X3.  One client connection, whatever it sends and whatever the proxy
    and the backends are.  When [_handle_client_for_server] returns, the
    connection is closed; what had been written to it is still there, with
    at most one line added per line the client sent; and the registry, the
    started Python servers, the names of the started children, the running
    flag and the limits of the proxy are as they were. *)
Theorem connection_handled (client : Socket) (server_name : string) (self : MCPProxy.t) :
  let client' := fst (_handle_client_for_server client server_name self) in
  let self' := snd (_handle_client_for_server client server_name self) in
  closed client' = true
  ∧ outgoing client `prefix_of` outgoing client'
  ∧ (length (outgoing client') ≤ length (outgoing client) + length (incoming client))%nat
  ∧ servers self' = servers self
  ∧ python_servers self' = python_servers self
  ∧ dom (active_processes self') = dom (active_processes self)
  ∧ running self' = running self
  ∧ max_message_bytes self' = max_message_bytes self.
Proof.
  unfold _handle_client_for_server, enter.
  destruct (BoundedSemaphore.acquire_nonblocking (connection_semaphore self))
    as [acquired semaphore].
  destruct acquired; cbn [negb].
  - unfold serve.
    pose proof (message_loop_spec server_name (incoming client) (outgoing client)
                  (set_connection_semaphore semaphore self)) as (Hprefix & Hlength & Hsetup).
    destruct (message_loop server_name (incoming client) (outgoing client)
                (set_connection_semaphore semaphore self)) as [written self'].
    cbn [fst snd] in *. destruct Hsetup as (?&?&?&?&?&?&?&?).
    unfold close, leave. cbn. repeat split; done.
  - cbn. repeat split; (done || lia).
Qed.

(** X4.  A connection that finds a slot free gives it back: with the
    counter of the semaphore between 1 and its initial value when the
    handler starts, the semaphore is the same when the handler returns,
    whatever happened on the connection. *)
Theorem served_connection_returns_slot (client : Socket) (server_name : string)
    (self : MCPProxy.t) :
  (0 < available self)%nat →
  (available self ≤ BoundedSemaphore._initial_value (connection_semaphore self))%nat →
  connection_semaphore (snd (_handle_client_for_server client server_name self))
  = connection_semaphore self.
Proof.
  unfold available, _handle_client_for_server, enter,
    BoundedSemaphore.acquire_nonblocking.
  destruct (connection_semaphore self) as [value initial] eqn:Hsem.
  cbn [BoundedSemaphore._value BoundedSemaphore._initial_value].
  intros Hpos Hle. destruct value as [|free]; [lia|]. cbn [negb].
  unfold serve.
  pose proof (message_loop_spec server_name (incoming client) (outgoing client)
                (set_connection_semaphore
                   {| BoundedSemaphore._value := free;
                      BoundedSemaphore._initial_value := initial |} self))
    as (_ & _ & Hsetup).
  destruct (message_loop _ _ _ _) as [written self'].
  cbn [fst snd] in *. destruct Hsetup as (_&_&_&_&_&_&_&Hsame).
  unfold leave, BoundedSemaphore.release. cbn [snd connection_semaphore set_connection_semaphore].
  rewrite Hsame. cbn.
  destruct (Nat.leb_spec initial free); [lia|reflexivity].
Qed.

Lemma served_connection_returns_slot_witness :
  ((0 < available echo_proxy)%nat
   ∧ (available echo_proxy
      ≤ BoundedSemaphore._initial_value (connection_semaphore echo_proxy))%nat)
  ∧ connection_semaphore
      (snd (_handle_client_for_server
              (connect [ ClientLine 96 (Return echo_request) ]) "echo" echo_proxy))
    = connection_semaphore echo_proxy.
Proof.
  assert (H1 : (0 < available echo_proxy)%nat) by (vm_compute; lia).
  assert (H2 : (available echo_proxy
                ≤ BoundedSemaphore._initial_value (connection_semaphore echo_proxy))%nat)
    by (vm_compute; lia).
  split; [split; assumption|].
  exact (served_connection_returns_slot _ "echo" echo_proxy H1 H2).
Defined.

Lemma message_loop_ends (server_name : string) (bad : ClientInput)
    (rest good : list ClientInput) :
  ∀ (written : list Json) (self : MCPProxy.t),
    ends_connection (max_message_bytes self) bad = true →
    message_loop server_name (good ++ bad :: rest) written self
    = message_loop server_name good written self.
Proof.
  induction good as [|input good IH]; intros written self Hbad.
  - cbn [app message_loop]. destruct (negb (running self)); [done|].
    destruct bad as [nbytes [message|e]|e]; cbn [ends_connection] in Hbad; [| |done].
    + rewrite orb_false_r in Hbad. by rewrite Hbad.
    + by destruct (max_message_bytes self <? nbytes)%Z.
  - cbn [app message_loop]. destruct (negb (running self)); [done|].
    destruct input as [nbytes decoded|e]; [|done].
    destruct (max_message_bytes self <? nbytes)%Z; [done|].
    destruct decoded as [message|e]; [|done].
    pose proof (keeps_setup_handle_message message server_name self) as Hkeeps.
    destruct (handle_message message server_name self) as [[response|e] self'];
      cbn [snd] in Hkeeps; [|done].
    apply IH. destruct Hkeeps as (_&_&_&_&_&_&Hmax&_). by rewrite Hmax.
Qed.

(** X5.  The first line that cannot be read, is longer than
    [max_message_bytes] or is not JSON ends the connection as a disconnect
    does: it gets no response, and nothing the client sent after it is
    handled: the responses written and the proxy are those of the same
    connection cut before that line. *)
Theorem bad_line_ends_connection (server_name : string) (self : MCPProxy.t)
    (good rest : list ClientInput) (bad : ClientInput) :
  ends_connection (max_message_bytes self) bad = true →
  outgoing (fst (_handle_client_for_server (connect (good ++ bad :: rest))
                   server_name self))
  = outgoing (fst (_handle_client_for_server (connect good) server_name self))
  ∧ snd (_handle_client_for_server (connect (good ++ bad :: rest)) server_name self)
    = snd (_handle_client_for_server (connect good) server_name self).
Proof.
  intros Hbad. unfold _handle_client_for_server, enter.
  destruct (BoundedSemaphore.acquire_nonblocking (connection_semaphore self))
    as [acquired semaphore].
  destruct acquired; cbn [negb]; [|done].
  unfold serve, connect. cbn [incoming outgoing].
  rewrite (message_loop_ends server_name bad rest good []
             (set_connection_semaphore semaphore self) Hbad).
  by destruct (message_loop _ _ _ _).
Qed.

Lemma bad_line_ends_connection_witness :
  ends_connection (max_message_bytes echo_proxy) (ClientLine 2000000 (Return echo_request))
  = true
  ∧ outgoing (fst (_handle_client_for_server
                     (connect ([ ClientLine 40 (Return (tools_list (JInt 1))) ]
                               ++ ClientLine 2000000 (Return echo_request)
                               :: [ ClientLine 96 (Return echo_request) ]))
                     "echo" echo_proxy))
    = outgoing (fst (_handle_client_for_server
                       (connect [ ClientLine 40 (Return (tools_list (JInt 1))) ])
                       "echo" echo_proxy))
  ∧ snd (_handle_client_for_server
           (connect ([ ClientLine 40 (Return (tools_list (JInt 1))) ]
                     ++ ClientLine 2000000 (Return echo_request)
                     :: [ ClientLine 96 (Return echo_request) ]))
           "echo" echo_proxy)
    = snd (_handle_client_for_server
             (connect [ ClientLine 40 (Return (tools_list (JInt 1))) ])
             "echo" echo_proxy).
Proof.
  split; [reflexivity|].
  exact (bad_line_ends_connection "echo" echo_proxy
           [ ClientLine 40 (Return (tools_list (JInt 1))) ]
           [ ClientLine 96 (Return echo_request) ]
           (ClientLine 2000000 (Return echo_request)) eq_refl).
Defined.

(** ** The router around the forward *)

Lemma check_response_cases (message response r : Json) :
  check_response message response = Return r →
  (r = response ∧ _is_valid_jsonrpc_response response = true)
  ∨ ∃ code text, _create_error_response message code text = Return r.
Proof.
  unfold check_response.
  destruct (_is_valid_jsonrpc_response response); cbn [negb]; [|eauto].
  destruct (py_get message "id" PyNone) as [req_id|e]; [|discriminate]. cbn [exc_bind].
  destruct (negb (is_none req_id)).
  - destruct (py_get response "id" PyNone) as [resp_id|e]; [|discriminate].
    cbn [exc_bind]. destruct (negb (py_eq resp_id req_id)); [eauto|].
    intros [= <-]. by left.
  - cbn [exc_bind]. intros [= <-]. by left.
Qed.

(** The value of a forward is built by [_create_error_response] or is a
    reply of the backend that passed the schema. *)
Lemma forward_value (self : MCPProxy.t) (server_name : string) (message id : Json) :
  py_get message "id" PyNone = Return id →
  ∃ r, fst (_forward_to_server server_name message self) = Return r
       ∧ ((∃ code text, _create_error_response message code text = Return r)
          ∨ (_is_valid_jsonrpc_response r = true
             ∧ backend_reply self server_name message r)).
Proof.
  intros Hid.
  destruct (forward_cases self server_name message id Hid) as (r & Hr & Hcase).
  exists r. split; [done|].
  destruct Hcase as [?|(Hvalid & response & Hreply & Hcheck)]; [by left|].
  destruct (check_response_cases _ _ _ Hcheck) as [[-> Hv]|?]; [by right|by left].
Qed.

Lemma has_result_valid (r : Json) :
  _is_valid_jsonrpc_response r = true → has_result r = Return (carries_result r).
Proof.
  destruct r as [| | | | |kvs]; try discriminate.
  destruct kvs as [|kv kvs]; [discriminate|]. reflexivity.
Qed.

Lemma has_result_error (message : Json) (code : Z) (text : string) (r : Json) :
  _create_error_response message code text = Return r → has_result r = Return false.
Proof.
  intros H. by apply create_error_response_shape in H as [->|(id & _ & ->)].
Qed.

Lemma forward_not_none (self : MCPProxy.t) (server_name : string) (message id r : Json) :
  py_get message "id" PyNone = Return id →
  id ≠ PyNone →
  fst (_forward_to_server server_name message self) = Return r →
  is_none r = false.
Proof.
  intros Hid Hnn Hr.
  destruct (forward_value self server_name message id Hid) as (r' & Hr' & Hcase).
  rewrite Hr in Hr'. injection Hr' as <-.
  destruct Hcase as [(code & text & Herr)|[Hvalid _]].
  - rewrite (create_error_response_with_id _ _ _ _ Hid Hnn) in Herr. by injection Herr as <-.
  - by destruct r.
Qed.

Lemma before_without_hooks (self : MCPProxy.t) (server_name : string)
    (config : MCPServerConfig.t) (request tool_name : Json) :
  servers self !! server_name = Some config →
  MCPServerConfig.intercept_before config = ∅ →
  _process_server_interceptors_before request server_name tool_name self
  = (Return request, self).
Proof.
  intros Hreg Hempty. unfold _process_server_interceptors_before.
  rewrite run_bind_get_self, Hreg, Hempty. reflexivity.
Qed.

Lemma after_without_hooks (self : MCPProxy.t) (server_name : string)
    (config : MCPServerConfig.t) (request response tool_name : Json) :
  servers self !! server_name = Some config →
  MCPServerConfig.intercept_after config = ∅ →
  _process_server_interceptors_after request response server_name tool_name self
  = (Return response, self).
Proof.
  intros Hreg Hempty. unfold _process_server_interceptors_after.
  rewrite run_bind_get_self, Hreg, Hempty. reflexivity.
Qed.

(** X6.  For a backend without interceptors, a [tools/call] request with an
    id for an allowed tool is exactly a forward of the message: the router
    returns the value of [_forward_to_server], changes the proxy as the
    forward does, and its own "No response from server" is never reached. *)
Theorem route_without_hooks (self : MCPProxy.t) (server_name : string)
    (config : MCPServerConfig.t) (message params tool_name id : Json) :
  servers self !! server_name = Some config →
  MCPServerConfig.intercept_before config = ∅ →
  MCPServerConfig.intercept_after config = ∅ →
  py_get message "params" (JObj []) = Return params →
  py_get params "name" PyNone = Return tool_name →
  py_truthy tool_name = true →
  is_tool_allowed self server_name tool_name = true →
  py_get message "id" PyNone = Return id →
  id ≠ PyNone →
  _route_tool_call_to_server message server_name self
  = _forward_to_server server_name message self.
Proof.
  intros Hreg Hbefore Hafter Hparams Hname Htruthy Hallowed Hid Hnn.
  rewrite (route_allowed _ _ _ _ _ Hparams Hname Htruthy Hallowed).
  rewrite (run_bind_eq _ _ _ _ _ (before_without_hooks _ _ _ _ _ Hreg Hbefore)).
  unfold after_before.
  assert (is_none message = false) as ->
    by (destruct message; try discriminate Hid; reflexivity).
  pose proof (forward_not_none self server_name message id) as Hnone.
  destruct (forward_calls server_name message self) as [_ Hservers].
  destruct (forward_returns server_name message id self Hid) as [r Hr].
  unfold run_bind.
  destruct (_forward_to_server server_name message self) as [[r'|e] self'];
    cbn [fst snd] in *; [|discriminate Hr].
  unfold after_forward. rewrite (Hnone r' Hid Hnn eq_refl).
  assert (Hreg' : servers self' !! server_name = Some config) by (by rewrite Hservers).
  rewrite (run_bind_eq _ _ _ _ _ (after_without_hooks _ _ _ _ _ _ Hreg' Hafter)).
  by rewrite (Hnone r' Hid Hnn eq_refl).
Qed.

Lemma route_without_hooks_witness :
  (servers echo_proxy !! "echo" = Some (python_config echo None None)
   ∧ MCPServerConfig.intercept_before (python_config echo None None) = ∅
   ∧ MCPServerConfig.intercept_after (python_config echo None None) = ∅
   ∧ py_get echo_request "params" (JObj [])
     = Return (JObj [ ("name", JStr "say"); ("arguments", JObj [ ("msg", JStr "hi") ]) ])
   ∧ py_truthy (JStr "say") = true
   ∧ is_tool_allowed echo_proxy "echo" (JStr "say") = true
   ∧ py_get echo_request "id" PyNone = Return (JInt 7)
   ∧ JInt 7 ≠ PyNone)
  ∧ _route_tool_call_to_server echo_request "echo" echo_proxy
    = _forward_to_server "echo" echo_request echo_proxy.
Proof.
  assert (Hnn : JInt 7 ≠ PyNone) by discriminate.
  split; [repeat (split; [reflexivity|]); exact Hnn|].
  exact (route_without_hooks echo_proxy "echo" (python_config echo None None)
           echo_request _ (JStr "say") (JInt 7)
           eq_refl eq_refl eq_refl eq_refl eq_refl eq_refl eq_refl eq_refl Hnn).
Defined.

(** X7.  [initialize] on a per-server endpoint never fails.  For a message
    that is a dictionary, [_forward_to_server] returns a value and
    [_handle_initialize_for_server] returns that value when it carries a
    result, and otherwise (the backend is not running, does not answer,
    answers with an error or a malformed reply) the default answer with the
    id of the message, protocol version 2024-11-05 and the name of the
    server.  So the response always carries a result, and the reply of a
    backend to a valid message is handed on as it is when it passes the
    response schema, carries a result and has the id of the message (any id
    when the message has none).  The proxy is left as the forward leaves
    it. *)
Theorem initialize_never_fails (self : MCPProxy.t) (server_name : string)
    (message id : Json) :
  py_get message "id" PyNone = Return id →
  ∃ forwarded r,
    fst (_forward_to_server server_name message self) = Return forwarded
    ∧ fst (_handle_initialize_for_server message server_name self) = Return r
    ∧ r = (if carries_result forwarded then forwarded
           else default_initialize id server_name)
    ∧ snd (_handle_initialize_for_server message server_name self)
      = snd (_forward_to_server server_name message self)
    ∧ carries_result r = true
    ∧ (r = default_initialize id server_name
       ∨ (fst (_forward_to_server server_name message self) = Return r
          ∧ backend_reply self server_name message r))
    ∧ (python_servers self !! server_name = None →
       active_processes self !! server_name = None →
       r = default_initialize id server_name)
    ∧ (∀ response,
         _is_valid_jsonrpc_message message = true →
         backend_reply self server_name message response →
         _is_valid_jsonrpc_response response = true →
         carries_result response = true →
         is_none id = true ∨ py_eq (id_of response) id = true →
         r = response).
Proof.
  intros Hid.
  assert (Hpass : ∀ forwarded response,
            fst (_forward_to_server server_name message self) = Return forwarded →
            _is_valid_jsonrpc_message message = true →
            backend_reply self server_name message response →
            _is_valid_jsonrpc_response response = true →
            is_none id = true ∨ py_eq (id_of response) id = true →
            forwarded = response).
  { intros forwarded response Hforwarded Hvalid Hreply Hschema Hids.
    rewrite (forward_applies_check _ _ _ _ Hvalid Hreply) in Hforwarded.
    destruct (is_none id) eqn:Hnone.
    - destruct id; try discriminate Hnone.
      rewrite (check_response_without_id _ _ Hid), Hschema in Hforwarded.
      by injection Hforwarded as <-.
    - destruct Hids as [?|Hids]; [done|].
      rewrite (check_response_with_id _ id _ Hid), Hschema, Hids in Hforwarded
        by (intros ->; discriminate Hnone).
      by injection Hforwarded as <-. }
  destruct (forward_value self server_name message id Hid) as (r & Hr & Hcase).
  unfold _handle_initialize_for_server.
  destruct (_forward_to_server server_name message self) as [[r'|e] self'] eqn:Hforward;
    cbn [fst snd] in *; [|discriminate Hr]. injection Hr as ->.
  rewrite (run_bind_eq _ _ _ _ _ Hforward). exists r.
  destruct Hcase as [(code & text & Herr)|[Hvalid Hreply]].
  - rewrite (has_result_error _ _ _ _ Herr), run_bind_lift_return, Hid,
      run_bind_lift_return, ret_eq. cbn [fst snd].
    assert (Hplain : carries_result r = false).
    { by apply create_error_response_shape in Herr as [->|(id' & _ & ->)]. }
    exists (default_initialize id server_name). rewrite Hplain.
    split; [reflexivity|]. split; [reflexivity|]. split; [reflexivity|].
    split; [reflexivity|]. split; [reflexivity|]. split; [by left|].
    split; [done|].
    intros response Hv Hreply Hschema Hresult Hids.
    rewrite <- (Hpass r response eq_refl Hv Hreply Hschema Hids) in Hresult. congruence.
  - rewrite (has_result_valid _ Hvalid), run_bind_lift_return.
    destruct (carries_result r) eqn:Hresult.
    + rewrite ret_eq. cbn [fst snd]. exists r.
      split; [reflexivity|]. split; [reflexivity|]. split; [reflexivity|].
      split; [reflexivity|]. split; [exact Hresult|]. split; [by right|].
      split.
      * intros Hp Ha. unfold backend_reply in Hreply. rewrite Hp in Hreply.
        destruct Hreply as (process & Hproc & _). congruence.
      * intros response Hv Hreply' Hschema _ Hids.
        exact (Hpass r response eq_refl Hv Hreply' Hschema Hids).
    + rewrite Hid, run_bind_lift_return, ret_eq. cbn [fst snd].
      exists (default_initialize id server_name).
      split; [reflexivity|]. split; [reflexivity|]. split; [reflexivity|].
      split; [reflexivity|]. split; [reflexivity|]. split; [by left|].
      split; [done|].
      intros response Hv Hreply' Hschema Hresult' Hids.
      rewrite <- (Hpass r response eq_refl Hv Hreply' Hschema Hids) in Hresult'.
      congruence.
Qed.

Lemma initialize_never_fails_witness :
  let message := request (JInt 4) "initialize" [] in
  let reply := result_response (JInt 4) (JObj [ ("content", JList []) ]) in
  (py_get message "id" PyNone = Return (JInt 4)
   ∧ backend_reply stamping_proxy "browser" message reply)
  ∧ fst (_handle_initialize_for_server message "browser" stamping_proxy) = Return reply.
Proof.
  intros message reply.
  assert (Hreply : backend_reply stamping_proxy "browser" message reply).
  { exists (child [ Line (Return reply) ]). repeat split; reflexivity. }
  split; [split; [reflexivity|exact Hreply]|].
  destruct (initialize_never_fails stamping_proxy "browser" message (JInt 4) eq_refl)
    as (forwarded & r & _ & -> & _ & _ & _ & _ & _ & Hpass).
  f_equal. apply Hpass; try reflexivity; [exact Hreply|by right].
Defined.

(** ** The embedded backend behind the proxy *)

Lemma python_error_response_shape (id : Json) (code : Z) (text : string) :
  let r := PythonMCPServer._create_error_response id code text in
  if is_none r then is_none id = true
  else _is_valid_jsonrpc_response r = true ∧ id_of r = id.
Proof. by destruct id. Qed.

(** X8.  [PythonMCPServer.handle_request] on a request that is a
    dictionary never raises, whatever the method, the parameters and the
    instance.  It returns [None] only for a request without an id (or with
    a null one), and every other value it returns passes the response
    schema of the proxy and carries exactly the id of the request. *)
Theorem handle_request_replies (self : PythonMCPServer.t) (request id : Json) :
  py_get request "id" PyNone = Return id →
  ∃ r, PythonMCPServer.handle_request self request = Return r
       ∧ if is_none r then is_none id = true
         else _is_valid_jsonrpc_response r = true ∧ id_of r = id.
Proof.
  intros Hid. destruct request as [| | | | |kvs]; try discriminate Hid.
  cbn [py_get] in Hid. injection Hid as Hid.
  unfold PythonMCPServer.handle_request. cbn [py_get exc_bind]. rewrite Hid.
  destruct (py_eq (default PyNone (assoc "method" kvs)) (JStr "initialize")).
  { cbn. eexists. split; [reflexivity|]. apply python_error_response_shape. }
  destruct (py_eq (default PyNone (assoc "method" kvs)) (JStr "tools/list")).
  { cbn. eexists. split; [reflexivity|]. done. }
  destruct (py_eq (default PyNone (assoc "method" kvs)) (JStr "tools/call")).
  - unfold PythonMCPServer._handle_tool_call.
    destruct (default (JObj []) (assoc "params" kvs)) as [| | | | |params];
      try (cbn; eexists; split; [reflexivity|]; apply python_error_response_shape).
    cbn [py_get exc_bind].
    destruct (negb (py_truthy (default PyNone (assoc "name" params))));
      cbn; eexists; (split; [reflexivity|]); apply python_error_response_shape.
  - cbn. eexists. split; [reflexivity|]. apply python_error_response_shape.
Qed.

Lemma handle_request_replies_witness :
  py_get echo_request "id" PyNone = Return (JInt 7)
  ∧ ∃ r, PythonMCPServer.handle_request {| PythonMCPServer.mcp := echo |} echo_request
         = Return r
         ∧ if is_none r then is_none (JInt 7) = true
           else _is_valid_jsonrpc_response r = true ∧ id_of r = JInt 7.
Proof.
  split; [reflexivity|].
  exact (handle_request_replies {| PythonMCPServer.mcp := echo |} echo_request (JInt 7)
           eq_refl).
Defined.

Lemma get_tools_dicts (instance : BaseMCP) :
  Forall (λ tool, isinstance_dict tool = true) (get_tools instance).
Proof. unfold get_tools. apply Forall_map, Forall_true. done. Qed.

(** [tools/list] answered by a running Python server. *)
Lemma tools_list_of_python_server (self : MCPProxy.t) (server_name : string)
    (python_server : PythonMCPServer.t) (message id : Json) :
  python_servers self !! server_name = Some python_server →
  _is_valid_jsonrpc_message message = true →
  py_get message "method" PyNone = Return (JStr "tools/list") →
  py_get message "id" PyNone = Return id →
  py_eq id id = true →
  _handle_tools_list_for_server message server_name self
  = (Return (result_response id
               (JObj [ ("tools",
                        JList (List.filter (listed self server_name)
                                 (get_tools (PythonMCPServer.mcp python_server)))) ])),
     set_calls (calls self ++ [ CallForward server_name message ])%list self).
Proof.
  intros Hserver Hvalid Hmethod Hid Hrefl.
  set (tools := get_tools (PythonMCPServer.mcp python_server)).
  assert (Hforward : _forward_to_server server_name message self
                     = (Return (result_response id (JObj [ ("tools", JList tools) ])),
                        set_calls (calls self ++ [ CallForward server_name message ])%list
                          self)).
  { unfold _forward_to_server.
    rewrite run_bind_record_call, run_bind_get_self.
    cbn [python_servers set_calls]. rewrite Hserver.
    unfold try_run. rewrite Hvalid. cbn [negb].
    assert (PythonMCPServer.handle_request python_server message
            = Return (result_response id (JObj [ ("tools", JList tools) ]))) as ->.
    { destruct message as [| | | | |kvs]; try discriminate Hid.
      unfold PythonMCPServer.handle_request. cbn [py_get exc_bind] in *.
      injection Hmethod as ->. injection Hid as ->. reflexivity. }
    rewrite run_bind_lift_return, lift_eq.
    assert (check_response message (result_response id (JObj [ ("tools", JList tools) ]))
            = Return (result_response id (JObj [ ("tools", JList tools) ]))) as ->;
      [|reflexivity].
    destruct (is_none id) eqn:Hnone.
    - destruct id; try discriminate Hnone.
      by rewrite (check_response_without_id _ _ Hid).
    - rewrite (check_response_with_id _ id _ Hid) by (intros ->; discriminate Hnone).
      change (id_of (result_response id (JObj [ ("tools", JList tools) ]))) with id.
      by rewrite Hrefl. }
  unfold _handle_tools_list_for_server.
  rewrite (run_bind_eq _ _ _ _ _ Hforward).
  change (has_result (result_response id (JObj [ ("tools", JList tools) ])))
    with (@Return bool true).
  rewrite run_bind_lift_return.
  change (py_index (result_response id (JObj [ ("tools", JList tools) ])) "result")
    with (Return (JObj [ ("tools", JList tools) ])).
  rewrite run_bind_lift_return.
  change (py_get (JObj [ ("tools", JList tools) ]) "tools" (JList []))
    with (Return (JList tools)).
  rewrite run_bind_lift_return. cbn [py_iter].
  rewrite run_bind_lift_return, run_bind_get_self.
  rewrite (filter_tools_dicts _ _ tools (get_tools_dicts _)), run_bind_lift_return.
  rewrite Hid, run_bind_lift_return, ret_eq.
  assert (List.filter (listed (set_calls (calls self ++ [ CallForward server_name message ])
                                 self) server_name) tools
          = List.filter (listed self server_name) tools) as ->; reflexivity.
Qed.

(** X9.  [tools/list] on the endpoint of a running Python server.  For a
    valid message with method [tools/list] (its id equal to itself under
    [==], as every decoded JSON value is), the answer carries the id of the
    message and the tools of the instance, in the order of its tool table,
    without those whose name is empty or denied by the access filter; the
    only call made is the forward of the message. *)
Theorem embedded_tools_list (self : MCPProxy.t) (server_name : string)
    (python_server : PythonMCPServer.t) (message id : Json) :
  python_servers self !! server_name = Some python_server →
  _is_valid_jsonrpc_message message = true →
  py_get message "method" PyNone = Return (JStr "tools/list") →
  py_get message "id" PyNone = Return id →
  py_eq id id = true →
  _handle_tools_list_for_server message server_name self
  = (Return (result_response id
               (JObj [ ("tools",
                        JList (List.filter (listed self server_name)
                                 (get_tools (PythonMCPServer.mcp python_server)))) ])),
     set_calls (calls self ++ [ CallForward server_name message ])%list self).
Proof. apply tools_list_of_python_server. Qed.

Lemma embedded_tools_list_witness :
  (python_servers echo_proxy !! "echo" = Some {| PythonMCPServer.mcp := echo |}
   ∧ _is_valid_jsonrpc_message (tools_list (JInt 2)) = true
   ∧ py_get (tools_list (JInt 2)) "method" PyNone = Return (JStr "tools/list")
   ∧ py_get (tools_list (JInt 2)) "id" PyNone = Return (JInt 2)
   ∧ py_eq (JInt 2) (JInt 2) = true)
  ∧ _handle_tools_list_for_server (tools_list (JInt 2)) "echo" echo_proxy
    = (Return (result_response (JInt 2)
                 (JObj [ ("tools",
                          JList (List.filter (listed echo_proxy "echo")
                                   (get_tools echo))) ])),
       set_calls (calls echo_proxy ++ [ CallForward "echo" (tools_list (JInt 2)) ])%list
         echo_proxy).
Proof.
  split; [repeat split; reflexivity|].
  exact (embedded_tools_list echo_proxy "echo" {| PythonMCPServer.mcp := echo |}
           (tools_list (JInt 2)) (JInt 2) eq_refl eq_refl eq_refl eq_refl eq_refl).
Defined.

(** ** The after-pipeline in the router *)

(** The after-pipeline when the tool has a hook of its own. *)
Lemma after_with_specific (self : MCPProxy.t) (server_name : string)
    (config : MCPServerConfig.t) (request response : Json) (tool : string)
    (hook : AfterHook) :
  servers self !! server_name = Some config →
  MCPServerConfig.intercept_after config !! tool = Some hook →
  let first_call := CallAfter (JStr tool) request response in
  _process_server_interceptors_after request response server_name (JStr tool) self
  = match hook request response server_name (JStr tool) with
    | Raise _ => (Return PyNone, set_calls (calls self ++ [ first_call ])%list self)
    | Return current =>
        if is_none current
        then (Return PyNone, set_calls (calls self ++ [ first_call ])%list self)
        else
          match MCPServerConfig.intercept_after config !! "*" with
          | None => (Return current, set_calls (calls self ++ [ first_call ])%list self)
          | Some wildcard =>
              (Return match wildcard request current server_name (JStr tool) with
                      | Return rewritten => rewritten
                      | Raise _ => PyNone
                      end,
               set_calls (calls self ++ [ first_call;
                                          CallAfter (JStr "*") request current ])%list
                 self)
          end
    end.
Proof.
  intros Hreg Hhook first_call. unfold _process_server_interceptors_after.
  rewrite run_bind_get_self, Hreg. cbn zeta.
  rewrite (nonempty_hooks _ _ _ Hhook).
  cbn [lookup_key]. rewrite run_bind_lift_return, Hhook.
  erewrite run_bind_eq by apply run_hook_calls.
  destruct (hook request response server_name (JStr tool)) as [current|e]; [|reflexivity].
  destruct (is_none current); [reflexivity|].
  destruct (MCPServerConfig.intercept_after config !! "*") as [wildcard|]; [|reflexivity].
  erewrite run_bind_eq by apply run_hook_calls.
  rewrite ret_eq, set_calls_twice. cbn [calls set_calls]. rewrite <- app_assoc.
  destruct (wildcard request current server_name (JStr tool)) as [[]|]; reflexivity.
Qed.

(** X10.  A [tools/call] request with an id, for an allowed tool that has
    an after-hook of its own, once the before-pipeline has handed back a
    request and the forward a response.  The after-hooks are given that
    request (as the before-pipeline left it) and the response.  If the
    hook of the tool returns [None] or raises, the wildcard hook is not
    called and the router returns the error response with code -32001 and
    the id of the original message, although the backend has answered.
    Otherwise the wildcard hook, when there is one, is called with the
    rewritten response and what it returns is the router's answer (the
    same error when it blocks); without a wildcard hook the rewritten
    response is the answer. *)
Theorem after_hook_composition (self self1 self2 : MCPProxy.t) (server_name : string)
    (config : MCPServerConfig.t) (message params id processed response : Json)
    (tool : string) (hook : AfterHook) :
  servers self !! server_name = Some config →
  MCPServerConfig.intercept_after config !! tool = Some hook →
  py_get message "params" (JObj []) = Return params →
  py_get params "name" PyNone = Return (JStr tool) →
  tool ≠ "" →
  is_tool_allowed self server_name (JStr tool) = true →
  py_get message "id" PyNone = Return id →
  id ≠ PyNone →
  _process_server_interceptors_before message server_name (JStr tool) self
  = (Return processed, self1) →
  is_none processed = false →
  _forward_to_server server_name processed self1 = (Return response, self2) →
  is_none response = false →
  let outcome := _route_tool_call_to_server message server_name self in
  let blocked := Return (error_response id (-32001) "Response blocked by interceptor") in
  let first_call := CallAfter (JStr tool) processed response in
  match hook processed response server_name (JStr tool) with
  | Return JNull | Raise _ =>
      outcome = (blocked, set_calls (calls self2 ++ [ first_call ])%list self2)
  | Return rewritten =>
      match MCPServerConfig.intercept_after config !! "*" with
      | None =>
          outcome = (Return rewritten, set_calls (calls self2 ++ [ first_call ])%list self2)
      | Some wildcard =>
          let after := set_calls (calls self2 ++ [ first_call;
                         CallAfter (JStr "*") processed rewritten ])%list self2 in
          match wildcard processed rewritten server_name (JStr tool) with
          | Return JNull | Raise _ => outcome = (blocked, after)
          | Return final => outcome = (Return final, after)
          end
      end
  end.
Proof.
  intros Hreg Hhook Hparams Hname Htool Hallowed Hid Hnn Hbefore Hprocessed Hforward
    Hresponse outcome blocked first_call.
  assert (Hreg2 : servers self2 !! server_name = Some config).
  { destruct (keeps_before message server_name (JStr tool) self) as [_ H1].
    destruct (forward_calls server_name processed self1) as [_ H2].
    rewrite Hbefore in H1. rewrite Hforward in H2. cbn [snd] in *. by rewrite H2, H1. }
  pose proof (after_with_specific _ _ _ processed response _ _ Hreg2 Hhook) as Hafter.
  cbn zeta in Hafter. fold first_call in Hafter.
  assert (Hroute : outcome
            = run_bind (_process_server_interceptors_after processed response
                          server_name (JStr tool))
                (λ processed_response,
                   if is_none processed_response
                   then lift (_create_error_response message (-32001)
                                "Response blocked by interceptor")
                   else ret processed_response) self2).
  { unfold outcome.
    rewrite (route_allowed _ _ _ _ _ Hparams Hname (truthy_str _ Htool) Hallowed).
    rewrite (run_bind_eq _ _ _ _ _ Hbefore). unfold after_before. rewrite Hprocessed.
    rewrite (run_bind_eq _ _ _ _ _ Hforward). unfold after_forward.
    by rewrite Hresponse. }
  unfold run_bind in Hroute. rewrite Hafter in Hroute. clear Hafter.
  assert (Hblocked : ∀ s : MCPProxy.t,
            lift (_create_error_response message (-32001)
                    "Response blocked by interceptor") s = (blocked, s)).
  { intros s. by rewrite lift_eq, (create_error_response_with_id _ _ _ _ Hid Hnn). }
  destruct (hook processed response server_name (JStr tool)) as [rewritten|e];
    [|rewrite Hroute; apply Hblocked].
  destruct (is_none rewritten) eqn:Hnone.
  { destruct rewritten; try discriminate Hnone. rewrite Hroute. apply Hblocked. }
  destruct (MCPServerConfig.intercept_after config !! "*") as [wildcard|].
  - assert (Hwild :
      match wildcard processed rewritten server_name (JStr tool) with
      | Return JNull | Raise _ =>
          outcome = (blocked, set_calls (calls self2 ++ [ first_call;
                        CallAfter (JStr "*") processed rewritten ])%list self2)
      | Return final =>
          outcome = (Return final, set_calls (calls self2 ++ [ first_call;
                        CallAfter (JStr "*") processed rewritten ])%list self2)
      end).
    { destruct (wildcard processed rewritten server_name (JStr tool)) as [final|e];
        cbn beta iota in Hroute; [|rewrite Hroute; apply Hblocked].
      destruct (is_none final) eqn:Hnone'.
      { destruct final; try discriminate Hnone'. rewrite Hroute. apply Hblocked. }
      destruct final; try discriminate Hnone'; exact Hroute. }
    destruct rewritten; try discriminate Hnone; exact Hwild.
  - destruct rewritten; try discriminate Hnone; exact Hroute.
Qed.

Lemma after_hook_composition_witness :
  let config := external_config "browser" "browser-server" None None ∅
                  {[ "navigate" := stamp ]} in
  let reply := result_response (JInt 4) (JObj [ ("content", JList []) ]) in
  let self2 := snd (_forward_to_server "browser" safe_request stamping_proxy) in
  (servers stamping_proxy !! "browser" = Some config
   ∧ MCPServerConfig.intercept_after config !! "navigate" = Some stamp
   ∧ "navigate" ≠ ""
   ∧ is_tool_allowed stamping_proxy "browser" (JStr "navigate") = true
   ∧ py_get safe_request "id" PyNone = Return (JInt 4)
   ∧ JInt 4 ≠ PyNone
   ∧ _process_server_interceptors_before safe_request "browser" (JStr "navigate")
       stamping_proxy = (Return safe_request, stamping_proxy)
   ∧ _forward_to_server "browser" safe_request stamping_proxy = (Return reply, self2))
  ∧ _route_tool_call_to_server safe_request "browser" stamping_proxy
    = (Return (result_response (JInt 4) (JObj [ ("_meta", JObj [ ("tag", JStr "x") ]) ])),
       set_calls (calls self2 ++ [ CallAfter (JStr "navigate") safe_request reply ])%list
         self2).
Proof.
  intros config reply self2.
  assert (Hname : "navigate" ≠ "") by discriminate.
  assert (Hid : JInt 4 ≠ PyNone) by discriminate.
  split; [repeat (split; [reflexivity || assumption|]); reflexivity|].
  exact (after_hook_composition stamping_proxy stamping_proxy self2 "browser" config
           safe_request _ (JInt 4) safe_request reply "navigate" stamp
           eq_refl eq_refl eq_refl eq_refl Hname eq_refl eq_refl Hid
           eq_refl eq_refl eq_refl eq_refl).
Defined.

(** ** Starting and stopping backends *)

(** X11.  [start_server] changes nothing but the two tables of running
    backends, and in them only the entry of the name it is given; its
    answer tells what is there afterwards.  For an unknown name it answers
    [False] and changes nothing.  For a Python backend it answers [True];
    the wrapper that was running is kept, a new one is made otherwise.
    For a child process it answers [True] exactly when a process is
    recorded under the name afterwards, and that process is: the one
    recorded before, if it is still running (nothing is spawned then, and
    the proxy is as it was); otherwise, a dead child being dropped, the
    process spawned for the command, arguments, environment and working
    directory of the configuration, if the spawn does not raise and the
    child is still there a second later; and none otherwise. *)
Theorem start_server_reports (os : Os) (server_name : string) (self : MCPProxy.t) :
  let ok := fst (start_server os server_name self) in
  let after := snd (start_server os server_name self) in
  servers after = servers self
  ∧ (∀ other, other ≠ server_name →
       active_processes after !! other = active_processes self !! other
       ∧ python_servers after !! other = python_servers self !! other)
  ∧ set_active_processes (active_processes self)
      (set_python_servers (python_servers self) after) = self
  ∧ match servers self !! server_name with
    | None => ok = false ∧ after = self
    | Some config =>
        match MCPServerConfig.python_mcp config with
        | Some instance =>
            ok = true
            ∧ python_servers after !! server_name
              = Some (default {| PythonMCPServer.mcp := instance |}
                        (python_servers self !! server_name))
            ∧ active_processes after = active_processes self
        | None =>
            ok = bool_decide (is_Some (active_processes after !! server_name))
            ∧ python_servers after = python_servers self
            ∧ active_processes after !! server_name
              = match active_processes self !! server_name with
                | Some proc =>
                    if still_running os proc then Some proc else launched os config
                | None => launched os config
                end
            ∧ (∀ proc, active_processes self !! server_name = Some proc →
                 still_running os proc = true → after = self)
        end
    end.
Proof.
  cbn zeta. unfold start_server.
  assert (Hsame : set_active_processes (active_processes self)
                    (set_python_servers (python_servers self) self) = self)
    by (by destruct self).
  destruct (servers self !! server_name) as [config|]; [|by repeat split].
  destruct (MCPServerConfig.python_mcp config) as [instance|].
  - destruct (python_servers self !! server_name) as [wrapper|] eqn:Hpy; cbn.
    + by rewrite Hpy.
    + rewrite lookup_insert_eq. split; [done|]. split; [|split; [by destruct self|done]].
      intros other Hother. by rewrite lookup_insert_ne.
  - assert (Hlaunch : ∀ proxy : MCPProxy.t,
              servers proxy = servers self →
              python_servers proxy = python_servers self →
              active_processes proxy !! server_name = None →
              (∀ other, other ≠ server_name →
                 active_processes proxy !! other = active_processes self !! other) →
              set_active_processes (active_processes self) proxy = self →
              let result := launch os server_name config proxy in
              servers (snd result) = servers self
              ∧ (∀ other, other ≠ server_name →
                   active_processes (snd result) !! other = active_processes self !! other
                   ∧ python_servers (snd result) !! other = python_servers self !! other)
              ∧ set_active_processes (active_processes self)
                  (set_python_servers (python_servers self) (snd result)) = self
              ∧ fst result
                = bool_decide (is_Some (active_processes (snd result) !! server_name))
              ∧ python_servers (snd result) = python_servers self
              ∧ active_processes (snd result) !! server_name = launched os config).
    { intros proxy Hservers Hpython Hnone Hothers Hframe. cbn zeta.
      unfold launch, launched.
      assert (Hfail : servers proxy = servers self
                ∧ (∀ other, other ≠ server_name →
                     active_processes proxy !! other = active_processes self !! other
                     ∧ python_servers proxy !! other = python_servers self !! other)
                ∧ set_active_processes (active_processes self)
                    (set_python_servers (python_servers self) proxy) = self
                ∧ false = bool_decide (is_Some (active_processes proxy !! server_name))
                ∧ python_servers proxy = python_servers self
                ∧ active_processes proxy !! server_name = None).
      { rewrite Hnone, Hpython. split; [done|].
        split; [|split; [|split; [|done]]].
        - intros other Hother. by rewrite Hothers.
        - clear -Hpython Hframe. by destruct proxy, self; simplify_eq/=.
        - rewrite bool_decide_eq_false_2; [done|]. by intros [? ?]. }
      destruct (MCPServerConfig.command config) as [command|]; [|exact Hfail].
      destruct (spawn os _ _ _) as [process|e]; [|exact Hfail].
      destruct (came_up os process); [|exact Hfail].
      cbn. rewrite lookup_insert_eq. split; [done|].
      split; [|split; [|split; [|done]]].
      - intros other Hother. rewrite lookup_insert_ne by done.
        by rewrite Hothers, Hpython.
      - clear -Hpython Hframe. by destruct proxy, self; simplify_eq/=.
      - rewrite bool_decide_eq_true_2; [done|]. by eexists. }
    destruct (active_processes self !! server_name) as [proc|] eqn:Hproc.
    + destruct (still_running os proc) eqn:Halive.
      * cbn. rewrite Hproc. split; [done|]. split; [done|]. split; [done|].
        split; [|done]. rewrite bool_decide_eq_true_2; [done|]. by eexists.
      * set (proxy := set_active_processes
                        (delete server_name (active_processes self)) self).
        assert (P3 : active_processes proxy !! server_name = None)
          by apply lookup_delete_eq.
        assert (P4 : ∀ other, other ≠ server_name →
                  active_processes proxy !! other = active_processes self !! other).
        { intros other Hother. cbn. by rewrite lookup_delete_ne. }
        assert (P5 : set_active_processes (active_processes self) proxy = self)
          by (by destruct self).
        destruct (Hlaunch proxy eq_refl eq_refl P3 P4 P5)
          as (H1 & H2 & H3 & H4 & H5 & H6).
        split; [done|]. split; [done|]. split; [done|]. split; [done|].
        split; [done|]. split; [done|]. intros proc' [= <-]. congruence.
    + assert (P5 : set_active_processes (active_processes self) self = self)
        by (by destruct self).
      destruct (Hlaunch self eq_refl eq_refl Hproc (λ _ _, eq_refl) P5)
        as (H1 & H2 & H3 & H4 & H5 & H6).
      split; [done|]. split; [done|]. split; [done|]. split; [done|].
      split; [done|]. split; [done|]. intros proc' [=].
Qed.

Lemma stop_server_servers (os : Os) (server_name : string) (self : MCPProxy.t) :
  servers (stop_server os server_name self) = servers self
  ∧ calls (stop_server os server_name self) = calls self.
Proof.
  unfold stop_server.
  destruct (python_servers self !! server_name); [done|].
  destruct (active_processes self !! server_name) as [process|]; [|done].
  destruct (terminate os process); [|done].
  destruct (outlives_terminate os process); [|done].
  by destruct (kill os process).
Qed.

Lemma stop_server_python (os : Os) (server_name other : string) (self : MCPProxy.t) :
  python_servers (stop_server os server_name self) !! other
  = if decide (other = server_name) then None else python_servers self !! other.
Proof.
  unfold stop_server.
  destruct (python_servers self !! server_name) as [wrapper|] eqn:Hpy.
  - cbn. destruct (decide (other = server_name)) as [->|Hne].
    + apply lookup_delete_eq.
    + by rewrite lookup_delete_ne.
  - assert (Hsame : python_servers self !! other
              = if decide (other = server_name) then None
                else python_servers self !! other).
    { by destruct (decide (other = server_name)) as [->|]. }
    destruct (active_processes self !! server_name) as [process|]; [|done].
    destruct (terminate os process); [|done].
    destruct (outlives_terminate os process); [|done].
    by destruct (kill os process).
Qed.

Lemma stop_server_active (os : Os) (server_name other : string) (self : MCPProxy.t) :
  active_processes (stop_server os server_name self) !! other
  = if decide (other = server_name) then survivor os self server_name
    else active_processes self !! other.
Proof.
  unfold stop_server, survivor, stops.
  destruct (decide (other = server_name)) as [->|Hne].
  - destruct (python_servers self !! server_name) as [wrapper|] eqn:Hpy.
    + rewrite bool_decide_eq_true_2 by (by eexists). cbn.
      by destruct (active_processes self !! server_name).
    + rewrite bool_decide_eq_false_2 by (by intros [? ?]).
      destruct (active_processes self !! server_name) as [process|] eqn:Hproc; [|done].
      destruct (terminate os process); [|done].
      destruct (outlives_terminate os process).
      * destruct (kill os process); [|done]. cbn. apply lookup_delete_eq.
      * cbn. apply lookup_delete_eq.
  - destruct (python_servers self !! server_name) as [wrapper|]; [done|].
    destruct (active_processes self !! server_name) as [process|]; [|done].
    destruct (terminate os process); [|done].
    destruct (outlives_terminate os process).
    + destruct (kill os process); [|done]. cbn. by rewrite lookup_delete_ne.
    + cbn. by rewrite lookup_delete_ne.
Qed.

(** X12.  A backend that has been stopped answers no request.  When the
    child process recorded under the name, if there is one, shares the
    name with no running Python backend and lets itself be stopped, a
    message with an id forwarded after [stop_server] comes back as the
    error response with code -32001 and the text that the server is not
    running, and only the entry in the log is added. *)
Theorem stopped_backend_refuses (os : Os) (server_name : string) (self : MCPProxy.t)
    (message id : Json) :
  (∀ process, active_processes self !! server_name = Some process →
     python_servers self !! server_name = None ∧ stops os process = true) →
  py_get message "id" PyNone = Return id →
  id ≠ PyNone →
  let stopped := stop_server os server_name self in
  _forward_to_server server_name message stopped
  = (Return (error_response id (-32001) ("Server " ++ server_name ++ " not running")),
     set_calls (calls self ++ [ CallForward server_name message ])%list stopped).
Proof.
  intros Hstops Hid Hnn stopped.
  assert (Hpython : python_servers stopped !! server_name = None).
  { unfold stopped. rewrite stop_server_python. by rewrite decide_True. }
  assert (Hactive : active_processes stopped !! server_name = None).
  { unfold stopped. rewrite stop_server_active, decide_True by done.
    unfold survivor.
    destruct (active_processes self !! server_name) as [process|]; [|done].
    destruct (Hstops process eq_refl) as [Hnone ->]. rewrite Hnone.
    rewrite bool_decide_eq_false_2; [done|]. by intros [? ?]. }
  unfold _forward_to_server.
  rewrite run_bind_record_call, run_bind_get_self. cbn [python_servers active_processes set_calls].
  rewrite Hpython, Hactive, lift_eq.
  rewrite (create_error_response_with_id _ _ _ _ Hid Hnn). subst stopped.
  by destruct (stop_server_servers os server_name self) as [_ ->].
Qed.

Lemma stopped_backend_refuses_witness :
  let stopped := stop_server quiet_os "math" math_proxy in
  _forward_to_server "math" (ping (JInt 1)) stopped
  = (Return (error_response (JInt 1) (-32001) "Server math not running"),
     set_calls [ CallForward "math" (ping (JInt 1)) ] stopped).
Proof.
  assert (Hid : JInt 1 ≠ PyNone) by discriminate.
  refine (stopped_backend_refuses quiet_os "math" math_proxy (ping (JInt 1)) (JInt 1)
            _ eq_refl Hid).
  intros process _. split; reflexivity.
Defined.

Lemma elem_of_keys {A : Type} (d : gmap string A) (k : string) :
  k ∈ keys d ↔ is_Some (d !! k).
Proof.
  unfold keys. rewrite list_elem_of_fmap. split.
  - intros [[k' v] [-> Hin]]. apply elem_of_map_to_list in Hin. by eexists.
  - intros [v Hv]. exists (k, v). split; [done|]. by apply elem_of_map_to_list.
Qed.

Lemma survivor_stop_server (os : Os) (server_name other : string) (self : MCPProxy.t) :
  other ≠ server_name →
  survivor os (stop_server os server_name self) other = survivor os self other.
Proof.
  intros Hne. unfold survivor.
  by rewrite stop_server_active, stop_server_python, !decide_False by done.
Qed.

(** Stopping the backends of a list of distinct names, in whatever order
    the names come. *)
Lemma stop_each_lookup (os : Os) (names : list string) (self : MCPProxy.t)
    (other : string) :
  NoDup names →
  servers (stop_each os names self) = servers self
  ∧ python_servers (stop_each os names self) !! other
    = (if decide (other ∈ names) then None else python_servers self !! other)
  ∧ active_processes (stop_each os names self) !! other
    = (if decide (other ∈ names) then survivor os self other
       else active_processes self !! other).
Proof.
  intros Hnodup. revert self.
  induction Hnodup as [|server_name names Hfresh Hnodup IH]; intros self.
  - cbn. rewrite !decide_False by apply not_elem_of_nil. done.
  - change (stop_each os (server_name :: names) self)
      with (stop_each os names (stop_server os server_name self)).
    destruct (IH (stop_server os server_name self)) as (-> & -> & ->).
    split; [apply stop_server_servers|].
    rewrite stop_server_python, stop_server_active.
    destruct (decide (other = server_name)) as [->|Hne].
    + destruct (decide (server_name ∈ names)) as [?|_]; [done|].
      destruct (decide (server_name ∈ server_name :: names)) as [_|Hout]; [done|].
      destruct Hout. apply list_elem_of_here.
    + destruct (decide (other ∈ names)) as [Hin|Hout].
      * destruct (decide (other ∈ server_name :: names)) as [_|Hout].
        -- by rewrite survivor_stop_server.
        -- destruct Hout. by apply list_elem_of_further.
      * destruct (decide (other ∈ server_name :: names)) as [Hin|_]; [|done].
        by apply elem_of_cons in Hin as [?|?].
Qed.

(** X13.  After [stop_all_servers] no Python backend is running and the
    registry is as it was.  The child processes still recorded are those
    whose termination raised and those whose name a running Python backend
    shared: for such a name the call meant for the child stops the Python
    backend instead, and the child is not stopped by the second loop. *)
Theorem stop_all_servers_leaves (os : Os) (self : MCPProxy.t) :
  let after := stop_all_servers os self in
  servers after = servers self
  ∧ python_servers after = ∅
  ∧ ∀ server_name,
      active_processes after !! server_name = survivor os self server_name.
Proof.
  cbn zeta. unfold stop_all_servers.
  set (self1 := stop_each os (keys (active_processes self)) self).
  assert (Hfirst : ∀ other,
            python_servers self1 !! other
            = (if decide (other ∈ keys (active_processes self)) then None
               else python_servers self !! other)
            ∧ active_processes self1 !! other = survivor os self other).
  { intros other.
    destruct (stop_each_lookup os (keys (active_processes self)) self other
                (NoDup_fst_map_to_list _)) as (_ & Hpython & Hactive).
    split; [exact Hpython|]. fold self1 in Hactive. rewrite Hactive.
    destruct (decide (other ∈ keys (active_processes self))) as [Hin|Hout]; [done|].
    unfold survivor.
    destruct (active_processes self !! other) eqn:Hlookup; [|done].
    exfalso. apply Hout, elem_of_keys. by eexists. }
  assert (Hservers : servers self1 = servers self).
  { by destruct (stop_each_lookup os (keys (active_processes self)) self ""
                   (NoDup_fst_map_to_list _)) as (? & _). }
  split; [|split].
  - destruct (stop_each_lookup os (keys (python_servers self1)) self1 ""
                (NoDup_fst_map_to_list _)) as (-> & _). exact Hservers.
  - apply map_empty. intros other.
    destruct (stop_each_lookup os (keys (python_servers self1)) self1 other
                (NoDup_fst_map_to_list _)) as (_ & -> & _).
    destruct (decide (other ∈ keys (python_servers self1))) as [Hin|Hout]; [done|].
    destruct (python_servers self1 !! other) eqn:Hlookup; [|done].
    exfalso. apply Hout, elem_of_keys. by eexists.
  - intros other.
    destruct (stop_each_lookup os (keys (python_servers self1)) self1 other
                (NoDup_fst_map_to_list _)) as (_ & _ & ->).
    destruct (Hfirst other) as [Hpython Hactive].
    destruct (decide (other ∈ keys (python_servers self1))) as [Hin|Hout];
      [|exact Hactive].
    apply elem_of_keys in Hin. rewrite Hpython in Hin.
    destruct (decide (other ∈ keys (active_processes self))) as [?|Hgone];
      [by destruct Hin|].
    assert (Hnone : active_processes self !! other = None).
    { destruct (active_processes self !! other) eqn:Hlookup; [|done].
      exfalso. apply Hgone, elem_of_keys. by eexists. }
    unfold survivor at 1. rewrite Hactive. unfold survivor. by rewrite Hnone.
Qed.

(** X14.  Stopping undoes starting.  For a name under which nothing is
    running, and an operating system that lets a child be stopped,
    [start_server] followed by [stop_server] leaves the proxy as it was,
    whether the name is unknown, a Python backend, a child process that
    came up or one that did not. *)
Theorem stop_undoes_start (os : Os) (server_name : string) (self : MCPProxy.t) :
  backend_running self server_name = false →
  (∀ process, stops os process = true) →
  stop_server os server_name (snd (start_server os server_name self)) = self.
Proof.
  intros Hidle Hstops. unfold backend_running in Hidle.
  apply orb_false_elim in Hidle as [Hpython Hactive].
  apply bool_decide_eq_false in Hpython. apply bool_decide_eq_false in Hactive.
  assert (Hpy : python_servers self !! server_name = None).
  { destruct (python_servers self !! server_name); [|done]. destruct Hpython. by eexists. }
  assert (Hproc : active_processes self !! server_name = None).
  { destruct (active_processes self !! server_name); [|done]. destruct Hactive. by eexists. }
  assert (Hsame : stop_server os server_name self = self).
  { unfold stop_server. by rewrite Hpy, Hproc. }
  unfold start_server.
  destruct (servers self !! server_name) as [config|]; [|exact Hsame].
  destruct (MCPServerConfig.python_mcp config) as [instance|].
  - rewrite Hpy. unfold stop_server. cbn. rewrite lookup_insert_eq. cbn.
    rewrite delete_insert_eq, delete_id by done. by destruct self.
  - rewrite Hproc. unfold launch.
    destruct (MCPServerConfig.command config) as [command|]; [|exact Hsame].
    destruct (spawn os _ _ _) as [process|e]; [|exact Hsame].
    destruct (came_up os process); [|exact Hsame].
    unfold stop_server. cbn. rewrite Hpy, lookup_insert_eq.
    specialize (Hstops process). unfold stops in Hstops.
    destruct (terminate os process); [|done].
    assert (Hdone : set_active_processes
                      (delete server_name (<[server_name := process]> (active_processes self)))
                      (set_active_processes
                         (<[server_name := process]> (active_processes self)) self)
                    = self).
    { cbn. rewrite delete_insert_eq, delete_id by done. by destruct self. }
    destruct (outlives_terminate os process); [|exact Hdone].
    destruct (kill os process); [exact Hdone|done].
Qed.

Lemma stop_undoes_start_witness :
  let registered := add_server math_config (__init__ "mcp-proxy") in
  is_Some (active_processes (snd (start_server quiet_os "math" registered)) !! "math")
  ∧ stop_server quiet_os "math" (snd (start_server quiet_os "math" registered))
    = registered.
Proof.
  intros registered. split; [by eexists|].
  apply (stop_undoes_start quiet_os "math" registered); [reflexivity|].
  intros process. reflexivity.
Defined.

(** ** Servers from configuration data *)

Lemma read_config_name (name command : string) (args : list string)
    (server_dict : Json) (config : MCPServerConfig.t) :
  read_config name command args server_dict = Return (Some config) →
  MCPServerConfig.name config = name
  ∧ MCPServerConfig.command config = Some command
  ∧ MCPServerConfig.args config = args
  ∧ MCPServerConfig.python_mcp config = None
  ∧ MCPServerConfig.intercept_before config = ∅
  ∧ MCPServerConfig.intercept_after config = ∅
  ∧ ∃ whitelist blacklist,
      py_get server_dict "whitelist" PyNone = Return whitelist
      ∧ py_get server_dict "blacklist" PyNone = Return blacklist
      ∧ as_optional_str_list whitelist = Some (MCPServerConfig.whitelist config)
      ∧ as_optional_str_list blacklist = Some (MCPServerConfig.blacklist config).
Proof.
  unfold read_config. destruct server_dict as [| | | | |kvs]; try discriminate.
  cbn [py_get exc_bind].
  destruct (as_str_dict _) as [env|]; [|discriminate].
  destruct (as_str _) as [cwd|]; [|discriminate].
  destruct (as_optional_str_list (default PyNone (assoc "whitelist" kvs)))
    as [whitelist|] eqn:Hwhite; [|discriminate].
  destruct (as_optional_str_list (default PyNone (assoc "blacklist" kvs)))
    as [blacklist|] eqn:Hblack; [|discriminate].
  destruct (as_bool _) as [auto_start|]; [|discriminate].
  destruct (as_bool _) as [inherit_env|]; [|discriminate].
  cbn. intros [= <-]. cbn. do 6 (split; [reflexivity|]).
  exists (default PyNone (assoc "whitelist" kvs)), (default PyNone (assoc "blacklist" kvs)).
  by rewrite Hwhite, Hblack.
Qed.

Lemma entry_config_name (shlex_split : Json → Exc (list string)) (name : string)
    (server_dict : Json) (config : MCPServerConfig.t) :
  entry_config shlex_split name server_dict = Return (Some config) →
  ∃ command args, read_config name command args server_dict = Return (Some config).
Proof.
  unfold entry_config.
  destruct (command_str name server_dict) as [command_line|]; [|discriminate].
  cbn [exc_bind]. destruct (shlex_split command_line) as [[|command args]|];
    try discriminate.
  cbn [exc_bind]. eauto.
Qed.

Lemma entry_config_typed (shlex_split : Json → Exc (list string)) (name : string)
    (server_dict : Json) :
  typed_entry server_dict → entry_config shlex_split name server_dict ≠ Return None.
Proof.
  intros Htyped. unfold entry_config.
  destruct (command_str name server_dict) as [command_line|]; [|discriminate].
  cbn [exc_bind]. destruct (shlex_split command_line) as [[|command args]|];
    try discriminate.
  cbn [exc_bind]. apply Htyped.
Qed.

Lemma assoc_fresh {A : Type} (k : string) (kvs : list (string * A)) :
  k ∉ kvs.*1 → assoc k kvs = None.
Proof.
  induction kvs as [|[k' v] kvs IH]; [done|].
  cbn. intros Hfresh. apply not_elem_of_cons in Hfresh as [Hne Hfresh].
  destruct (String.eqb_spec k k'); [done|]. by apply IH.
Qed.

(** The loop of [load_config] on entries with distinct keys and fields of
    the declared types. *)
Lemma load_entries_spec (shlex_split : Json → Exc (list string))
    (entries : list (string * Json)) (self : MCPProxy.t) :
  NoDup entries.*1 →
  Forall (λ entry, typed_entry (snd entry)) entries →
  ∃ after,
    load_entries shlex_split entries self = Some after
    ∧ (∀ name, servers after !! name
         = match assoc name entries with
           | Some server_dict =>
               match entry_config shlex_split name server_dict with
               | Return (Some config) => Some config
               | _ => servers self !! name
               end
           | None => servers self !! name
           end)
    ∧ set_servers (servers self) after = self.
Proof.
  revert self. induction entries as [|[server_name server_config] rest IH];
    intros self Hnodup Htyped.
  - exists self. split; [done|]. split; [done|]. by destruct self.
  - apply NoDup_cons in Hnodup as [Hfresh Hnodup]. cbn [fst] in Hfresh.
    apply Forall_cons in Htyped as [Hhead Htyped]. cbn [snd] in Hhead.
    cbn [load_entries]. unfold add_server_from_dict.
    pose proof (entry_config_typed shlex_split server_name _ Hhead) as Hsome.
    assert (Hstep : ∀ self' : MCPProxy.t,
              (∀ name, servers self' !! name
                 = if String.eqb name server_name
                   then match entry_config shlex_split name server_config with
                        | Return (Some config) => Some config
                        | _ => servers self !! name
                        end
                   else servers self !! name) →
              set_servers (servers self) self' = self →
              ∃ after,
                load_entries shlex_split rest self' = Some after
                ∧ (∀ name, servers after !! name
                     = match assoc name ((server_name, server_config) :: rest) with
                       | Some server_dict =>
                           match entry_config shlex_split name server_dict with
                           | Return (Some config) => Some config
                           | _ => servers self !! name
                           end
                       | None => servers self !! name
                       end)
                ∧ set_servers (servers self) after = self).
    { intros self' Hlookup Hframe.
      destruct (IH self' Hnodup Htyped) as (after & Hload & Hservers & Hrest).
      exists after. split; [exact Hload|]. split.
      - intros name. rewrite Hservers. cbn [assoc]. specialize (Hlookup name).
        revert Hlookup. destruct (String.eqb_spec name server_name) as [Heq|Hne];
          intros Hlookup.
        + subst name. by rewrite (assoc_fresh _ _ Hfresh).
        + rewrite Hlookup. by destruct (assoc name rest).
      - rewrite <- Hframe at 2. rewrite <- Hrest. by destruct after. }
    destruct (entry_config shlex_split server_name server_config)
      as [[config|]|e] eqn:Hentry; [|done|].
    + apply Hstep.
      * intros name. cbn.
        destruct (entry_config_name _ _ _ _ Hentry) as (command & args & Hread).
        destruct (read_config_name _ _ _ _ _ Hread) as (Hname & _). rewrite Hname.
        destruct (String.eqb_spec name server_name) as [Heq|Hne].
        -- subst name. by rewrite Hentry, lookup_insert_eq.
        -- by rewrite lookup_insert_ne.
      * by destruct self.
    + apply Hstep.
      * intros name. destruct (String.eqb_spec name server_name) as [Heq|Hne]; [|done].
        subst name. by rewrite Hentry.
      * by destruct self.
Qed.

(** X15.  [load_config] on configuration data whose [mcpServers] is a
    dictionary of entries with fields of the declared types never raises,
    whatever the entries are otherwise.  Each entry is taken by itself: an
    entry that [add_server_from_dict] accepts is registered under its key,
    replacing what was registered under that name; an entry that raises
    (no command line, an empty one, an entry that is no dictionary, a
    failing [shlex.split]) changes nothing, neither for its own name nor
    for the entries around it.  Nothing but the registry changes. *)
Theorem load_config_isolates (shlex_split : Json → Exc (list string))
    (config_data : Json) (entries : list (string * Json)) (self : MCPProxy.t) :
  py_get config_data "mcpServers" (JObj []) = Return (JObj entries) →
  NoDup entries.*1 →
  Forall (λ entry, typed_entry (snd entry)) entries →
  ∃ after,
    load_config shlex_split config_data self = Some (Return (), after)
    ∧ (∀ name, servers after !! name
         = match assoc name entries with
           | Some server_dict =>
               match entry_config shlex_split name server_dict with
               | Return (Some config) => Some config
               | _ => servers self !! name
               end
           | None => servers self !! name
           end)
    ∧ set_servers (servers self) after = self.
Proof.
  intros Hentries Hnodup Htyped.
  destruct (load_entries_spec shlex_split entries self Hnodup Htyped)
    as (after & Hload & Hservers & Hframe).
  exists after. unfold load_config. by rewrite Hentries, Hload.
Qed.

Lemma sample_entries_typed : Forall (λ entry, typed_entry (snd entry)) sample_entries.
Proof. repeat constructor; intros name command args; discriminate. Qed.

Lemma load_config_isolates_witness :
  ∃ after,
    load_config plain_split sample_config (__init__ "mcp-proxy") = Some (Return (), after)
    ∧ (∀ name, servers after !! name
         = match assoc name sample_entries with
           | Some server_dict =>
               match entry_config plain_split name server_dict with
               | Return (Some config) => Some config
               | _ => servers (__init__ "mcp-proxy") !! name
               end
           | None => servers (__init__ "mcp-proxy") !! name
           end)
    ∧ set_servers (servers (__init__ "mcp-proxy")) after = __init__ "mcp-proxy".
Proof.
  assert (Hnodup : NoDup sample_entries.*1).
  { apply (bool_decide_unpack _). vm_compute. reflexivity. }
  exact (load_config_isolates plain_split sample_config sample_entries
           (__init__ "mcp-proxy") eq_refl Hnodup sample_entries_typed).
Defined.

Lemma as_str_list_member (tool : string) (items : list Json) (names : list string) :
  mapM as_str items = Some names →
  existsb (py_eq (JStr tool)) items = in_str_list (JStr tool) names
  ∧ py_truthy (JList items) = list_truthy (Some names).
Proof.
  intros Hitems. apply mapM_Some in Hitems.
  split.
  - induction Hitems as [|item name items names Hitem _ IH]; [done|].
    destruct item; try discriminate. injection Hitem as ->.
    cbn [existsb in_str_list]. unfold in_str_list in IH. by rewrite IH.
  - by destruct Hitems.
Qed.

Lemma as_optional_str_list_member (tool : string) (v : Json)
    (names : option (list string)) :
  as_optional_str_list v = Some names →
  list_truthy names && in_str_list (JStr tool) (default [] names)
  = py_truthy v && listed_in tool v
  ∧ list_truthy names && negb (in_str_list (JStr tool) (default [] names))
    = py_truthy v && negb (listed_in tool v).
Proof.
  destruct v as [| | | |items|]; try discriminate.
  - by intros [= <-].
  - unfold as_optional_str_list, as_str_list.
    destruct (mapM as_str items) as [l|] eqn:Hitems; [|discriminate].
    intros [= <-]. destruct (as_str_list_member tool items l Hitems) as [Hmember Htruthy].
    cbn [listed_in default]. by rewrite Hmember, Htruthy.
Qed.

(** X16.  The filters written in the configuration data are the filters
    the proxy applies.  For an entry that [load_config] registers, a tool
    name is allowed afterwards exactly when it is not a member of the
    entry's non-empty [blacklist] and, should the entry have a non-empty
    [whitelist], is a member of it; a list that is missing, [null] or
    empty filters nothing. *)
Theorem loaded_filter_enforced (shlex_split : Json → Exc (list string))
    (config_data : Json) (entries : list (string * Json)) (self after : MCPProxy.t)
    (name : string) (server_dict whitelist blacklist : Json)
    (config : MCPServerConfig.t) (tool : string) :
  py_get config_data "mcpServers" (JObj []) = Return (JObj entries) →
  NoDup entries.*1 →
  Forall (λ entry, typed_entry (snd entry)) entries →
  assoc name entries = Some server_dict →
  entry_config shlex_split name server_dict = Return (Some config) →
  py_get server_dict "whitelist" PyNone = Return whitelist →
  py_get server_dict "blacklist" PyNone = Return blacklist →
  load_config shlex_split config_data self = Some (Return (), after) →
  is_tool_allowed after name (JStr tool)
  = negb (py_truthy blacklist && listed_in tool blacklist)
    && negb (py_truthy whitelist && negb (listed_in tool whitelist)).
Proof.
  intros Hentries Hnodup Htyped Hentry Haccepted Hwhite Hblack Hload.
  destruct (load_entries_spec shlex_split entries self Hnodup Htyped)
    as (after' & Hload' & Hservers & _).
  unfold load_config in Hload. rewrite Hentries, Hload' in Hload.
  injection Hload as <-.
  specialize (Hservers name). rewrite Hentry, Haccepted in Hservers.
  destruct (entry_config_name _ _ _ _ Haccepted) as (command & args & Hread).
  destruct (read_config_name _ _ _ _ _ Hread)
    as (_ & _ & _ & _ & _ & _ & whitelist' & blacklist' & Hw & Hb & Hwl & Hbl).
  rewrite Hwhite in Hw. injection Hw as <-.
  rewrite Hblack in Hb. injection Hb as <-.
  unfold is_tool_allowed. rewrite Hservers.
  destruct (as_optional_str_list_member tool _ _ Hbl) as [-> _].
  destruct (as_optional_str_list_member tool _ _ Hwl) as [_ ->].
  by destruct (py_truthy blacklist && listed_in tool blacklist),
       (py_truthy whitelist && negb (listed_in tool whitelist)).
Qed.

Lemma loaded_filter_enforced_witness :
  let after := add_server files_config (__init__ "mcp-proxy") in
  load_config plain_split sample_config (__init__ "mcp-proxy") = Some (Return (), after)
  ∧ is_tool_allowed after "files" (JStr "delete") = false
  ∧ is_tool_allowed after "files" (JStr "read") = true.
Proof.
  intros after.
  assert (Hnodup : NoDup sample_entries.*1).
  { apply (bool_decide_unpack _). vm_compute. reflexivity. }
  assert (Hconfig : load_config plain_split sample_config (__init__ "mcp-proxy")
                    = Some (Return (), after)) by reflexivity.
  split; [exact Hconfig|]. split.
  - exact (loaded_filter_enforced plain_split sample_config sample_entries
             (__init__ "mcp-proxy") after "files" files_entry PyNone
             (JList [ JStr "delete" ]) files_config "delete"
             eq_refl Hnodup sample_entries_typed eq_refl eq_refl eq_refl eq_refl Hconfig).
  - exact (loaded_filter_enforced plain_split sample_config sample_entries
             (__init__ "mcp-proxy") after "files" files_entry PyNone
             (JList [ JStr "delete" ]) files_config "read"
             eq_refl Hnodup sample_entries_typed eq_refl eq_refl eq_refl eq_refl Hconfig).
Defined.

(** ** An embedded backend from registration to its first answer *)

(** X17.  [add_python_server] followed by [start_server] makes the backend
    answer.  [start_server] reports success, and [tools/list] on the
    endpoint lists the tools of the instance that serves, filtered by the
    whitelist and the blacklist just given.  The instance that serves is
    the one registered, unless a Python backend of that name was running
    already: that one is kept, so the tools listed are those of the old
    instance under the filters of the new registration. *)
Theorem python_backend_serves (os : Os) (instance : BaseMCP)
    (whitelist blacklist : option (list string)) (self : MCPProxy.t)
    (message id : Json) :
  _is_valid_jsonrpc_message message = true →
  py_get message "method" PyNone = Return (JStr "tools/list") →
  py_get message "id" PyNone = Return id →
  py_eq id id = true →
  let name := mcp_name instance in
  let registered := snd (add_python_server instance whitelist blacklist self) in
  let started := start_server os name registered in
  let serving := default instance (PythonMCPServer.mcp <$> python_servers self !! name) in
  let allowed := λ tool_name,
    negb (list_truthy blacklist && in_str_list tool_name (default [] blacklist))
    && negb (list_truthy whitelist && negb (in_str_list tool_name (default [] whitelist))) in
  fst started = true
  ∧ (∀ tool_name, is_tool_allowed (snd started) name tool_name = allowed tool_name)
  ∧ _handle_tools_list_for_server message name (snd started)
    = (Return (result_response id
                 (JObj [ ("tools",
                          JList (List.filter
                                   (λ tool, py_truthy (tool_name_of tool)
                                            && allowed (tool_name_of tool))
                                   (get_tools serving))) ])),
       set_calls (calls self ++ [ CallForward name message ])%list (snd started)).
Proof.
  intros Hvalid Hmethod Hid Hrefl name registered started serving allowed.
  assert (Hregistered : registered = add_server (python_config instance whitelist blacklist) self)
    by reflexivity.
  assert (Hconfig : servers registered !! name
                    = Some (python_config instance whitelist blacklist)).
  { rewrite Hregistered. apply lookup_insert_eq. }
  assert (Hstarted : fst started = true
            ∧ servers (snd started) = servers registered
            ∧ calls (snd started) = calls self
            ∧ python_servers (snd started) !! name
              = Some {| PythonMCPServer.mcp := serving |}).
  { unfold started, start_server, serving. rewrite Hconfig. cbn [MCPServerConfig.python_mcp python_config].
    change (python_servers registered) with (python_servers self).
    destruct (python_servers self !! name) as [[old]|] eqn:Hold; cbn.
    - by rewrite Hold.
    - by rewrite lookup_insert_eq. }
  destruct Hstarted as (Hok & Hservers & Hcalls & Hpython).
  assert (Hallowed : ∀ tool_name,
            is_tool_allowed (snd started) name tool_name = allowed tool_name).
  { intros tool_name. unfold is_tool_allowed. rewrite Hservers, Hconfig.
    unfold allowed. cbn [MCPServerConfig.blacklist MCPServerConfig.whitelist python_config].
    by destruct (list_truthy blacklist && in_str_list tool_name (default [] blacklist)),
         (list_truthy whitelist && negb (in_str_list tool_name (default [] whitelist))). }
  split; [exact Hok|]. split; [exact Hallowed|].
  rewrite (tools_list_of_python_server _ _ _ _ _ Hpython Hvalid Hmethod Hid Hrefl).
  rewrite Hcalls. cbn [PythonMCPServer.mcp].
  assert (List.filter (listed (snd started) name) (get_tools serving)
          = List.filter (λ tool, py_truthy (tool_name_of tool)
                                 && allowed (tool_name_of tool))
              (get_tools serving)) as ->; [|reflexivity].
  apply filter_ext. intros tool. unfold listed. by rewrite Hallowed.
Qed.

Lemma python_backend_serves_witness :
  let started := start_server quiet_os "echo"
                   (snd (add_python_server echo None (Some [ "say" ])
                           (__init__ "mcp-proxy"))) in
  fst started = true
  ∧ _handle_tools_list_for_server (tools_list (JInt 2)) "echo" (snd started)
    = (Return (result_response (JInt 2) (JObj [ ("tools", JList []) ])),
       set_calls [ CallForward "echo" (tools_list (JInt 2)) ] (snd started)).
Proof.
  intros started.
  destruct (python_backend_serves quiet_os echo None (Some [ "say" ]) (__init__ "mcp-proxy")
              (tools_list (JInt 2)) (JInt 2) eq_refl eq_refl eq_refl eq_refl)
    as (Hok & _ & Hlist).
  split; [exact Hok|exact Hlist].
Defined.

(* ================================================================== *)
(** * The guard and the error responses, seen from the client *)
(* ================================================================== *)

(** One line that is read and handled: the client is sent the value
    computed for the message, if it is truthy. *)
Lemma sent_spec (nbytes : Z) (message : Json) (server_name : string)
    (self : MCPProxy.t) :
  served nbytes self →
  sent nbytes message server_name self
  = match fst (handle_message message server_name (entered self)) with
    | Return r => if py_truthy r then [ r ] else []
    | Raise _ => []
    end.
Proof.
  intros (Hrunning & Hfree & Hsize).
  unfold sent, _handle_client_for_server, entered, enter, available in *.
  unfold BoundedSemaphore.acquire_nonblocking.
  destruct (BoundedSemaphore._value (connection_semaphore self)) as [|n] eqn:Hvalue;
    [lia|].
  cbn [negb fst snd]. unfold serve. cbn [incoming outgoing connect message_loop].
  cbn [running max_message_bytes set_connection_semaphore]. rewrite Hrunning. cbn [negb].
  destruct (Z.ltb_spec (max_message_bytes self) nbytes) as [?|_]; [lia|].
  destruct (handle_message message server_name _) as [[r|e] self'];
    cbn [fst snd]; [|reflexivity].
  by destruct (negb (running self')).
Qed.

Lemma log_received_returns (message method : Json) :
  py_get message "method" PyNone = Return method →
  py_eq method (JStr "tools/call") = false →
  _log_received_message message = Return ().
Proof.
  intros Hmethod Hcall. destruct message as [| | | | |kvs]; try discriminate Hmethod.
  unfold _log_received_message. rewrite Hmethod. cbn [exc_bind isinstance_dict py_get].
  by rewrite Hcall.
Qed.

Lemma log_received_call (message params tool_name : Json) :
  py_get message "params" (JObj []) = Return params →
  py_get params "name" PyNone = Return tool_name →
  _log_received_message message = Return ().
Proof.
  intros Hparams Hname. destruct message as [| | | | |kvs]; try discriminate Hparams.
  unfold _log_received_message. cbn [py_get exc_bind isinstance_dict] in *.
  injection Hparams as Hparams. rewrite Hparams, Hname. cbn [exc_bind].
  by destruct (py_eq _ _).
Qed.

Lemma py_eq_is_str (v : Json) (s : string) : py_eq v (JStr s) = true → v = JStr s.
Proof. destruct v; try discriminate. cbn. by intros ->%String.eqb_eq. Qed.

(** The dispatch of the message loop on the method. *)
Lemma handle_message_other (message method : Json) (server_name : string)
    (self : MCPProxy.t) :
  py_get message "method" PyNone = Return method →
  py_eq method (JStr "tools/list") = false →
  py_eq method (JStr "tools/call") = false →
  py_eq method (JStr "initialize") = false →
  handle_message message server_name self = _forward_to_server server_name message self.
Proof.
  intros Hmethod Hlist Hcall Hinit. unfold handle_message.
  rewrite (log_received_returns _ _ Hmethod Hcall), run_bind_lift_return.
  by rewrite Hmethod, run_bind_lift_return, Hlist, Hcall, Hinit.
Qed.

Lemma handle_message_list (message : Json) (server_name : string) (self : MCPProxy.t) :
  py_get message "method" PyNone = Return (JStr "tools/list") →
  handle_message message server_name self
  = _handle_tools_list_for_server message server_name self.
Proof.
  intros Hmethod. unfold handle_message.
  rewrite (log_received_returns _ _ Hmethod eq_refl), run_bind_lift_return.
  by rewrite Hmethod, run_bind_lift_return.
Qed.

Lemma handle_message_initialize (message : Json) (server_name : string)
    (self : MCPProxy.t) :
  py_get message "method" PyNone = Return (JStr "initialize") →
  handle_message message server_name self
  = _handle_initialize_for_server message server_name self.
Proof.
  intros Hmethod. unfold handle_message.
  rewrite (log_received_returns _ _ Hmethod eq_refl), run_bind_lift_return.
  by rewrite Hmethod, run_bind_lift_return.
Qed.

Lemma handle_message_call (message params tool_name : Json) (server_name : string)
    (self : MCPProxy.t) :
  py_get message "method" PyNone = Return (JStr "tools/call") →
  py_get message "params" (JObj []) = Return params →
  py_get params "name" PyNone = Return tool_name →
  handle_message message server_name self
  = _route_tool_call_to_server message server_name self.
Proof.
  intros Hmethod Hparams Hname. unfold handle_message.
  rewrite (log_received_call _ _ _ Hparams Hname), run_bind_lift_return.
  by rewrite Hmethod, run_bind_lift_return.
Qed.

(** What the guard of [_forward_to_server] makes of a reply. *)
Lemma forward_checked (self : MCPProxy.t) (server_name : string)
    (message id response : Json) :
  _is_valid_jsonrpc_message message = true →
  py_get message "id" PyNone = Return id →
  backend_reply self server_name message response →
  fst (_forward_to_server server_name message self)
  = Return (if is_none id then
              if _is_valid_jsonrpc_response response then response else PyNone
            else
              if _is_valid_jsonrpc_response response && py_eq (id_of response) id
              then response
              else error_response id (-32603) "Internal error").
Proof.
  intros Hvalid Hid Hreply.
  rewrite (forward_applies_check _ _ _ _ Hvalid Hreply).
  destruct (is_none id) eqn:Hnone.
  - destruct id; try discriminate Hnone. by apply check_response_without_id.
  - apply check_response_with_id; [done|]. intros ->. discriminate Hnone.
Qed.

(** The value of the guard is [None], the error response or a reply that
    passed the schema; [has_result] reads it as [carries_result] does. *)
Lemma has_result_checked (id response : Json) :
  let checked :=
    if is_none id then
      if _is_valid_jsonrpc_response response then response else PyNone
    else
      if _is_valid_jsonrpc_response response && py_eq (id_of response) id
      then response
      else error_response id (-32603) "Internal error" in
  has_result checked = Return (carries_result checked)
  ∧ (is_none checked = true → is_none id = true).
Proof.
  cbn zeta. destruct (is_none id) eqn:Hnone.
  - destruct (_is_valid_jsonrpc_response response) eqn:Hvalid; [|done].
    split; [by apply has_result_valid|done].
  - destruct (_is_valid_jsonrpc_response response) eqn:Hvalid; cbn [andb]; [|done].
    destruct (py_eq (id_of response) id); [|done].
    split; [by apply has_result_valid|]. by destruct response.
Qed.

Lemma entered_eq (self : MCPProxy.t) :
  ∃ semaphore, entered self = set_connection_semaphore semaphore self.
Proof.
  unfold entered, enter.
  destruct (BoundedSemaphore.acquire_nonblocking (connection_semaphore self)) as [? sem].
  by exists sem.
Qed.

Lemma carries_result_truthy (r : Json) : carries_result r = true → py_truthy r = true.
Proof. destruct r as [| | | | |[|kv kvs]]; try discriminate; done. Qed.

(** C6, as the code has it.  For a valid message and a reply of the
    backend (any value the Python server returns; a truthy decoded line of
    a child process), on a connection whose line is read and handled.
    [_forward_to_server] checks the reply: when the id of the message is
    present and not null, it returns the reply unchanged if it satisfies
    the response schema and its id equals ([==]) the id of the message,
    and otherwise the error response with code -32603 and the id of the
    message; when the message has no id or a null one, it returns the
    reply unchanged if it satisfies the schema, whatever its id, and
    otherwise nothing.  The client is sent that value (nothing when it is
    nothing) for every method but [tools/list] and [initialize], for
    [tools/call] on a backend without interceptors and a tool that is
    allowed.  For [initialize] the client is sent the checked value only
    if it carries a result, and the default answer otherwise; for
    [tools/list] a checked value without a result, the error with code
    -32603 among them, is answered with the empty list of tools, and one
    whose result holds a list of dictionaries under [tools] with that list
    filtered. *)
Theorem forward_checks_reply (self : MCPProxy.t) (server_name : string)
    (message id method response : Json) (nbytes : Z) :
  _is_valid_jsonrpc_message message = true →
  py_get message "id" PyNone = Return id →
  py_get message "method" PyNone = Return method →
  backend_reply self server_name message response →
  served nbytes self →
  let checked :=
    if is_none id then
      if _is_valid_jsonrpc_response response then response else PyNone
    else
      if _is_valid_jsonrpc_response response && py_eq (id_of response) id
      then response
      else error_response id (-32603) "Internal error" in
  let written := sent nbytes message server_name self in
  fst (_forward_to_server server_name message self) = Return checked
  ∧ (py_eq method (JStr "tools/list") = false →
     py_eq method (JStr "tools/call") = false →
     py_eq method (JStr "initialize") = false →
     written = if py_truthy checked then [ checked ] else [])
  ∧ (py_eq method (JStr "tools/call") = true →
     ∀ config params tool_name,
       servers self !! server_name = Some config →
       MCPServerConfig.intercept_before config = ∅ →
       MCPServerConfig.intercept_after config = ∅ →
       py_get message "params" (JObj []) = Return params →
       py_get params "name" PyNone = Return tool_name →
       py_truthy tool_name = true →
       is_tool_allowed self server_name tool_name = true →
       written = if py_truthy checked then [ checked ] else [])
  ∧ (py_eq method (JStr "initialize") = true →
     written = [ if carries_result checked then checked
                 else default_initialize id server_name ])
  ∧ (py_eq method (JStr "tools/list") = true →
     carries_result checked = false →
     written = [ result_response id (JObj [ ("tools", JList []) ]) ])
  ∧ (py_eq method (JStr "tools/list") = true →
     ∀ kvs result tools,
       checked = JObj kvs →
       assoc "result" kvs = Some (JObj result) →
       default (JList []) (assoc "tools" result) = JList tools →
       Forall (λ tool, isinstance_dict tool = true) tools →
       written = [ result_response id
                     (JObj [ ("tools",
                              JList (List.filter (listed self server_name) tools)) ]) ]).
Proof.
  intros Hvalid Hid Hmethod Hreply Hserved checked written.
  destruct (has_result_checked id response) as [Hresult Hnone]. fold checked in Hresult, Hnone.
  destruct (entered_eq self) as [semaphore Hentered].
  set (proxy := set_connection_semaphore semaphore self) in *.
  assert (Hforward : ∃ proxy', _forward_to_server server_name message proxy
                               = (Return checked, proxy')
                               ∧ servers proxy' = servers self).
  { pose proof (forward_checked proxy server_name message id response Hvalid Hid Hreply)
      as Hfst.
    destruct (forward_calls server_name message proxy) as [_ Hservers].
    destruct (_forward_to_server server_name message proxy) as [v proxy'].
    cbn [fst snd] in *. subst v. by exists proxy'. }
  destruct Hforward as (proxy' & Hforward & Hservers).
  unfold written. rewrite (sent_spec _ _ _ _ Hserved), Hentered. fold proxy.
  split; [by apply forward_checked|]. split; [|split; [|split; [|split]]].
  5:{ intros Hlist kvs result tools Hdict Hhas Htools Hdicts.
      apply py_eq_is_str in Hlist. subst method.
      rewrite (handle_message_list _ _ _ Hmethod).
      unfold _handle_tools_list_for_server.
      rewrite (run_bind_eq _ _ _ _ _ Hforward), Hresult, Hdict.
      assert (carries_result (JObj kvs) = true) as ->
        by (unfold carries_result, has_key; by rewrite Hhas).
      rewrite run_bind_lift_return. cbn [py_index]. rewrite Hhas.
      rewrite run_bind_lift_return. cbn [py_get]. rewrite Htools.
      rewrite run_bind_lift_return. cbn [py_iter].
      rewrite run_bind_lift_return, run_bind_get_self.
      rewrite (filter_tools_dicts _ _ _ Hdicts), run_bind_lift_return.
      rewrite Hid, run_bind_lift_return, ret_eq. cbn [fst py_truthy].
      assert (List.filter (listed proxy' server_name) tools
              = List.filter (listed self server_name) tools) as ->; [|reflexivity].
      apply List.filter_ext. intros tool. unfold listed.
      by rewrite (is_tool_allowed_servers self proxy'). }
  - intros Hlist Hcall Hinit.
    by rewrite (handle_message_other _ _ _ _ Hmethod Hlist Hcall Hinit), Hforward.
  - intros Hcall config params tool_name Hreg Hbefore Hafter Hparams Hname Htruthy
      Hallowed.
    apply py_eq_is_str in Hcall. subst method.
    rewrite (handle_message_call _ _ _ _ _ Hmethod Hparams Hname).
    rewrite (route_allowed proxy _ _ _ _ Hparams Hname Htruthy Hallowed).
    rewrite (run_bind_eq _ _ _ _ _ (before_without_hooks proxy _ _ _ _ Hreg Hbefore)).
    unfold after_before.
    assert (is_none message = false) as -> by (by destruct message).
    rewrite (run_bind_eq _ _ _ _ _ Hforward). unfold after_forward.
    destruct (is_none checked) eqn:Hchecked.
    + specialize (Hnone eq_refl). destruct id; try discriminate Hnone.
      rewrite lift_eq, (create_error_response_without_id _ _ _ Hid). cbn [fst].
      by destruct checked.
    + assert (Hreg' : servers proxy' !! server_name = Some config) by (by rewrite Hservers).
      rewrite (run_bind_eq _ _ _ _ _
                 (after_without_hooks proxy' _ _ _ _ _ Hreg' Hafter)).
      by rewrite Hchecked.
  - intros Hinit. apply py_eq_is_str in Hinit. subst method.
    rewrite (handle_message_initialize _ _ _ Hmethod).
    unfold _handle_initialize_for_server.
    rewrite (run_bind_eq _ _ _ _ _ Hforward), Hresult, run_bind_lift_return.
    destruct (carries_result checked) eqn:Hcarries.
    + rewrite ret_eq. cbn [fst]. by rewrite (carries_result_truthy _ Hcarries).
    + by rewrite Hid, run_bind_lift_return, ret_eq.
  - intros Hlist Hcarries. apply py_eq_is_str in Hlist. subst method.
    rewrite (handle_message_list _ _ _ Hmethod).
    unfold _handle_tools_list_for_server.
    rewrite (run_bind_eq _ _ _ _ _ Hforward), Hresult, run_bind_lift_return, Hcarries.
    by rewrite Hid, run_bind_lift_return, ret_eq.
Qed.

Lemma forward_checks_reply_witness :
  let message := ping (JInt 1) in
  let response := result_response (JInt 9) (JObj []) in
  (_is_valid_jsonrpc_message message = true
   ∧ py_get message "id" PyNone = Return (JInt 1)
   ∧ py_get message "method" PyNone = Return (JStr "ping")
   ∧ backend_reply nine_reply_proxy "utility" message response
   ∧ served 40 nine_reply_proxy)
  ∧ fst (_forward_to_server "utility" message nine_reply_proxy)
    = Return (error_response (JInt 1) (-32603) "Internal error")
  ∧ sent 40 message "utility" nine_reply_proxy
    = [ error_response (JInt 1) (-32603) "Internal error" ].
Proof.
  intros message response.
  assert (Hreply : backend_reply nine_reply_proxy "utility" message response).
  { exists (child [ Line (Return response) ]). repeat split; reflexivity. }
  assert (Hserved : served 40 nine_reply_proxy).
  { split; [reflexivity|]. split; [|discriminate]. cbn. lia. }
  split; [split; [reflexivity|split; [reflexivity|split; [reflexivity|split;
            [exact Hreply|exact Hserved]]]]|].
  destruct (forward_checks_reply nine_reply_proxy "utility" message (JInt 1) (JStr "ping")
              response 40 eq_refl eq_refl eq_refl Hreply Hserved)
    as (Hforward & Hother & _).
  split; [exact Hforward|]. exact (Hother eq_refl eq_refl eq_refl).
Defined.

(** C6, the claim refuted.  A child answers [tools/list] with the id 99
    where the request has the id 2: [_forward_to_server] returns the error
    with code -32603, and the client is sent a result, the empty list of
    tools.  A child answers a request with the empty object, which fails
    the schema: the client is sent code -32003, not -32603.  A child
    answers a message whose id is null with a response whose id is 9: the
    response is returned as it is. *)
Lemma correlation_guard_gaps :
  fst (_forward_to_server "utility" (tools_list (JInt 2)) wrong_id_proxy)
  = Return (error_response (JInt 2) (-32603) "Internal error")
  ∧ sent 40 (tools_list (JInt 2)) "utility" wrong_id_proxy
    = [ result_response (JInt 2) (JObj [ ("tools", JList []) ]) ]
  ∧ sent 40 (ping (JInt 1)) "utility" empty_reply_proxy
    = [ error_response (JInt 1) (-32003) "No response from server (timeout)" ]
  ∧ _is_valid_jsonrpc_response (JObj []) = false
  ∧ sent 40 (ping JNull) "utility" nine_reply_proxy
    = [ result_response (JInt 9) (JObj []) ]
  ∧ py_eq (id_of (result_response (JInt 9) (JObj []))) JNull = false.
Proof. repeat split; reflexivity. Qed.







